(** * The consensus engine of qwen_agi_system, embedded in Rocq

    Source: [qwen_agi_system/core/multi_agent_consensus_system.py] and the
    data classes of [qwen_agi_system/core/ten_agent_architecture.py].

    The Python code is embedded shallowly:
    - a Python [float] is a rational or NaN ([pyfloat]); rounding and
      infinities are idealised away, comparisons and [min] follow Python's
      rules for NaN;
    - a [str] is a [string] of bytes: lengths, slices and case agree with
      Python on ASCII text;
    - a [dict] is an association list in insertion order;
    - [AgentThought] and [ConsensusDeliberation] objects live in a store and
      are passed by reference, because the resolver mutates them in place;
    - a method is a computation in a state-and-exception monad [M]; the
      names a class does not define raise [AttributeError] when looked up;
    - logging is left out; the clock is a field of the store. *)

From Stdlib Require Import String Ascii List ZArith QArith Lia Bool Lqa.
From Stdlib Require Import DecimalString Qminmax.
Import ListNotations.
Local Open Scope string_scope.
Local Open Scope Q_scope.

Set Implicit Arguments.

(* ================================================================== *)
(** ** Fragments of the Python runtime *)
(* ================================================================== *)

Module Py.

(** Exceptions; all of them derive from [Exception]. *)
Inductive exn : Type :=
| TypeError (msg : string)
| AttributeError (cls attr : string)
| KeyError (key : string)
| ZeroDivisionError.

Inductive result (A : Type) : Type :=
| Ok (a : A)
| Raise (e : exn).
Arguments Ok {A} a.
Arguments Raise {A} e.

(** *** Floats *)

Inductive pyfloat : Type :=
| Fin (q : Q)
| NaN.

Definition Qltb (x y : Q) : bool := negb (Qle_bool y x).

Definition fbin (op : Q -> Q -> Q) (a b : pyfloat) : pyfloat :=
  match a, b with
  | Fin x, Fin y => Fin (op x y)
  | _, _ => NaN
  end.

Definition fadd := fbin Qplus.
Definition fsub := fbin Qminus.
Definition fmul := fbin Qmult.
(** Division; every call site in the source guards the divisor. *)
Definition fdiv := fbin Qdiv.

Definition flt (a b : pyfloat) : bool :=
  match a, b with
  | Fin x, Fin y => Qltb x y
  | _, _ => false
  end.
Definition fgt (a b : pyfloat) : bool := flt b a.
Definition fle (a b : pyfloat) : bool :=
  match a, b with
  | Fin x, Fin y => Qle_bool x y
  | _, _ => false
  end.
Definition fge (a b : pyfloat) : bool := fle b a.
Definition fne (a b : pyfloat) : bool :=
  match a, b with
  | Fin x, Fin y => negb (Qeq_bool x y)
  | _, _ => true
  end.

(** [min(a, b)]: the later argument wins only when strictly smaller. *)
Definition fmin (a b : pyfloat) : pyfloat := if flt b a then b else a.

Definition of_nat (n : nat) : pyfloat := Fin (inject_Z (Z.of_nat n)).

(** [sum(xs)] *)
Definition fsum (xs : list pyfloat) : pyfloat := fold_left fadd xs (Fin 0).

(** [max(xs)] on a non-empty list, keeping the first maximum. *)
Definition fmax_list (x : pyfloat) (xs : list pyfloat) : pyfloat :=
  fold_left (fun m y => if fgt y m then y else m) xs x.

(** [np.mean]: NaN (and a warning) on the empty list. *)
Definition np_mean (xs : list pyfloat) : pyfloat :=
  match xs with
  | [] => NaN
  | _ => fdiv (fsum xs) (of_nat (length xs))
  end.

(** [np.var]: the mean of the squared deviations. *)
Definition np_var (xs : list pyfloat) : pyfloat :=
  let m := np_mean xs in
  np_mean (map (fun x => fmul (fsub x m) (fsub x m)) xs).

(** The interval of a well-formed confidence. *)
Definition in_unit (f : pyfloat) : Prop :=
  match f with
  | Fin q => 0 <= q /\ q <= 1
  | NaN => False
  end.

(** *** Strings *)

Definition is_upper (c : ascii) : bool :=
  let n := nat_of_ascii c in (65 <=? n)%nat && (n <=? 90)%nat.
Definition is_lower (c : ascii) : bool :=
  let n := nat_of_ascii c in (97 <=? n)%nat && (n <=? 122)%nat.
Definition to_lower (c : ascii) : ascii :=
  if is_upper c then ascii_of_nat (nat_of_ascii c + 32) else c.
Definition to_upper (c : ascii) : ascii :=
  if is_lower c then ascii_of_nat (nat_of_ascii c - 32) else c.

(** [s.lower()] *)
Fixpoint lower (s : string) : string :=
  match s with
  | EmptyString => EmptyString
  | String c s' => String (to_lower c) (lower s')
  end.

(** [kw in s] *)
Fixpoint contains (kw s : string) : bool :=
  prefix kw s ||
  match s with
  | EmptyString => false
  | String _ s' => contains kw s'
  end.

(** [str.isspace] on one ASCII character. *)
Definition isspace (c : ascii) : bool :=
  let n := nat_of_ascii c in
  ((9 <=? n)%nat && (n <=? 13)%nat) || ((28 <=? n)%nat && (n <=? 32)%nat).

(** [s.split()]: the maximal runs of non-blank characters. *)
Fixpoint split_from (cur : string) (s : string) : list string :=
  match s with
  | EmptyString => if String.eqb cur "" then [] else [cur]
  | String c s' =>
      if isspace c
      then (if String.eqb cur "" then split_from "" s'
            else cur :: split_from "" s')
      else split_from (cur ++ String c "") s'
  end.
Definition split (s : string) : list string := split_from "" s.

(** [s.replace(a, b)] for single characters. *)
Fixpoint replace_char (a b : ascii) (s : string) : string :=
  match s with
  | EmptyString => EmptyString
  | String c s' => String (if Ascii.eqb c a then b else c) (replace_char a b s')
  end.

(** [s.title()]: a letter is upper-cased after a non-letter and lower-cased
    after a letter. *)
Fixpoint title_from (after_letter : bool) (s : string) : string :=
  match s with
  | EmptyString => EmptyString
  | String c s' =>
      let letter := is_upper c || is_lower c in
      String (if after_letter then to_lower c else to_upper c)
             (title_from letter s')
  end.
Definition title (s : string) : string := title_from false s.

(** [sep.join(parts)] *)
Definition join (sep : string) (parts : list string) : string :=
  String.concat sep parts.

(** [str(n)] for an integer. *)
Definition str_of_Z (z : Z) : string := NilZero.string_of_int (Z.to_int z).

(** [f"{x:.2f}"]: two decimals, ties to even. *)
Definition format_2f (x : pyfloat) : string :=
  match x with
  | NaN => "nan"
  | Fin q =>
      let n := (Z.abs (Qnum q) * 100)%Z in
      let d := Zpos (Qden q) in
      let fl := (n / d)%Z in
      let r := (n mod d)%Z in
      let h :=
        match (2 * r ?= d)%Z with
        | Lt => fl
        | Gt => (fl + 1)%Z
        | Eq => if Z.even fl then fl else (fl + 1)%Z
        end in
      let cents := (h mod 100)%Z in
      (if (Qnum q <? 0)%Z then "-" else "") ++
      str_of_Z (h / 100) ++ "." ++
      (if (cents <? 10)%Z then "0" else "") ++ str_of_Z cents
  end.

(** *** Sets of strings, as used by [set(...)], [intersection], [union] *)

Definition set_of (xs : list string) : list string := nodup string_dec xs.
Definition mem (x : string) (xs : list string) : bool :=
  existsb (String.eqb x) xs.
Definition intersection (a b : list string) : list string :=
  filter (fun x => mem x b) a.
Definition union (a b : list string) : list string := set_of (a ++ b).

End Py.
Import Py.

(* ================================================================== *)
(** ** Data model ([ten_agent_architecture.py]) *)
(* ================================================================== *)

Inductive AgentRole : Type :=
| QUEEN_COORDINATOR | CODE_ARCHITECT | SECURITY_SPECIALIST
| PERFORMANCE_OPTIMIZER | UI_UX_DESIGNER | INTEGRATION_EXPERT
| TESTING_QUALITY | DOCUMENTATION_TECH_WRITER | DATA_ANALYTICS
| INNOVATION_STRATEGIST.

Definition AgentRole_eq_dec (a b : AgentRole) : {a = b} + {a <> b}.
Proof. decide equality. Defined.

Definition role_eqb (a b : AgentRole) : bool :=
  if AgentRole_eq_dec a b then true else false.

(** [role.value] *)
Definition role_value (r : AgentRole) : string :=
  match r with
  | QUEEN_COORDINATOR => "queen_coordinator"
  | CODE_ARCHITECT => "code_architect"
  | SECURITY_SPECIALIST => "security_specialist"
  | PERFORMANCE_OPTIMIZER => "performance_optimizer"
  | UI_UX_DESIGNER => "ui_ux_designer"
  | INTEGRATION_EXPERT => "integration_expert"
  | TESTING_QUALITY => "testing_quality"
  | DOCUMENTATION_TECH_WRITER => "documentation_tech_writer"
  | DATA_ANALYTICS => "data_analytics"
  | INNOVATION_STRATEGIST => "innovation_strategist"
  end.

Inductive TaskPriority : Type := CRITICAL | HIGH | MEDIUM | LOW | BACKGROUND.

Inductive ConsensusLevel : Type :=
| UNANIMOUS | MAJORITY_SUPER | MAJORITY_STRONG | MAJORITY_SIMPLE
| PLURALITY | SPECIALIST_OVERRIDE.

Record AgentThought : Type := mkAgentThought {
  agent_id : string;
  agent_role : AgentRole;
  thought_id : string;
  content : string;
  reasoning : string;
  confidence : pyfloat;
  timestamp : Z;
  dependencies : list string;
  evidence : list string;
  alternatives : list string
}.

Record CollectiveInsight : Type := mkCollectiveInsight {
  insight_id : string;
  contributing_agents : list AgentRole;
  synthesized_content : string;
  consensus_level : ConsensusLevel;
  confidence_score : pyfloat;
  conflicting_views : list (AgentRole * string);
  synthesis_method : string
}.

(** [AGITask], without the fields no method of the consensus system reads
    ([context], [deadline], [dependencies], [quality_threshold]). *)
Record AGITask : Type := mkAGITask {
  task_id : string;
  description : string;
  priority : TaskPriority;
  required_agents : list AgentRole;
  created_at : Z
}.

(** The part of [BaseAgent] the consensus system reads. *)
Record BaseAgent : Type := mkBaseAgent {
  base_agent_id : string;
  role : AgentRole
}.

(** Attribute assignments on an [AgentThought]. *)
Definition set_confidence (t : AgentThought) (c : pyfloat) : AgentThought :=
  mkAgentThought (agent_id t) (agent_role t) (thought_id t) (content t)
    (reasoning t) c (timestamp t) (dependencies t) (evidence t)
    (alternatives t).
Definition set_reasoning (t : AgentThought) (r : string) : AgentThought :=
  mkAgentThought (agent_id t) (agent_role t) (thought_id t) (content t)
    r (confidence t) (timestamp t) (dependencies t) (evidence t)
    (alternatives t).
Definition set_content (t : AgentThought) (c : string) : AgentThought :=
  mkAgentThought (agent_id t) (agent_role t) (thought_id t) c
    (reasoning t) (confidence t) (timestamp t) (dependencies t) (evidence t)
    (alternatives t).

(** *** Dictionaries keyed by [AgentRole], in insertion order *)

Section Dict.
Variable V : Type.

Definition dict := list (AgentRole * V).

Fixpoint dict_get (d : dict) (k : AgentRole) : option V :=
  match d with
  | [] => None
  | (k', v) :: d' => if role_eqb k' k then Some v else dict_get d' k
  end.

(** [d.get(k, default)] *)
Definition dict_get_default (d : dict) (k : AgentRole) (dflt : V) : V :=
  match dict_get d k with Some v => v | None => dflt end.

(** [k in d] *)
Definition dict_mem (d : dict) (k : AgentRole) : bool :=
  match dict_get d k with Some _ => true | None => false end.

(** [d[k] = v]: an existing key keeps its place, a new one goes last. *)
Fixpoint dict_set (d : dict) (k : AgentRole) (v : V) : dict :=
  match d with
  | [] => [(k, v)]
  | (k', v') :: d' =>
      if role_eqb k' k then (k, v) :: d' else (k', v') :: dict_set d' k v
  end.

Definition keys (d : dict) : list AgentRole := map fst d.
Definition values (d : dict) : list V := map snd d.
End Dict.

(* ================================================================== *)
(** ** Enumerations and records of [multi_agent_consensus_system.py] *)
(* ================================================================== *)

Inductive ConsensusStrategy : Type :=
| WEIGHTED_VOTING | SPECIALIST_AUTHORITY | EVIDENCE_BASED
| COLLABORATIVE_SYNTHESIS | ITERATIVE_REFINEMENT | CONFLICT_RESOLUTION
| EMERGENT_AGREEMENT | HYBRID_ADAPTIVE.

Definition strategy_value (s : ConsensusStrategy) : string :=
  match s with
  | WEIGHTED_VOTING => "weighted_voting"
  | SPECIALIST_AUTHORITY => "specialist_authority"
  | EVIDENCE_BASED => "evidence_based"
  | COLLABORATIVE_SYNTHESIS => "collaborative_synthesis"
  | ITERATIVE_REFINEMENT => "iterative_refinement"
  | CONFLICT_RESOLUTION => "conflict_resolution"
  | EMERGENT_AGREEMENT => "emergent_agreement"
  | HYBRID_ADAPTIVE => "hybrid_adaptive"
  end.

Inductive DeliberationPhase : Type :=
| INITIAL_POSITIONS | EVIDENCE_PRESENTATION | CROSS_VALIDATION
| NEGOTIATION | SYNTHESIS | VALIDATION.

(** [VotingMethod.UNANIMOUS] is written [UNANIMOUS_VOTE], the name being
    taken by [ConsensusLevel.UNANIMOUS]. *)
Inductive VotingMethod : Type :=
| SIMPLE_MAJORITY | SUPER_MAJORITY | QUALIFIED_MAJORITY | UNANIMOUS_VOTE
| WEIGHTED_CONSENSUS | CONDORCET | BORDA_COUNT | APPROVAL_VOTING.

Definition voting_value (v : VotingMethod) : string :=
  match v with
  | SIMPLE_MAJORITY => "simple_majority"
  | SUPER_MAJORITY => "super_majority"
  | QUALIFIED_MAJORITY => "qualified_majority"
  | UNANIMOUS_VOTE => "unanimous"
  | WEIGHTED_CONSENSUS => "weighted_consensus"
  | CONDORCET => "condorcet"
  | BORDA_COUNT => "borda_count"
  | APPROVAL_VOTING => "approval_voting"
  end.

Inductive ConflictType : Type :=
| FACTUAL_DISAGREEMENT | METHODOLOGICAL_CONFLICT | PRIORITY_DISAGREEMENT
| RESOURCE_ALLOCATION | STRATEGIC_DIVERGENCE | EXPERTISE_CLAIM
| VALUE_CONFLICT.

Definition ConflictType_eq_dec (a b : ConflictType) : {a = b} + {a <> b}.
Proof. decide equality. Defined.

Definition Conflict : Type := ConflictType * AgentRole * AgentRole * string.

Record ConsensusProposal : Type := mkConsensusProposal {
  proposal_id : string;
  proposing_agent : AgentRole;
  proposal_content : string;
  proposal_reasoning : string;
  proposal_evidence : list string;
  proposal_confidence : pyfloat;
  specialist_weight : pyfloat
}.

Record ConsensusDeliberation : Type := mkConsensusDeliberation {
  deliberation_id : string;
  task : AGITask;
  strategy : ConsensusStrategy;
  voting_method : VotingMethod;
  phases : list DeliberationPhase;
  proposals : list ConsensusProposal;
  agent_positions : dict string;
  evidence_registry : dict (list string);
  conflict_log : list Conflict;
  voting_record : dict (list string);
  final_consensus : option CollectiveInsight;
  deliberation_start : Z;
  deliberation_end : option Z;
  quality_metrics : list (string * pyfloat)
}.

(** The attributes of a [ConsensusDeliberation] object: the fields of the
    dataclass, in order, each with whether it has a default. *)
Definition ConsensusDeliberation_fields : list (string * bool) :=
  [ ("deliberation_id", false); ("task", false); ("strategy", false);
    ("voting_method", false); ("phases", false); ("proposals", false);
    ("agent_positions", false); ("evidence_registry", false);
    ("conflict_log", false); ("voting_record", false);
    ("final_consensus", true); ("deliberation_start", true);
    ("deliberation_end", true); ("quality_metrics", true) ].

(** The names defined in the body of [class MultiAgentConsensusSystem]. *)
Definition MultiAgentConsensusSystem_methods : list string :=
  [ "__init__"; "_initialize_consensus_strategies";
    "_initialize_voting_methods"; "_initialize_specialist_weights";
    "reach_consensus"; "_analyze_consensus_landscape";
    "_calculate_agreement_score"; "_text_similarity";
    "_weighted_voting_consensus"; "_specialist_authority_consensus";
    "_evidence_based_consensus"; "_collaborative_synthesis_consensus";
    "_iterative_refinement_consensus"; "_conflict_resolution_consensus";
    "_emergent_agreement_consensus"; "_hybrid_adaptive_consensus";
    "_determine_lead_specialist"; "_synthesize_weighted_positions";
    "_determine_consensus_level_from_weights";
    "_synthesize_specialist_leadership"; "_validate_consensus_quality";
    "_amplify_consensus_quality"; "_fallback_consensus";
    "get_consensus_analytics" ].

(** One entry of [ConsensusLearning.performance_history]. *)
Record LearningPattern : Type := mkLearningPattern {
  pattern_strategy : string;
  pattern_voting_method : string;
  pattern_agent_count : nat;
  pattern_conflict_count : nat;
  pattern_consensus_level : ConsensusLevel;
  pattern_confidence_score : pyfloat;
  pattern_processing_time : Z;
  pattern_timestamp : Z
}.

(* ================================================================== *)
(** ** The store and the monad of methods *)
(* ================================================================== *)

Definition tref := nat.  (* a reference to an [AgentThought] object *)
Definition dref := nat.  (* a reference to a [ConsensusDeliberation] object *)

(** A position map [Dict[AgentRole, AgentThought]] holds references. *)
Definition PosMap := dict tref.

Record World : Type := mkWorld {
  thoughts : tref -> AgentThought;
  next_thought : tref;
  deliberations : dref -> ConsensusDeliberation;
  next_deliberation : dref;
  (* the attributes of the [MultiAgentConsensusSystem] instance *)
  agents : dict BaseAgent;
  active_deliberations : list (string * dref);
  consensus_history : list dref;
  (* the attributes of its [ConsensusLearning] *)
  learning_patterns : list (string * list LearningPattern);
  performance_history : list LearningPattern;
  (* [time.time()] and [datetime.now()], in whole seconds *)
  clock : Z
}.

Definition M (A : Type) : Type := World -> result A * World.

Definition ret {A} (a : A) : M A := fun w => (Ok a, w).
Definition raise {A} (e : exn) : M A := fun w => (Raise e, w).
Definition bind {A B} (m : M A) (k : A -> M B) : M B :=
  fun w => match m w with
           | (Ok a, w') => k a w'
           | (Raise e, w') => (Raise e, w')
           end.
Definition lift {A} (r : result A) : M A := fun w => (r, w).

Notation "x <- m ;; k" := (bind m (fun x => k))
  (at level 61, m at next level, right associativity).
Notation "m ;;; k" := (bind m (fun _ => k))
  (at level 61, right associativity).

(** [try: body except Exception as e: handler e] *)
Definition try_except {A} (body : M A) (handler : exn -> M A) : M A :=
  fun w => match body w with
           | (Ok a, w') => (Ok a, w')
           | (Raise e, w') => handler e w'
           end.

(** [try: body finally: cleanup] *)
Definition try_finally {A} (body : M A) (cleanup : M unit) : M A :=
  fun w => match body w with
           | (r, w') =>
               match cleanup w' with
               | (Ok _, w'') => (r, w'')
               | (Raise e, w'') => (Raise e, w'')
               end
           end.

Definition get_world : M World := fun w => (Ok w, w).
Definition put_world (w : World) : M unit := fun _ => (Ok tt, w).

(** Looking up a name that the class of the object does not define. *)
Definition getattr_absent {A} (cls attr : string) : M A :=
  raise (AttributeError cls attr).

Definition now : M Z := fun w => (Ok (clock w), w).

(** Reading and writing [AgentThought] objects. *)
Definition read_thought (r : tref) : M AgentThought :=
  fun w => (Ok (thoughts w r), w).

Definition with_thoughts (w : World) (h : tref -> AgentThought) (n : tref)
  : World :=
  mkWorld h n (deliberations w) (next_deliberation w) (agents w)
    (active_deliberations w) (consensus_history w) (learning_patterns w)
    (performance_history w) (clock w).

Definition write_thought (r : tref) (t : AgentThought) : M unit :=
  fun w => (Ok tt,
            with_thoughts w
              (fun r' => if Nat.eqb r' r then t else thoughts w r')
              (next_thought w)).

Definition new_thought (t : AgentThought) : M tref :=
  fun w => let r := next_thought w in
           (Ok r,
            with_thoughts w
              (fun r' => if Nat.eqb r' r then t else thoughts w r')
              (S r)).

(** The items of a position map, read through the store. *)
Definition items_in (w : World) (m : PosMap) : dict AgentThought :=
  map (fun kr => (fst kr, thoughts w (snd kr))) m.
Definition items (m : PosMap) : M (dict AgentThought) :=
  fun w => (Ok (items_in w m), w).

(** Reading and writing [ConsensusDeliberation] objects. *)
Definition read_deliberation (d : dref) : M ConsensusDeliberation :=
  fun w => (Ok (deliberations w d), w).

Definition with_deliberations (w : World)
  (h : dref -> ConsensusDeliberation) (n : dref) : World :=
  mkWorld (thoughts w) (next_thought w) h n (agents w)
    (active_deliberations w) (consensus_history w) (learning_patterns w)
    (performance_history w) (clock w).

Definition write_deliberation (d : dref) (x : ConsensusDeliberation)
  : M unit :=
  fun w => (Ok tt,
            with_deliberations w
              (fun d' => if Nat.eqb d' d then x else deliberations w d')
              (next_deliberation w)).

Definition new_deliberation (x : ConsensusDeliberation) : M dref :=
  fun w => let d := next_deliberation w in
           (Ok d,
            with_deliberations w
              (fun d' => if Nat.eqb d' d then x else deliberations w d')
              (S d)).

(** Loops. *)
Fixpoint for_each {A} (xs : list A) (body : A -> M unit) : M unit :=
  match xs with
  | [] => ret tt
  | x :: xs' => body x ;;; for_each xs' body
  end.

Fixpoint fold_m {A S} (xs : list A) (s : S) (body : S -> A -> M S) : M S :=
  match xs with
  | [] => ret s
  | x :: xs' => s' <- body s x ;; fold_m xs' s' body
  end.

(* ================================================================== *)
(** ** [class EvidenceEvaluator] *)
(* ================================================================== *)

Definition specificity_keywords : list string :=
  ["data"; "metric"; "measurement"; "specific"; "example"; "study";
   "research"].

(** [sum(1 for keyword in keywords if keyword in text)] *)
Definition count_keywords (keywords : list string) (text : string) : nat :=
  length (filter (fun keyword => contains keyword text) keywords).

Definition _evaluate_single_evidence (evidence : string) : pyfloat :=
  if String.eqb evidence "" then Fin 0.0
  else
    let quality_score := Fin 0.5 in
    let length_score :=
      fmin (Fin 1.0) (fdiv (of_nat (String.length evidence)) (Fin 100)) in
    let quality_score := fadd quality_score (fmul length_score (Fin 0.2)) in
    let specificity_count :=
      count_keywords specificity_keywords (lower evidence) in
    let quality_score :=
      fadd quality_score (fmul (of_nat specificity_count) (Fin 0.1)) in
    fmin (Fin 1.0) quality_score.

(** The score of one participant's evidence list. *)
Definition evidence_list_score (evidence_list : list string) : pyfloat :=
  match evidence_list with
  | [] => Fin 0.0
  | _ => np_mean (map _evaluate_single_evidence evidence_list)
  end.

Definition evaluate_evidence_quality (evidence_registry : dict (list string))
  : dict pyfloat :=
  map (fun kv => (fst kv, evidence_list_score (snd kv))) evidence_registry.

(* ================================================================== *)
(** ** [class ConflictDetector] *)
(* ================================================================== *)

Definition opposite_keywords : list (string * string) :=
  [ ("yes", "no"); ("true", "false"); ("implement", "avoid");
    ("enable", "disable"); ("include", "exclude"); ("add", "remove") ].

Definition _are_opposite_positions (content1 content2 : string) : bool :=
  let content1_lower := lower content1 in
  let content2_lower := lower content2 in
  existsb (fun p =>
             (contains (fst p) content1_lower &&
              contains (snd p) content2_lower) ||
             (contains (snd p) content1_lower &&
              contains (fst p) content2_lower))
          opposite_keywords.

(** [[word for word in vocabulary if word in text.lower()]] *)
Definition matched (vocabulary : list string) (text : string) : list string :=
  filter (fun word => contains word (lower text)) vocabulary.

(** Both texts match the vocabulary and their first matches differ. *)
Definition first_matches_differ (vocabulary : list string)
  (text1 text2 : string) : bool :=
  match matched vocabulary text1, matched vocabulary text2 with
  | w1 :: _, w2 :: _ => negb (String.eqb w1 w2)
  | _, _ => false
  end.

Definition priority_indicators : list string :=
  ["critical"; "urgent"; "important"; "optional"; "secondary"].
Definition _have_different_priorities (content1 content2 : string) : bool :=
  first_matches_differ priority_indicators content1 content2.

Definition approach_keywords : list string :=
  ["top-down"; "bottom-up"; "iterative"; "waterfall"; "agile";
   "proactive"; "reactive"; "preventive"; "corrective"].
Definition _have_different_approaches (reasoning1 reasoning2 : string)
  : bool :=
  first_matches_differ approach_keywords reasoning1 reasoning2.

Definition strategic_keywords : list string :=
  ["long-term"; "short-term"; "scalable"; "maintainable";
   "innovative"; "conservative"; "aggressive"; "defensive"].
Definition _have_strategic_divergence (content1 content2 : string) : bool :=
  first_matches_differ strategic_keywords content1 content2.

Definition _analyze_conflict_between_agents (thought1 thought2 : AgentThought)
  : list (ConflictType * string) :=
  (if _are_opposite_positions (content thought1) (content thought2)
   then [(FACTUAL_DISAGREEMENT, "Opposite conclusions")] else []) ++
  (if _have_different_priorities (content thought1) (content thought2)
   then [(PRIORITY_DISAGREEMENT, "Different priority levels")] else []) ++
  (if _have_different_approaches (reasoning thought1) (reasoning thought2)
   then [(METHODOLOGICAL_CONFLICT, "Different methodological approaches")]
   else []) ++
  (if _have_strategic_divergence (content thought1) (content thought2)
   then [(STRATEGIC_DIVERGENCE, "Different strategic directions")]
   else []).

(** The double loop over [agent_list] and [agent_list[i+1:]]. *)
Fixpoint detect_conflicts (agent_list : dict AgentThought) : list Conflict :=
  match agent_list with
  | [] => []
  | (role1, thought1) :: rest =>
      flat_map
        (fun kv2 =>
           map (fun cd => (fst cd, role1, fst kv2, snd cd))
               (_analyze_conflict_between_agents thought1 (snd kv2)))
        rest
      ++ detect_conflicts rest
  end.

(* ================================================================== *)
(** ** [class ConflictResolver] *)
(* ================================================================== *)

Definition PairConflict : Type := AgentRole * AgentRole * string.

(** [thought.confidence *= f] and [thought.reasoning += s] on the object
    behind a reference. *)
Definition scale_confidence (r : tref) (f : pyfloat) : M unit :=
  t <- read_thought r ;;
  write_thought r (set_confidence t (fmul (confidence t) f)).

Definition append_reasoning (r : tref) (s : string) : M unit :=
  t <- read_thought r ;;
  write_thought r (set_reasoning t (reasoning t ++ s)).

Definition assign_reasoning (r : tref) (s : string) : M unit :=
  t <- read_thought r ;;
  write_thought r (set_reasoning t s).

Definition assign_content (r : tref) (s : string) : M unit :=
  t <- read_thought r ;;
  write_thought r (set_content t s).

(** [len(thought.evidence) * thought.confidence] *)
Definition evidence_strength (t : AgentThought) : pyfloat :=
  fmul (of_nat (length (evidence t))) (confidence t).

(** The body of the loop of [_resolve_factual_disagreement]. *)
Definition resolve_factual_pair (resolved_thoughts : PosMap)
  (c : PairConflict) : M unit :=
  let '(role1, role2, _) := c in
  match dict_get resolved_thoughts role1, dict_get resolved_thoughts role2 with
  | Some thought1, Some thought2 =>
      t1 <- read_thought thought1 ;;
      t2 <- read_thought thought2 ;;
      let evidence1_strength := evidence_strength t1 in
      let evidence2_strength := evidence_strength t2 in
      if fgt evidence1_strength evidence2_strength then
        scale_confidence thought2 (Fin 0.5) ;;;
        append_reasoning thought2
          (" [Conflict resolved in favor of " ++ role_value role1 ++
           " due to stronger evidence]")
      else if fgt evidence2_strength evidence1_strength then
        scale_confidence thought1 (Fin 0.5) ;;;
        append_reasoning thought1
          (" [Conflict resolved in favor of " ++ role_value role2 ++
           " due to stronger evidence]")
      else
        scale_confidence thought1 (Fin 0.8) ;;;
        scale_confidence thought2 (Fin 0.8) ;;;
        append_reasoning thought1
          " [Conflict detected - evidence equally strong]" ;;;
        append_reasoning thought2
          " [Conflict detected - evidence equally strong]"
  | _, _ => ret tt
  end.

Definition _resolve_factual_disagreement (agent_thoughts : PosMap)
  (conflicts : list PairConflict) : M PosMap :=
  let resolved_thoughts := agent_thoughts in  (* [dict(agent_thoughts)] *)
  for_each conflicts (resolve_factual_pair resolved_thoughts) ;;;
  ret resolved_thoughts.

Definition resolve_priority_pair (resolved_thoughts : PosMap)
  (c : PairConflict) : M unit :=
  let '(role1, role2, _) := c in
  match dict_get resolved_thoughts role1, dict_get resolved_thoughts role2 with
  | Some thought1, Some thought2 =>
      t1 <- read_thought thought1 ;;
      t2 <- read_thought thought2 ;;
      let compromised_reasoning :=
        "Priority consideration: " ++ reasoning t1 ++
        " | Alternative perspective: " ++ reasoning t2 in
      assign_reasoning thought1 compromised_reasoning ;;;
      assign_reasoning thought2 compromised_reasoning ;;;
      scale_confidence thought1 (Fin 0.9) ;;;
      scale_confidence thought2 (Fin 0.9)
  | _, _ => ret tt
  end.

Definition _resolve_priority_disagreement (agent_thoughts : PosMap)
  (conflicts : list PairConflict) : M PosMap :=
  let resolved_thoughts := agent_thoughts in
  for_each conflicts (resolve_priority_pair resolved_thoughts) ;;;
  ret resolved_thoughts.

(** The body of the loop of [_resolve_methodological_conflict]; the
    deduplicated evidence is listed in the order [nodup] leaves it (Python
    leaves the order of [list(set(...))] open). *)
Definition resolve_methodological_pair (resolved_thoughts : PosMap)
  (c : PairConflict) : M PosMap :=
  let '(role1, role2, _) := c in
  match dict_get resolved_thoughts role1, dict_get resolved_thoughts role2 with
  | Some thought1, Some thought2 =>
      t1 <- read_thought thought1 ;;
      t2 <- read_thought thought2 ;;
      let hybrid_reasoning :=
        "Hybrid approach combining " ++ reasoning t1 ++ " with " ++
        reasoning t2 ++ ". " ++
        "This integrated methodology leverages strengths of both approaches."
      in
      let hybrid_content :=
        "Integrated solution: " ++ content t1 ++ " + " ++ content t2 ++ ". " ++
        "This hybrid approach addresses multiple perspectives." in
      time <- now ;;
      hybrid_thought <-
        new_thought
          (mkAgentThought
             ("hybrid_" ++ role_value role1 ++ "_" ++ role_value role2)
             QUEEN_COORDINATOR
             ("hybrid_" ++ str_of_Z time)
             hybrid_content
             hybrid_reasoning
             (fmul (fdiv (fadd (confidence t1) (confidence t2)) (Fin 2))
                   (Fin 0.9))
             time
             []
             (set_of (evidence t1 ++ evidence t2))
             []) ;;
      ret (dict_set (dict_set resolved_thoughts role1 hybrid_thought)
                    role2 hybrid_thought)
  | _, _ => ret resolved_thoughts
  end.

Definition _resolve_methodological_conflict (agent_thoughts : PosMap)
  (conflicts : list PairConflict) : M PosMap :=
  fold_m conflicts agent_thoughts resolve_methodological_pair.

Definition resolve_strategic_pair (resolved_thoughts : PosMap)
  (c : PairConflict) : M unit :=
  let '(role1, role2, _) := c in
  match dict_get resolved_thoughts role1, dict_get resolved_thoughts role2 with
  | Some thought1, Some thought2 =>
      t1 <- read_thought thought1 ;;
      t2 <- read_thought thought2 ;;
      let balanced_reasoning :=
        "Strategic balance: " ++ reasoning t1 ++ " balanced with " ++
        reasoning t2 ++ ". " ++
        "This approach considers both strategic perspectives for optimal outcome."
      in
      let balanced_content :=
        "Strategic synthesis: " ++ content t1 ++ " integrated with " ++
        content t2 ++ ". " ++
        "Provides balanced approach considering multiple strategic factors." in
      assign_reasoning thought1 balanced_reasoning ;;;
      assign_content thought1 balanced_content ;;;
      scale_confidence thought1 (Fin 0.85) ;;;
      assign_reasoning thought2 balanced_reasoning ;;;
      assign_content thought2 balanced_content ;;;
      scale_confidence thought2 (Fin 0.85)
  | _, _ => ret tt
  end.

Definition _resolve_strategic_divergence (agent_thoughts : PosMap)
  (conflicts : list PairConflict) : M PosMap :=
  let resolved_thoughts := agent_thoughts in
  for_each conflicts (resolve_strategic_pair resolved_thoughts) ;;;
  ret resolved_thoughts.

(** [conflicts_by_type[conflict_type].append(...)] on a [defaultdict(list)]:
    the types keep the order of their first occurrence. *)
Fixpoint group_add (groups : list (ConflictType * list PairConflict))
  (ty : ConflictType) (c : PairConflict)
  : list (ConflictType * list PairConflict) :=
  match groups with
  | [] => [(ty, [c])]
  | (ty', cs) :: groups' =>
      if ConflictType_eq_dec ty' ty then (ty', (cs ++ [c])%list) :: groups'
      else (ty', cs) :: group_add groups' ty c
  end.

Definition conflicts_by_type (conflicts : list Conflict)
  : list (ConflictType * list PairConflict) :=
  fold_left
    (fun groups (c : Conflict) =>
       let '(conflict_type, role1, role2, description) := c in
       group_add groups conflict_type (role1, role2, description))
    conflicts [].

Definition resolve_conflicts (agent_thoughts : PosMap)
  (conflicts : list Conflict) : M PosMap :=
  match conflicts with
  | [] => ret agent_thoughts
  | _ =>
      fold_m (conflicts_by_type conflicts) agent_thoughts
        (fun resolved_thoughts group =>
           let '(conflict_type, conflict_list) := group in
           match conflict_type with
           | FACTUAL_DISAGREEMENT =>
               _resolve_factual_disagreement resolved_thoughts conflict_list
           | PRIORITY_DISAGREEMENT =>
               _resolve_priority_disagreement resolved_thoughts conflict_list
           | METHODOLOGICAL_CONFLICT =>
               _resolve_methodological_conflict resolved_thoughts conflict_list
           | STRATEGIC_DIVERGENCE =>
               _resolve_strategic_divergence resolved_thoughts conflict_list
           | _ => ret resolved_thoughts
           end)
  end.

(* ================================================================== *)
(** ** [class MultiAgentConsensusSystem]: helpers *)
(* ================================================================== *)

Definition nl : string := String (ascii_of_nat 10) EmptyString.

Definition _initialize_specialist_weights : dict pyfloat :=
  [ (QUEEN_COORDINATOR, Fin 1.0);
    (SECURITY_SPECIALIST, Fin 0.95);
    (CODE_ARCHITECT, Fin 0.9);
    (PERFORMANCE_OPTIMIZER, Fin 0.85);
    (TESTING_QUALITY, Fin 0.85);
    (INTEGRATION_EXPERT, Fin 0.8);
    (UI_UX_DESIGNER, Fin 0.75);
    (DATA_ANALYTICS, Fin 0.75);
    (DOCUMENTATION_TECH_WRITER, Fin 0.7);
    (INNOVATION_STRATEGIST, Fin 0.7) ].

(** [self.specialist_weights], set once by [__init__]. *)
Definition specialist_weights : dict pyfloat := _initialize_specialist_weights.

Definition _text_similarity (text1 text2 : string) : pyfloat :=
  let words1 := set_of (split (lower text1)) in
  let words2 := set_of (split (lower text2)) in
  let intersection := length (Py.intersection words1 words2) in
  let union := length (Py.union words1 words2) in
  if (0 <? union)%nat then fdiv (of_nat intersection) (of_nat union)
  else Fin 0.0.

(** The similarities of the pairs [i < j], in loop order. *)
Fixpoint pair_similarities (positions : list string) : list pyfloat :=
  match positions with
  | [] => []
  | p :: rest => (map (_text_similarity p) rest ++ pair_similarities rest)%list
  end.

Definition _calculate_agreement_score (positions : list string) : pyfloat :=
  if (length positions <? 2)%nat then Fin 1.0
  else
    let similarities := pair_similarities positions in
    let total_similarity := fsum similarities in
    let comparison_count := length similarities in
    if (0 <? comparison_count)%nat
    then fdiv total_similarity (of_nat comparison_count)
    else Fin 0.0.

(** [list.sort(key=weight, reverse=True)]: stable, descending. *)
Fixpoint insert_desc (x : string * pyfloat) (l : list (string * pyfloat))
  : list (string * pyfloat) :=
  match l with
  | [] => [x]
  | y :: l' => if flt (snd y) (snd x) then x :: y :: l'
               else y :: insert_desc x l'
  end.
Definition sort_desc (l : list (string * pyfloat)) : list (string * pyfloat) :=
  fold_left (fun acc x => insert_desc x acc) l [].

Definition _synthesize_weighted_positions
  (weighted_positions : list (string * pyfloat)) : string :=
  match weighted_positions with
  | [] => "No positions available for synthesis."
  | _ =>
      let sorted := sort_desc weighted_positions in
      let line (pw : string * pyfloat) : string :=
        "**Weight " ++ format_2f (snd pw) ++ "**: " ++ fst pw in
      let synthesis_parts :=
        List.app ["## 🧠 Weighted Specialist Consensus"; ""]
          (map line (filter (fun pw => fgt (snd pw) (Fin 0.1)) sorted)) in
      join nl synthesis_parts
  end.

Definition _determine_consensus_level_from_weights (weights : dict pyfloat)
  (total_agents : nat) : ConsensusLevel :=
  match values weights with
  | [] => PLURALITY
  | w0 :: ws =>
      let max_weight := fmax_list w0 ws in
      let total_weight := fsum (values weights) in
      let dominance_ratio :=
        if fgt total_weight (Fin 0) then fdiv max_weight total_weight
        else Fin 0 in
      if fgt dominance_ratio (Fin 0.7) then SPECIALIST_OVERRIDE
      else if fgt dominance_ratio (Fin 0.5) then MAJORITY_SUPER
      else if fge (of_nat (length weights))
                  (fmul (of_nat total_agents) (Fin 0.7))
      then MAJORITY_STRONG
      else if fge (of_nat (length weights))
                  (fmul (of_nat total_agents) (Fin 0.6))
      then MAJORITY_SIMPLE
      else PLURALITY
  end.

Definition specialist_keywords : dict (list string) :=
  [ (SECURITY_SPECIALIST, ["security"; "auth"; "encryption"; "vulnerability"]);
    (CODE_ARCHITECT, ["architecture"; "structure"; "design"; "framework"]);
    (PERFORMANCE_OPTIMIZER,
       ["performance"; "optimization"; "speed"; "efficiency"]);
    (TESTING_QUALITY, ["test"; "quality"; "validation"; "verification"]);
    (INTEGRATION_EXPERT, ["integration"; "api"; "connect"; "system"]);
    (UI_UX_DESIGNER, ["ui"; "ux"; "interface"; "user"]);
    (DATA_ANALYTICS, ["data"; "analytics"; "metrics"; "analysis"]) ].

(** [max(scores, key=scores.get)]: the first key of maximal score. *)
Definition argmax (first : AgentRole * pyfloat)
  (others : dict pyfloat) : AgentRole :=
  fst (fold_left (fun best kv => if fgt (snd kv) (snd best) then kv else best)
                 others first).

Definition _determine_lead_specialist (task : AGITask)
  (agent_thoughts : dict AgentThought) : AgentRole :=
  let task_content := lower (description task) in
  let specialist_scores :=
    flat_map
      (fun rk =>
         match dict_get agent_thoughts (fst rk) with
         | Some thought =>
             let score := count_keywords (snd rk) task_content in
             [(fst rk, fmul (of_nat score) (confidence thought))]
         | None => []
         end)
      specialist_keywords in
  match specialist_scores with
  | first :: others => argmax first others
  | [] => QUEEN_COORDINATOR
  end.

Definition role_title (r : AgentRole) : string :=
  title (replace_char "_" " " (role_value r)).

Definition _synthesize_specialist_leadership (specialist_thought : AgentThought)
  (supporting_agents : dict AgentThought) (lead_specialist : AgentRole)
  : string :=
  let header : list string :=
    [ "## 👑 " ++ role_title lead_specialist ++ " Leadership";
      "";
      "**Primary Direction**: " ++ content specialist_thought;
      "**Reasoning**: " ++ reasoning specialist_thought;
      "";
      "### Supporting Specialist Insights:" ] in
  let support (rt : AgentRole * AgentThought) : list string :=
    [ "**" ++ role_title (fst rt) ++ "**: " ++ content (snd rt); "" ] in
  let footer : list string :=
    [ "### ✨ Synthesis";
      "This consensus combines the authoritative expertise of the " ++
      role_title lead_specialist ++
      " with supporting insights from complementary specialists.";
      "";
      "The approach prioritizes domain expertise while maintaining comprehensive perspective through specialist collaboration."
    ] in
  let synthesis_parts :=
    List.app header (List.app (flat_map support supporting_agents) footer) in
  join nl synthesis_parts.

(** Attribute assignments on a [ConsensusDeliberation]. *)
Definition set_phases (d : ConsensusDeliberation) (x : list DeliberationPhase)
  : ConsensusDeliberation :=
  mkConsensusDeliberation (deliberation_id d) (task d) (strategy d)
    (voting_method d) x (proposals d) (agent_positions d)
    (evidence_registry d) (conflict_log d) (voting_record d)
    (final_consensus d) (deliberation_start d) (deliberation_end d)
    (quality_metrics d).
Definition set_conflict_log (d : ConsensusDeliberation) (x : list Conflict)
  : ConsensusDeliberation :=
  mkConsensusDeliberation (deliberation_id d) (task d) (strategy d)
    (voting_method d) (phases d) (proposals d) (agent_positions d)
    (evidence_registry d) x (voting_record d)
    (final_consensus d) (deliberation_start d) (deliberation_end d)
    (quality_metrics d).
Definition set_final_consensus (d : ConsensusDeliberation)
  (x : option CollectiveInsight) : ConsensusDeliberation :=
  mkConsensusDeliberation (deliberation_id d) (task d) (strategy d)
    (voting_method d) (phases d) (proposals d) (agent_positions d)
    (evidence_registry d) (conflict_log d) (voting_record d)
    x (deliberation_start d) (deliberation_end d) (quality_metrics d).
Definition set_deliberation_end (d : ConsensusDeliberation) (x : option Z)
  : ConsensusDeliberation :=
  mkConsensusDeliberation (deliberation_id d) (task d) (strategy d)
    (voting_method d) (phases d) (proposals d) (agent_positions d)
    (evidence_registry d) (conflict_log d) (voting_record d)
    (final_consensus d) (deliberation_start d) x (quality_metrics d).
Definition set_quality_metrics (d : ConsensusDeliberation)
  (x : list (string * pyfloat)) : ConsensusDeliberation :=
  mkConsensusDeliberation (deliberation_id d) (task d) (strategy d)
    (voting_method d) (phases d) (proposals d) (agent_positions d)
    (evidence_registry d) (conflict_log d) (voting_record d)
    (final_consensus d) (deliberation_start d) (deliberation_end d) x.

Definition update_deliberation (d : dref)
  (f : ConsensusDeliberation -> ConsensusDeliberation) : M unit :=
  x <- read_deliberation d ;;
  write_deliberation d (f x).

Definition set_synthesis_method (c : CollectiveInsight) (m : string)
  : CollectiveInsight :=
  mkCollectiveInsight (insight_id c) (contributing_agents c)
    (synthesized_content c) (consensus_level c) (confidence_score c)
    (conflicting_views c) m.

(** [d > x] for a [dict] and a [float]: neither type orders the other. *)
Definition dict_gt_float {V} (d : dict V) (x : pyfloat) : M bool :=
  raise (TypeError "'>' not supported between instances of 'dict' and 'float'").

(** [a / b] on integers. *)
Definition int_truediv (a b : nat) : M pyfloat :=
  match b with
  | O => raise ZeroDivisionError
  | _ => ret (fdiv (of_nat a) (of_nat b))
  end.

(** [np.mean] of a list of [str]: numpy has no addition for strings. *)
Definition np_mean_str (xs : list string) : M pyfloat :=
  raise (TypeError "ufunc 'add' did not contain a loop with signature matching types").

(* ================================================================== *)
(** ** [class MultiAgentConsensusSystem]: the consensus strategies *)
(* ================================================================== *)

Definition cls : string := "MultiAgentConsensusSystem".

Definition confidences (ts : dict AgentThought) : list pyfloat :=
  map (fun kv => confidence (snd kv)) ts.

Definition _fallback_consensus (agent_thoughts : PosMap) (task : AGITask)
  : M CollectiveInsight :=
  ts <- items agent_thoughts ;;
  time <- now ;;
  let high_confidence_thoughts :=
    filter (fun kv => fgt (confidence (snd kv)) (Fin 0.5)) ts in
  match high_confidence_thoughts with
  | _ :: _ =>
      let contents := map (fun kv => content (snd kv)) high_confidence_thoughts in
      let synthesized_content := join (nl ++ nl) contents in
      let avg_confidence := np_mean (confidences high_confidence_thoughts) in
      ret (mkCollectiveInsight
             ("fallback_" ++ str_of_Z time)
             (keys high_confidence_thoughts)
             synthesized_content
             PLURALITY
             avg_confidence
             []
             "fallback_consensus")
  | [] =>
      match ts with
      | (_, any_thought) :: _ =>
          ret (mkCollectiveInsight
                 ("ultimate_fallback_" ++ str_of_Z time)
                 [agent_role any_thought]
                 (content any_thought)
                 SPECIALIST_OVERRIDE
                 (fmul (confidence any_thought) (Fin 0.5))
                 []
                 "ultimate_fallback")
      | [] =>
          ret (mkCollectiveInsight
                 ("emergency_" ++ str_of_Z time)
                 []
                 "Unable to reach consensus - system emergency fallback"
                 SPECIALIST_OVERRIDE
                 (Fin 0.1)
                 []
                 "emergency_fallback")
      end
  end.

Definition _weighted_voting_consensus (deliberation : dref)
  (agent_thoughts : PosMap) : M CollectiveInsight :=
  update_deliberation deliberation
    (fun d => set_phases d (phases d ++ [EVIDENCE_PRESENTATION])%list) ;;;
  d <- read_deliberation deliberation ;;
  let evidence_scores := evaluate_evidence_quality (evidence_registry d) in
  ts <- items agent_thoughts ;;
  let voting_weights : dict pyfloat :=
    map (fun kv =>
           let specialist_weight :=
             dict_get_default specialist_weights (fst kv) (Fin 0.5) in
           let evidence_weight :=
             dict_get_default evidence_scores (fst kv) (Fin 0.5) in
           let confidence_weight := confidence (snd kv) in
           (fst kv,
            fadd (fadd (fmul specialist_weight (Fin 0.4))
                       (fmul evidence_weight (Fin 0.3)))
                 (fmul confidence_weight (Fin 0.3))))
        ts in
  let total_weight := fsum (values voting_weights) in
  let voting_weights : dict pyfloat :=
    if fgt total_weight (Fin 0)
    then map (fun kv => (fst kv, fdiv (snd kv) total_weight)) voting_weights
    else voting_weights in
  let weighted_positions :=
    flat_map
      (fun kv =>
         let weight := dict_get_default voting_weights (fst kv) (Fin 0) in
         if fgt weight (Fin 0) then [(content (snd kv), weight)] else [])
      ts in
  match weighted_positions with
  | _ :: _ =>
      let synthesized_content :=
        _synthesize_weighted_positions weighted_positions in
      let confidence_score :=
        fmin (Fin 1.0) (fmul (np_mean (confidences ts)) (Fin 1.1)) in
      let consensus_level :=
        _determine_consensus_level_from_weights voting_weights
          (length agent_thoughts) in
      time <- now ;;
      ret (mkCollectiveInsight
             ("weighted_voting_" ++ str_of_Z time)
             (keys agent_thoughts)
             synthesized_content
             consensus_level
             confidence_score
             []
             "weighted_voting")
  | [] => _fallback_consensus agent_thoughts (task d)
  end.

Definition _specialist_authority_consensus (deliberation : dref)
  (agent_thoughts : PosMap) : M CollectiveInsight :=
  d <- read_deliberation deliberation ;;
  ts <- items agent_thoughts ;;
  let lead_specialist := _determine_lead_specialist (task d) ts in
  match dict_get ts lead_specialist with
  | Some specialist_thought =>
      let supporting_agents :=
        filter (fun kv => negb (role_eqb (fst kv) lead_specialist) &&
                          fgt (confidence (snd kv)) (Fin 0.6)) ts in
      let synthesized_content :=
        _synthesize_specialist_leadership specialist_thought
          supporting_agents lead_specialist in
      time <- now ;;
      ret (mkCollectiveInsight
             ("specialist_authority_" ++ str_of_Z time)
             (lead_specialist :: keys supporting_agents)
             synthesized_content
             SPECIALIST_OVERRIDE
             (fmul (confidence specialist_thought) (Fin 0.9))
             (map (fun kv => (fst kv, content (snd kv)))
                  (filter (fun kv => negb (role_eqb (fst kv) lead_specialist) &&
                                     flt (confidence (snd kv)) (Fin 0.4)) ts))
             "specialist_authority")
  | None => _weighted_voting_consensus deliberation agent_thoughts
  end.

Definition _evidence_based_consensus (deliberation : dref)
  (agent_thoughts : PosMap) : M CollectiveInsight :=
  d <- read_deliberation deliberation ;;
  let evidence_scores := evaluate_evidence_quality (evidence_registry d) in
  ts <- items agent_thoughts ;;
  let evidence_qualified_agents :=
    filter (fun kv =>
              fgt (dict_get_default evidence_scores (fst kv) (Fin 0))
                  (Fin 0.6)) ts in
  match evidence_qualified_agents with
  | _ :: _ =>
      let evidence_weighted_positions :=
        map (fun kv => (content (snd kv),
                        dict_get_default evidence_scores (fst kv) (Fin 0.5)))
            evidence_qualified_agents in
      synthesized_content <-
        (getattr_absent cls "_synthesize_evidence_based_positions" : M string) ;;
      let avg_evidence_score := np_mean (values evidence_scores) in
      let confidence_score := fmin (Fin 1.0) (fmul avg_evidence_score (Fin 1.2)) in
      time <- now ;;
      ret (mkCollectiveInsight
             ("evidence_based_" ++ str_of_Z time)
             (keys evidence_qualified_agents)
             synthesized_content
             (if (7 <=? length evidence_qualified_agents)%nat
              then MAJORITY_SUPER else MAJORITY_STRONG)
             confidence_score
             []
             "evidence_based")
  | [] => _weighted_voting_consensus deliberation agent_thoughts
  end.

Definition _collaborative_synthesis_consensus (deliberation : dref)
  (agent_thoughts : PosMap) : M CollectiveInsight :=
  themes <- (getattr_absent cls "_identify_common_themes" : M (list string)) ;;
  ts <- items agent_thoughts ;;
  let building_blocks :=
    filter (fun kv => fgt (confidence (snd kv)) (Fin 0.5)) ts in
  synthesized_content <-
    (getattr_absent cls "_collaborative_synthesis_process" : M string) ;;
  collaboration_score <-
    (getattr_absent cls "_calculate_collaboration_score" : M pyfloat) ;;
  let confidence_score :=
    fmin (Fin 1.0)
         (fadd (fmul collaboration_score (Fin 0.9))
               (fmul (np_mean (confidences building_blocks)) (Fin 0.1))) in
  time <- now ;;
  ret (mkCollectiveInsight
         ("collaborative_synthesis_" ++ str_of_Z time)
         (keys agent_thoughts)
         synthesized_content
         MAJORITY_STRONG
         confidence_score
         []
         "collaborative_synthesis").

(** The loop of [_iterative_refinement_consensus] over [range(3)]. *)
Fixpoint refinement_rounds (iterations : list nat) (current_thoughts : PosMap)
  : M PosMap :=
  match iterations with
  | [] => ret current_thoughts
  | iteration :: rest =>
      proposals <-
        (getattr_absent cls "_create_refinement_proposals"
           : M (list ConsensusProposal)) ;;
      current_thoughts <-
        match proposals with
        | _ :: _ =>
            best_proposal <-
              (getattr_absent cls "_select_best_proposal"
                 : M ConsensusProposal) ;;
            (getattr_absent cls "_update_thoughts_from_proposal" : M PosMap)
        | [] => ret current_thoughts
        end ;;
      converged <- (getattr_absent cls "_check_convergence" : M bool) ;;
      if converged then ret current_thoughts
      else refinement_rounds rest current_thoughts
  end.

Definition _iterative_refinement_consensus (deliberation : dref)
  (agent_thoughts : PosMap) : M CollectiveInsight :=
  let max_iterations := 3%nat in
  current_thoughts <- refinement_rounds (seq 0 max_iterations) agent_thoughts ;;
  final_synthesis <-
    (getattr_absent cls "_synthesize_refined_thoughts" : M string) ;;
  ts <- items current_thoughts ;;
  let final_confidence := np_mean (confidences ts) in
  time <- now ;;
  ret (mkCollectiveInsight
         ("iterative_refinement_" ++ str_of_Z time)
         (keys current_thoughts)
         final_synthesis
         MAJORITY_SIMPLE
         final_confidence
         []
         "iterative_refinement").

Definition _conflict_resolution_consensus (deliberation : dref)
  (agent_thoughts : PosMap) : M CollectiveInsight :=
  ts <- items agent_thoughts ;;
  let conflicts := detect_conflicts ts in
  update_deliberation deliberation (fun d => set_conflict_log d conflicts) ;;;
  match conflicts with
  | _ :: _ =>
      resolved_thoughts <- resolve_conflicts agent_thoughts conflicts ;;
      match resolved_thoughts with
      | _ :: _ =>
          (getattr_absent cls "_build_consensus_from_resolved_conflicts"
             : M CollectiveInsight)
      | [] => _collaborative_synthesis_consensus deliberation agent_thoughts
      end
  | [] => _collaborative_synthesis_consensus deliberation agent_thoughts
  end.

(** The loop of [_emergent_agreement_consensus] over [range(5)]. *)
Fixpoint emergent_rounds (rounds : list nat) (current_positions : dict string)
  : M (dict string) :=
  match rounds with
  | [] => ret current_positions
  | round_num :: rest =>
      new_positions <-
        (getattr_absent cls "_emergent_position_update" : M (dict string)) ;;
      stable <- (getattr_absent cls "_check_position_stability" : M bool) ;;
      if stable then ret current_positions
      else emergent_rounds rest new_positions
  end.

Definition _emergent_agreement_consensus (deliberation : dref)
  (agent_thoughts : PosMap) : M CollectiveInsight :=
  agreement_network <-
    (getattr_absent cls "_build_agreement_network" : M unit) ;;
  let max_rounds := 5%nat in
  ts <- items agent_thoughts ;;
  let current_positions := map (fun kv => (fst kv, content (snd kv))) ts in
  current_positions <- emergent_rounds (seq 0 max_rounds) current_positions ;;
  emergent_synthesis <-
    (getattr_absent cls "_synthesize_emergent_agreement" : M string) ;;
  emergence_strength <-
    (getattr_absent cls "_calculate_emergence_strength" : M pyfloat) ;;
  let confidence_score :=
    fmin (Fin 1.0) (fadd (fmul emergence_strength (Fin 0.8)) (Fin 0.2)) in
  time <- now ;;
  ret (mkCollectiveInsight
         ("emergent_agreement_" ++ str_of_Z time)
         (keys current_positions)
         emergent_synthesis
         PLURALITY
         confidence_score
         []
         "emergent_agreement").

(* ================================================================== *)
(** ** Landscape analysis and the hybrid strategy *)
(* ================================================================== *)

(** The dictionary returned by [_analyze_consensus_landscape]. *)
Record ConsensusAnalysis : Type := mkConsensusAnalysis {
  agreement_score : pyfloat;
  confidence_variance : pyfloat;
  avg_confidence : pyfloat;
  conflicts_detected : nat;
  evidence_quality : dict pyfloat;
  recommended_strategy : ConsensusStrategy;
  recommended_voting : VotingMethod
}.

Definition _analyze_consensus_landscape (task : AGITask)
  (agent_thoughts : PosMap) : M ConsensusAnalysis :=
  ts <- items agent_thoughts ;;
  let positions := map (fun kv => content (snd kv)) ts in
  let confs := confidences ts in
  let agreement_score := _calculate_agreement_score positions in
  let confidence_variance := np_var confs in
  let avg_confidence := np_mean confs in
  let conflicts := detect_conflicts ts in
  let evidence_quality :=
    evaluate_evidence_quality (map (fun kv => (fst kv, evidence (snd kv))) ts) in
  recommended <-
    (if fgt agreement_score (Fin 0.8) && (length conflicts =? 0)%nat
     then ret (WEIGHTED_VOTING, WEIGHTED_CONSENSUS)
     else
       evidence_is_high <- dict_gt_float evidence_quality (Fin 0.7) ;;
       if evidence_is_high : bool then ret (EVIDENCE_BASED, BORDA_COUNT)
       else if (3 <? length conflicts)%nat
       then ret (CONFLICT_RESOLUTION, SUPER_MAJORITY)
       else if flt avg_confidence (Fin 0.6)
       then ret (ITERATIVE_REFINEMENT, APPROVAL_VOTING)
       else ret (HYBRID_ADAPTIVE, WEIGHTED_CONSENSUS)) ;;
  ret (mkConsensusAnalysis agreement_score confidence_variance avg_confidence
         (length conflicts) evidence_quality (fst recommended)
         (snd recommended)).

Definition _hybrid_adaptive_consensus (deliberation : dref)
  (agent_thoughts : PosMap) : M CollectiveInsight :=
  d <- read_deliberation deliberation ;;
  consensus_analysis <- _analyze_consensus_landscape (task d) agent_thoughts ;;
  let current_thoughts := agent_thoughts in
  let applied_strategies : list string := [] in
  after_conflicts <-
    (if (0 <? conflicts_detected consensus_analysis)%nat then
       conflict_result <-
         _conflict_resolution_consensus deliberation current_thoughts ;;
       let applied_strategies :=
         (applied_strategies ++ ["conflict_resolution"])%list in
       if fgt (confidence_score conflict_result) (Fin 0.7) then
         current_thoughts <-
           (getattr_absent cls "_update_thoughts_from_consensus" : M PosMap) ;;
         ret (current_thoughts, applied_strategies)
       else ret (current_thoughts, applied_strategies)
     else ret (current_thoughts, applied_strategies)) ;;
  let current_thoughts := fst after_conflicts in
  let applied_strategies := snd after_conflicts in
  evidence_is_high <-
    dict_gt_float (evidence_quality consensus_analysis) (Fin 0.6) ;;
  (* [inl] is an early [return] *)
  after_evidence <-
    (if evidence_is_high : bool then
       evidence_result <-
         _evidence_based_consensus deliberation current_thoughts ;;
       let applied_strategies :=
         (applied_strategies ++ ["evidence_based"])%list in
       if fgt (confidence_score evidence_result) (Fin 0.8)
       then ret (inl evidence_result)
       else ret (inr applied_strategies)
     else ret (inr applied_strategies)) ;;
  match after_evidence with
  | inl evidence_result => ret evidence_result
  | inr applied_strategies =>
      after_collab <-
        (if flt (avg_confidence consensus_analysis) (Fin 0.6) then
           collab_result <-
             _collaborative_synthesis_consensus deliberation current_thoughts ;;
           let applied_strategies :=
             (applied_strategies ++ ["collaborative_synthesis"])%list in
           if fgt (confidence_score collab_result) (Fin 0.7)
           then ret (inl collab_result)
           else ret (inr applied_strategies)
         else ret (inr applied_strategies)) ;;
      match after_collab with
      | inl collab_result => ret collab_result
      | inr applied_strategies =>
          final_result <-
            _weighted_voting_consensus deliberation current_thoughts ;;
          let applied_strategies :=
            (applied_strategies ++ ["weighted_voting"])%list in
          ret (set_synthesis_method final_result
                 ("hybrid_adaptive_(" ++ join "+" applied_strategies ++ ")"))
      end
  end.

(** [self.consensus_strategies[strategy]] *)
Definition consensus_strategies (s : ConsensusStrategy)
  : dref -> PosMap -> M CollectiveInsight :=
  match s with
  | WEIGHTED_VOTING => _weighted_voting_consensus
  | SPECIALIST_AUTHORITY => _specialist_authority_consensus
  | EVIDENCE_BASED => _evidence_based_consensus
  | COLLABORATIVE_SYNTHESIS => _collaborative_synthesis_consensus
  | ITERATIVE_REFINEMENT => _iterative_refinement_consensus
  | CONFLICT_RESOLUTION => _conflict_resolution_consensus
  | EMERGENT_AGREEMENT => _emergent_agreement_consensus
  | HYBRID_ADAPTIVE => _hybrid_adaptive_consensus
  end.

(* ================================================================== *)
(** ** Quality validation, amplification and learning *)
(* ================================================================== *)

Definition dcls : string := "ConsensusDeliberation".

(** [metrics[key]] on a dictionary keyed by strings. *)
Fixpoint metric_get (metrics : list (string * pyfloat)) (key : string)
  : M pyfloat :=
  match metrics with
  | [] => raise (KeyError key)
  | (k, v) :: rest => if String.eqb k key then ret v else metric_get rest key
  end.

Definition _validate_consensus_quality (consensus : CollectiveInsight)
  (deliberation : dref) : M (list (string * pyfloat)) :=
  d <- read_deliberation deliberation ;;
  participating_agents <-
    (getattr_absent dcls "participating_agents" : M (list AgentRole)) ;;
  participation_rate <-
    int_truediv (length (contributing_agents consensus))
                (length participating_agents) ;;
  avg_confidence <-
    match contributing_agents consensus with
    | _ :: _ =>
        np_mean_str
          (map (fun role => dict_get_default (agent_positions d) role "")
               (contributing_agents consensus))
    | [] => ret (Fin 0)
    end ;;
  participating_agents <-
    (getattr_absent dcls "participating_agents" : M (list AgentRole)) ;;
  conflict_ratio <-
    int_truediv (length (conflict_log d)) (length participating_agents) ;;
  let conflict_resolution_rate := fsub (Fin 1.0) conflict_ratio in
  let evidence_score := evaluate_evidence_quality (evidence_registry d) in
  let avg_evidence_quality :=
    match evidence_score with
    | _ :: _ => np_mean (values evidence_score)
    | [] => Fin 0.5
    end in
  let overall_score :=
    fadd (fadd (fadd (fmul participation_rate (Fin 0.3))
                     (fmul (confidence_score consensus) (Fin 0.3)))
               (fmul conflict_resolution_rate (Fin 0.2)))
         (fmul avg_evidence_quality (Fin 0.2)) in
  ret [ ("participation_rate", participation_rate);
        ("avg_confidence", avg_confidence);
        ("conflict_resolution_rate", conflict_resolution_rate);
        ("evidence_quality", avg_evidence_quality);
        ("overall_score", overall_score) ].

(** The validation thoughts collected by [_amplify_consensus_quality]. *)
Definition specialist_validations (agents : dict BaseAgent)
  (d : ConsensusDeliberation) (consensus : CollectiveInsight) (time : Z)
  : list (AgentRole * AgentThought) :=
  flat_map
    (fun role =>
       match dict_get agents role with
       | Some agent =>
           if dict_mem (agent_positions d) role then
             [ (role,
                mkAgentThought
                  (base_agent_id agent)
                  role
                  ("validation_" ++ str_of_Z time)
                  ("Validating consensus: " ++
                   substring 0 100 (synthesized_content consensus) ++ "...")
                  "Post-consensus validation from specialist perspective"
                  (Fin 0.8)
                  time
                  [] [] []) ]
           else []
       | None => []
       end)
    (contributing_agents consensus).

Definition _amplify_consensus_quality (consensus : CollectiveInsight)
  (deliberation : dref) : M CollectiveInsight :=
  d <- read_deliberation deliberation ;;
  w <- get_world ;;
  time <- now ;;
  let validations := specialist_validations (agents w) d consensus time in
  match validations with
  | _ :: _ =>
      let validation_confidence := np_mean (confidences validations) in
      let amplified_confidence :=
        fmin (Fin 1.0)
             (fmul (confidence_score consensus)
                   (fadd (Fin 1) (fmul validation_confidence (Fin 0.1)))) in
      ret (mkCollectiveInsight
             ("amplified_" ++ insight_id consensus)
             (contributing_agents consensus)
             (synthesized_content consensus)
             (consensus_level consensus)
             amplified_confidence
             []
             (synthesis_method consensus ++ "_amplified"))
  | [] => ret consensus
  end.

Definition modify_world (f : World -> World) : M unit :=
  fun w => (Ok tt, f w).

Definition with_active (x : list (string * dref)) (w : World) : World :=
  mkWorld (thoughts w) (next_thought w) (deliberations w)
    (next_deliberation w) (agents w) x (consensus_history w)
    (learning_patterns w) (performance_history w) (clock w).
Definition with_history (x : list dref) (w : World) : World :=
  mkWorld (thoughts w) (next_thought w) (deliberations w)
    (next_deliberation w) (agents w) (active_deliberations w) x
    (learning_patterns w) (performance_history w) (clock w).
Definition with_learning (p : list (string * list LearningPattern))
  (h : list LearningPattern) (w : World) : World :=
  mkWorld (thoughts w) (next_thought w) (deliberations w)
    (next_deliberation w) (agents w) (active_deliberations w)
    (consensus_history w) p h (clock w).
Definition with_agents (x : dict BaseAgent) (w : World) : World :=
  mkWorld (thoughts w) (next_thought w) (deliberations w)
    (next_deliberation w) x (active_deliberations w)
    (consensus_history w) (learning_patterns w) (performance_history w)
    (clock w).

(** [patterns[key].append(p)], creating the list when the key is new, then
    keeping the last hundred entries. *)
Fixpoint record_pattern (patterns : list (string * list LearningPattern))
  (key : string) (p : LearningPattern)
  : list (string * list LearningPattern) :=
  match patterns with
  | [] => [(key, [p])]
  | (k, ps) :: rest =>
      if String.eqb k key then
        let ps' := (ps ++ [p])%list in
        (k, if (100 <? length ps')%nat
            then skipn (length ps' - 100) ps' else ps') :: rest
      else (k, ps) :: record_pattern rest key p
  end.

(** [ConsensusLearning.learn_from_deliberation] *)
Definition learn_from_deliberation (deliberation : dref) : M unit :=
  d <- read_deliberation deliberation ;;
  match final_consensus d with
  | None => ret tt
  | Some final =>
      participating_agents <-
        (getattr_absent dcls "participating_agents" : M (list AgentRole)) ;;
      let pattern :=
        mkLearningPattern
          (strategy_value (strategy d))
          (voting_value (voting_method d))
          (length participating_agents)
          (length (conflict_log d))
          (consensus_level final)
          (confidence_score final)
          (match deliberation_end d with
           | Some e => (e - deliberation_start d)%Z
           | None => 0%Z
           end)
          (deliberation_start d) in
      let pattern_key :=
        pattern_strategy pattern ++ "_" ++ pattern_voting_method pattern in
      modify_world
        (fun w => with_learning
                    (record_pattern (learning_patterns w) pattern_key pattern)
                    (performance_history w ++ [pattern])%list w)
  end.

(* ================================================================== *)
(** ** Construction and [reach_consensus] *)
(* ================================================================== *)

(** [ConsensusDeliberation(...)] with keyword arguments: an argument is
    [None] when the call does not pass it.  The generated [__init__]
    requires every field without a default; the other four take their
    defaults. *)
Definition ConsensusDeliberation__init__
  (deliberation_id' : option string) (task' : option AGITask)
  (strategy' : option ConsensusStrategy) (voting_method' : option VotingMethod)
  (phases' : option (list DeliberationPhase))
  (proposals' : option (list ConsensusProposal))
  (agent_positions' : option (dict string))
  (evidence_registry' : option (dict (list string)))
  (conflict_log' : option (list Conflict))
  (voting_record' : option (dict (list string))) : M dref :=
  match deliberation_id', task', strategy', voting_method', phases',
        proposals', agent_positions', evidence_registry', conflict_log',
        voting_record' with
  | Some i, Some t, Some s, Some v, Some ph, Some pr, Some ap, Some er,
    Some cl, Some vr =>
      time <- now ;;
      new_deliberation
        (mkConsensusDeliberation i t s v ph pr ap er cl vr None time None [])
  | _, _, _, _, _, _, _, _, _, _ =>
      let absent {A} (o : option A) (name : string) : list string :=
        match o with Some _ => [] | None => [name] end in
      let missing :=
        (absent deliberation_id' "deliberation_id" ++
         absent task' "task" ++ absent strategy' "strategy" ++
         absent voting_method' "voting_method" ++
         absent phases' "phases" ++ absent proposals' "proposals" ++
         absent agent_positions' "agent_positions" ++
         absent evidence_registry' "evidence_registry" ++
         absent conflict_log' "conflict_log" ++
         absent voting_record' "voting_record")%list in
      raise (TypeError
               match missing with
               | [name] =>
                   "ConsensusDeliberation.__init__() missing 1 required positional argument: '"
                   ++ name ++ "'"
               | _ =>
                   "ConsensusDeliberation.__init__() missing required positional arguments: "
                   ++ join ", " missing
               end)
  end.

(** [self.active_deliberations[key] = d] and [del ...[key]]. *)
Fixpoint active_set (a : list (string * dref)) (key : string) (d : dref)
  : list (string * dref) :=
  match a with
  | [] => [(key, d)]
  | (k, d') :: rest =>
      if String.eqb k key then (k, d) :: rest
      else (k, d') :: active_set rest key d
  end.
Definition active_del (a : list (string * dref)) (key : string)
  : list (string * dref) :=
  filter (fun kd => negb (String.eqb (fst kd) key)) a.

(** The body of the [try] block of [reach_consensus]. *)
Definition consensus_pipeline (deliberation : dref)
  (strategy : ConsensusStrategy) (agent_thoughts : PosMap)
  : M CollectiveInsight :=
  let consensus_func := consensus_strategies strategy in
  consensus_result <- consensus_func deliberation agent_thoughts ;;
  consensus_quality <- _validate_consensus_quality consensus_result deliberation ;;
  overall_score <- metric_get consensus_quality "overall_score" ;;
  consensus_result <-
    (if flt overall_score (Fin 0.8)
     then _amplify_consensus_quality consensus_result deliberation
     else ret consensus_result) ;;
  time <- now ;;
  update_deliberation deliberation
    (fun d => set_final_consensus d (Some consensus_result)) ;;;
  update_deliberation deliberation
    (fun d => set_deliberation_end d (Some time)) ;;;
  update_deliberation deliberation
    (fun d => set_quality_metrics d consensus_quality) ;;;
  modify_world
    (fun w => with_history (consensus_history w ++ [deliberation])%list w) ;;;
  learn_from_deliberation deliberation ;;;
  ret consensus_result.

(** The [except Exception] handler of [reach_consensus]. *)
Definition consensus_failed (deliberation : dref) (agent_thoughts : PosMap)
  (task : AGITask) (e : exn) : M CollectiveInsight :=
  time <- now ;;
  update_deliberation deliberation
    (fun d => set_deliberation_end d (Some time)) ;;;
  _fallback_consensus agent_thoughts task.

(** The [finally] clause of [reach_consensus]. *)
Definition consensus_cleanup (deliberation : dref) : M unit :=
  d <- read_deliberation deliberation ;;
  modify_world
    (fun w => with_active
                (active_del (active_deliberations w) (deliberation_id d)) w).

(** The [try]/[except]/[finally] statement of [reach_consensus], on the
    deliberation record it has created. *)
Definition guarded_block (deliberation : dref) (strategy : ConsensusStrategy)
  (agent_thoughts : PosMap) (task : AGITask) : M CollectiveInsight :=
  try_finally
    (try_except
       (consensus_pipeline deliberation strategy agent_thoughts)
       (consensus_failed deliberation agent_thoughts task))
    (consensus_cleanup deliberation).

Definition reach_consensus (task : AGITask) (agent_thoughts : PosMap)
  (strategy : option ConsensusStrategy) (voting_method : option VotingMethod)
  : M CollectiveInsight :=
  start_time <- now ;;
  consensus_analysis <- _analyze_consensus_landscape task agent_thoughts ;;
  let strategy :=
    match strategy with
    | Some s => s
    | None => recommended_strategy consensus_analysis
    end in
  let voting_method :=
    match voting_method with
    | Some v => v
    | None => recommended_voting consensus_analysis
    end in
  time <- now ;;
  ts <- items agent_thoughts ;;
  deliberation <-
    ConsensusDeliberation__init__
      (Some ("deliberation_" ++ task_id task ++ "_" ++ str_of_Z time))
      (Some task)
      (Some strategy)
      (Some voting_method)
      (Some [INITIAL_POSITIONS])
      (Some [])
      (Some (map (fun kv => (fst kv, content (snd kv))) ts))
      (Some (map (fun kv => (fst kv, evidence (snd kv))) ts))
      (Some [])
      None ;;
  d <- read_deliberation deliberation ;;
  modify_world
    (fun w => with_active
                (active_set (active_deliberations w) (deliberation_id d)
                            deliberation) w) ;;;
  guarded_block deliberation strategy agent_thoughts task.

(** [self.<name>] for a method: bound when the class defines the name. *)
Definition bound_method (name : string) : M string :=
  if mem name MultiAgentConsensusSystem_methods then ret name
  else getattr_absent cls name.

Definition _initialize_consensus_strategies
  : M (list (ConsensusStrategy * string)) :=
  m1 <- bound_method "_weighted_voting_consensus" ;;
  m2 <- bound_method "_specialist_authority_consensus" ;;
  m3 <- bound_method "_evidence_based_consensus" ;;
  m4 <- bound_method "_collaborative_synthesis_consensus" ;;
  m5 <- bound_method "_iterative_refinement_consensus" ;;
  m6 <- bound_method "_conflict_resolution_consensus" ;;
  m7 <- bound_method "_emergent_agreement_consensus" ;;
  m8 <- bound_method "_hybrid_adaptive_consensus" ;;
  ret [ (WEIGHTED_VOTING, m1); (SPECIALIST_AUTHORITY, m2);
        (EVIDENCE_BASED, m3); (COLLABORATIVE_SYNTHESIS, m4);
        (ITERATIVE_REFINEMENT, m5); (CONFLICT_RESOLUTION, m6);
        (EMERGENT_AGREEMENT, m7); (HYBRID_ADAPTIVE, m8) ].

(** The method each entry of the voting table names. *)
Definition voting_method_name (v : VotingMethod) : string :=
  match v with
  | SIMPLE_MAJORITY => "_simple_majority_voting"
  | SUPER_MAJORITY => "_super_majority_voting"
  | QUALIFIED_MAJORITY => "_qualified_majority_voting"
  | UNANIMOUS_VOTE => "_unanimous_voting"
  | WEIGHTED_CONSENSUS => "_weighted_consensus_voting"
  | CONDORCET => "_condorcet_voting"
  | BORDA_COUNT => "_borda_count_voting"
  | APPROVAL_VOTING => "_approval_voting"
  end.

Definition _initialize_voting_methods : M (list (VotingMethod * string)) :=
  m1 <- bound_method (voting_method_name SIMPLE_MAJORITY) ;;
  m2 <- bound_method (voting_method_name SUPER_MAJORITY) ;;
  m3 <- bound_method (voting_method_name QUALIFIED_MAJORITY) ;;
  m4 <- bound_method (voting_method_name UNANIMOUS_VOTE) ;;
  m5 <- bound_method (voting_method_name WEIGHTED_CONSENSUS) ;;
  m6 <- bound_method (voting_method_name CONDORCET) ;;
  m7 <- bound_method (voting_method_name BORDA_COUNT) ;;
  m8 <- bound_method (voting_method_name APPROVAL_VOTING) ;;
  ret [ (SIMPLE_MAJORITY, m1); (SUPER_MAJORITY, m2);
        (QUALIFIED_MAJORITY, m3); (UNANIMOUS_VOTE, m4);
        (WEIGHTED_CONSENSUS, m5); (CONDORCET, m6);
        (BORDA_COUNT, m7); (APPROVAL_VOTING, m8) ].

(** [ConflictResolver.__init__(self, agents)]: [agents] is required. *)
Definition ConflictResolver__init__ (agents' : option (dict BaseAgent))
  : M unit :=
  match agents' with
  | Some _ => ret tt
  | None =>
      raise (TypeError
               "ConflictResolver.__init__() missing 1 required positional argument: 'agents'")
  end.

(** [MultiAgentConsensusSystem.__init__]; the two tables it builds are
    returned. *)
Definition MultiAgentConsensusSystem__init__ (agents' : dict BaseAgent)
  : M (list (ConsensusStrategy * string) * list (VotingMethod * string)) :=
  modify_world (with_agents agents') ;;;
  modify_world (with_active []) ;;;
  modify_world (with_history []) ;;;
  strategies <- _initialize_consensus_strategies ;;
  voting_methods <- _initialize_voting_methods ;;
  ConflictResolver__init__ None ;;;
  modify_world (with_learning [] []) ;;;
  ret (strategies, voting_methods).

(* ================================================================== *)
(** ** Concrete inputs used by the examples below *)
(* ================================================================== *)

Definition example_task : AGITask :=
  mkAGITask "consensus_test_1"
    "Design a web application architecture" HIGH
    [QUEEN_COORDINATOR; CODE_ARCHITECT] 0%Z.

Definition example_thought (r : AgentRole) (text : string) (conf : pyfloat)
  (ev : list string) : AgentThought :=
  mkAgentThought (role_value r ++ "_1") r (role_value r ++ "_thought_1")
    text "Holistic reasoning" conf 0%Z [] ev [].

Definition example_deliberation : ConsensusDeliberation :=
  mkConsensusDeliberation "deliberation_consensus_test_1_0" example_task
    WEIGHTED_VOTING WEIGHTED_CONSENSUS [INITIAL_POSITIONS] []
    [(QUEEN_COORDINATOR, "implement X"); (CODE_ARCHITECT, "avoid X")]
    [(QUEEN_COORDINATOR, ["benchmark data"; "latency metric"]);
     (CODE_ARCHITECT, [])]
    [] [] None 0%Z None [].

Definition example_agents : dict BaseAgent :=
  [ (QUEEN_COORDINATOR, mkBaseAgent "queen_1" QUEEN_COORDINATOR);
    (CODE_ARCHITECT, mkBaseAgent "architect_1" CODE_ARCHITECT) ].

(** A store holding the two given thoughts at references 0 and 1. *)
Definition example_world (t0 t1 : AgentThought) : World :=
  mkWorld (fun r => match r with O => t0 | _ => t1 end) 2%nat
    (fun _ => example_deliberation) 1%nat example_agents [] [] [] []
    1700000000%Z.

(** The scenario of the factual disagreement: P1 and P2. *)
Definition P1 : AgentThought :=
  example_thought QUEEN_COORDINATOR "implement X" (Fin 0.9)
    ["benchmark data"; "latency metric"].
Definition P2 : AgentThought :=
  example_thought CODE_ARCHITECT "avoid X" (Fin 0.6) [].
Definition scenario_world : World := example_world P1 P2.
Definition scenario_map : PosMap :=
  [(QUEEN_COORDINATOR, 0%nat); (CODE_ARCHITECT, 1%nat)].

(** Two positions that share no word and conflict on nothing. *)
Definition unrelated_world : World :=
  example_world
    (example_thought QUEEN_COORDINATOR "cache the results" (Fin 0.9) [])
    (example_thought CODE_ARCHITECT "rewrite parser" (Fin 0.8) []).

(** A position stored under a key other than its own role. *)
Definition misfiled_world : World :=
  example_world
    (example_thought QUEEN_COORDINATOR "wait" (Fin 0.3) [])
    (example_thought QUEEN_COORDINATOR "wait" (Fin 0.3) []).
Definition misfiled_map : PosMap := [(SECURITY_SPECIALIST, 0%nat)].

(** An insight over the two example agents, not yet amplified. *)
Definition example_insight : CollectiveInsight :=
  mkCollectiveInsight "weighted_voting_0"
    [QUEEN_COORDINATOR; CODE_ARCHITECT] "implement X" MAJORITY_SUPER
    (Fin 0.5) [] "weighted_voting".

(** *** Definitions used to state the properties *)

Definition dict_float_msg : string :=
  "'>' not supported between instances of 'dict' and 'float'".

Definition voting_record_msg : string :=
  "ConsensusDeliberation.__init__() missing 1 required positional argument: 'voting_record'".

(** The first rule of the strategy selector. *)
Definition rule1 (w : World) (m : PosMap) : bool :=
  let ts := items_in w m in
  fgt (_calculate_agreement_score (map (fun kv => content (snd kv)) ts))
      (Fin 0.8)
  && (length (detect_conflicts ts) =? 0)%nat.

(** Equality of floats as numbers. *)
Definition feq (a b : pyfloat) : Prop :=
  match a, b with
  | Fin x, Fin y => x == y
  | NaN, NaN => True
  | _, _ => False
  end.

(** A computation that raises in every store. *)
Definition always_raises {A} (m : M A) : Prop :=
  forall w, exists e, fst (m w) = Raise e.

(** A computation that leaves [consensus_history] as it was. *)
Definition keeps_history {A} (m : M A) : Prop :=
  forall w, consensus_history (snd (m w)) = consensus_history w.

(** Every thought of the map has confidence in [0,1]. *)
Definition confidences_in_unit (w : World) (m : PosMap) : Prop :=
  Forall (fun kr => in_unit (confidence (thoughts w (snd kr)))) m.

(** Every thought of the map is stored under its own role. *)
Definition keyed_by_role (w : World) (m : PosMap) : Prop :=
  Forall (fun kr => agent_role (thoughts w (snd kr)) = fst kr) m.

(** The per-item score in the words of the specification: base 0.5, plus
    min(1, length/100) x 0.2, plus 0.1 per keyword hit, capped at 1.0. *)
Definition item_score_of (len hits : nat) : Q :=
  Qmin 1 (0.5 + Qmin 1 (inject_Z (Z.of_nat len) / 100) * 0.2
          + inject_Z (Z.of_nat hits) * 0.1).
Definition spec_item_score (e : string) : pyfloat :=
  Fin (item_score_of (String.length e)
         (count_keywords specificity_keywords (lower e))).

(** Some contributor is a registered agent with a recorded position. *)
Definition has_validation (w : World) (d : dref) (c : CollectiveInsight)
  : bool :=
  existsb (fun role => dict_mem (agents w) role &&
                       dict_mem (agent_positions (deliberations w d)) role)
          (contributing_agents c).

(** One amplification on the confidence: times 1 + 0.8 x 0.1, capped. *)
Definition boost (x : Q) : Q := Qmin 1 (x * (1 + 0.8 * 0.1)).





(** An evidence list that is not empty and of which every item mentions
    at least two specificity keywords. *)
Definition well_evidenced (evidence_list : list string) : Prop :=
  evidence_list <> [] /\
  Forall (fun e => (2 <= count_keywords specificity_keywords (lower e))%nat)
         evidence_list.

(** The helper methods the strategies call although the class does not
    define them. *)
Definition absent_helper_methods : list string :=
  [ "_synthesize_evidence_based_positions"; "_identify_common_themes";
    "_collaborative_synthesis_process"; "_calculate_collaboration_score";
    "_create_refinement_proposals"; "_select_best_proposal";
    "_update_thoughts_from_proposal"; "_check_convergence";
    "_synthesize_refined_thoughts";
    "_build_consensus_from_resolved_conflicts";
    "_build_agreement_network"; "_emergent_position_update";
    "_check_position_stability"; "_synthesize_emergent_agreement";
    "_calculate_emergence_strength"; "_update_thoughts_from_consensus" ].

(* ================================================================== *)
(** ** Analytics, optimisation and learned strategy lookup *)
(* ================================================================== *)

(** [level.value] *)
Definition level_value (l : ConsensusLevel) : string :=
  match l with
  | UNANIMOUS => "unanimous"
  | MAJORITY_SUPER => "majority_super"
  | MAJORITY_STRONG => "majority_strong"
  | MAJORITY_SIMPLE => "majority_simple"
  | PLURALITY => "plurality"
  | SPECIALIST_OVERRIDE => "specialist_override"
  end.

Definition ConsensusStrategy_eq_dec (a b : ConsensusStrategy)
  : {a = b} + {a <> b}.
Proof. decide equality. Defined.

Definition all_strategies : list ConsensusStrategy :=
  [ WEIGHTED_VOTING; SPECIALIST_AUTHORITY; EVIDENCE_BASED;
    COLLABORATIVE_SYNTHESIS; ITERATIVE_REFINEMENT; CONFLICT_RESOLUTION;
    EMERGENT_AGREEMENT; HYBRID_ADAPTIVE ].

(** [ConsensusStrategy(name)], the member with that value; [None] stands
    for the [ValueError] of a name that is no member's value. *)
Definition ConsensusStrategy_of_value (name : string)
  : option ConsensusStrategy :=
  find (fun s => String.eqb (strategy_value s) name) all_strategies.

(** [s.split(sep)] for a one-character separator. *)
Fixpoint split_on (sep : ascii) (s : string) : list string :=
  match s with
  | EmptyString => [EmptyString]
  | String c s' =>
      if Ascii.eqb c sep then EmptyString :: split_on sep s'
      else match split_on sep s' with
           | tok :: rest => String c tok :: rest
           | [] => [String c EmptyString]
           end
  end.

(** [l[-n:]] *)
Definition last_n {A} (n : nat) (l : list A) : list A :=
  skipn (length l - n) l.

(** [counts[key] += 1] on a [defaultdict(int)]. *)
Fixpoint count_incr (counts : list (string * nat)) (key : string)
  : list (string * nat) :=
  match counts with
  | [] => [(key, 1%nat)]
  | (k, n) :: rest =>
      if String.eqb k key then (k, S n) :: rest
      else (k, n) :: count_incr rest key
  end.

(** [metrics.get(key, default)] *)
Fixpoint metric_get_default (metrics : list (string * pyfloat)) (key : string)
  (dflt : pyfloat) : pyfloat :=
  match metrics with
  | [] => dflt
  | (k, v) :: rest =>
      if String.eqb k key then v else metric_get_default rest key dflt
  end.

(** The dictionary returned by [get_consensus_analytics]; the entry
    ['active_deliberations'] is [active_count]. *)
Record ConsensusAnalytics : Type := mkConsensusAnalytics {
  total_deliberations : nat;
  recent_deliberations : nat;
  average_processing_time : pyfloat;
  strategy_distribution : list (string * nat);
  consensus_level_distribution : list (string * nat);
  average_confidence_score : pyfloat;
  average_conflict_resolution_rate : pyfloat;
  active_count : nat
}.

Inductive AnalyticsResult : Type :=
| AnalyticsStatus (status : string)
| Analytics (a : ConsensusAnalytics).

(** The state of the loop of [get_consensus_analytics]. *)
Record AnalyticsTally : Type := mkAnalyticsTally {
  tally_strategies : list (string * nat);
  tally_levels : list (string * nat);
  tally_confidences : list pyfloat;
  tally_rates : list pyfloat
}.

Definition analytics_step (t : AnalyticsTally) (deliberation : ConsensusDeliberation)
  : AnalyticsTally :=
  let strategies :=
    count_incr (tally_strategies t) (strategy_value (strategy deliberation)) in
  let levels_confidences :=
    match final_consensus deliberation with
    | Some final =>
        (count_incr (tally_levels t) (level_value (consensus_level final)),
         (tally_confidences t ++ [confidence_score final])%list)
    | None => (tally_levels t, tally_confidences t)
    end in
  let rates :=
    match quality_metrics deliberation with
    | _ :: _ =>
        (tally_rates t ++
         [metric_get_default (quality_metrics deliberation)
            "conflict_resolution_rate" (Fin 0)])%list
    | [] => tally_rates t
    end in
  mkAnalyticsTally strategies (fst levels_confidences)
    (snd levels_confidences) rates.

Definition get_consensus_analytics (w : World) : AnalyticsResult :=
  match consensus_history w with
  | [] => AnalyticsStatus "No consensus sessions completed"
  | _ =>
      let history := map (deliberations w) (consensus_history w) in
      let recent := last_n 20 history in
      let avg_processing_time :=
        np_mean
          (flat_map
             (fun d =>
                match deliberation_end d with
                | Some e => [Fin (inject_Z (e - deliberation_start d))]
                | None => []
                end)
             recent) in
      let tally :=
        fold_left analytics_step recent (mkAnalyticsTally [] [] [] []) in
      Analytics
        (mkConsensusAnalytics
           (length history)
           (length recent)
           avg_processing_time
           (tally_strategies tally)
           (tally_levels tally)
           (match tally_confidences tally with
            | _ :: _ => np_mean (tally_confidences tally)
            | [] => Fin 0
            end)
           (match tally_rates tally with
            | _ :: _ => np_mean (tally_rates tally)
            | [] => Fin 0
            end)
           (length (active_deliberations w)))
  end.

(** [class ConsensusOptimizer] *)

Record StrategyMetrics : Type := mkStrategyMetrics {
  avg_performance : pyfloat;
  success_rate : pyfloat
}.

Record Recommendations : Type := mkRecommendations {
  preferred_strategy : ConsensusStrategy;
  alternative_strategies : list ConsensusStrategy
}.

(** The dictionary returned by [optimize_consensus_parameters];
    [recommendations] is [None] for the empty dictionary. *)
Record Optimization : Type := mkOptimization {
  optimal_strategies : list (ConsensusStrategy * StrategyMetrics);
  recommendations : option Recommendations;
  data_points : nat
}.

Inductive OptimizationResult : Type :=
| OptimizationStatus (status : string)
| Optimized (o : Optimization).

(** [strategy_performance[strategy].append(p)] on a [defaultdict(list)]. *)
Fixpoint performance_add (groups : list (ConsensusStrategy * list pyfloat))
  (s : ConsensusStrategy) (p : pyfloat)
  : list (ConsensusStrategy * list pyfloat) :=
  match groups with
  | [] => [(s, [p])]
  | (s', ps) :: rest =>
      if ConsensusStrategy_eq_dec s' s then (s', (ps ++ [p])%list) :: rest
      else (s', ps) :: performance_add rest s p
  end.

Definition strategy_performance (recent : list ConsensusDeliberation)
  : list (ConsensusStrategy * list pyfloat) :=
  fold_left
    (fun groups d =>
       match final_consensus d with
       | Some final => performance_add groups (strategy d) (confidence_score final)
       | None => groups
       end)
    recent [].

Definition strategy_metrics (performances : list pyfloat) : StrategyMetrics :=
  mkStrategyMetrics
    (np_mean performances)
    (fdiv (of_nat (length (filter (fun p => fgt p (Fin 0.7)) performances)))
          (of_nat (length performances))).

(** [max(optimal, key=lambda x: optimal[x]['avg_performance'])] *)
Definition best_of (first : ConsensusStrategy * StrategyMetrics)
  (others : list (ConsensusStrategy * StrategyMetrics)) : ConsensusStrategy :=
  fst (fold_left
         (fun best kv =>
            if fgt (avg_performance (snd kv)) (avg_performance (snd best))
            then kv else best)
         others first).

Definition optimize_consensus_parameters
  (consensus_history : list ConsensusDeliberation) : OptimizationResult :=
  if (length consensus_history <? 5)%nat
  then OptimizationStatus "Insufficient data for optimization"
  else
    let recent_deliberations := last_n 10 consensus_history in
    let optimal_strategies :=
      flat_map
        (fun sp =>
           match snd sp with
           | _ :: _ => [(fst sp, strategy_metrics (snd sp))]
           | [] => []
           end)
        (strategy_performance recent_deliberations) in
    let recommendations :=
      match optimal_strategies with
      | first :: others =>
          let best_strategy := best_of first others in
          Some (mkRecommendations
                  best_strategy
                  (map fst
                     (filter
                        (fun sm =>
                           fgt (avg_performance (snd sm)) (Fin 0.7) &&
                           (if ConsensusStrategy_eq_dec (fst sm) best_strategy
                            then false else true))
                        optimal_strategies)))
      | [] => None
      end in
    Optimized
      (mkOptimization optimal_strategies recommendations
         (length recent_deliberations)).

(** [ConsensusLearning.get_optimal_strategy_for_context]: one round of
    its loop over [self.learning_patterns.items()].  A [ValueError] from
    [ConsensusStrategy(strategy_name)] is caught and the loop continues,
    [best_performance] having been updated already. *)
Definition optimal_strategy_step (agent_count conflict_estimate : Z)
  (best : option ConsensusStrategy * pyfloat)
  (entry : string * list LearningPattern)
  : option ConsensusStrategy * pyfloat :=
  let best_strategy := fst best in
  let best_performance := snd best in
  let pattern_key := fst entry in
  let similar_patterns :=
    filter
      (fun p =>
         (Z.abs (Z.of_nat (pattern_agent_count p) - agent_count) <=? 2)%Z &&
         (Z.abs (Z.of_nat (pattern_conflict_count p) - conflict_estimate)
          <=? 1)%Z)
      (last_n 20 (snd entry)) in
  match similar_patterns with
  | _ :: _ =>
      let avg_performance :=
        np_mean (map pattern_confidence_score similar_patterns) in
      if fgt avg_performance best_performance then
        let strategy_name := hd EmptyString (split_on "_" pattern_key) in
        match ConsensusStrategy_of_value strategy_name with
        | Some s => (Some s, avg_performance)
        | None => (best_strategy, avg_performance)
        end
      else best
  | [] => best
  end.

Definition get_optimal_strategy_for_context
  (learning_patterns : list (string * list LearningPattern))
  (agent_count conflict_estimate : Z) : option ConsensusStrategy :=
  match learning_patterns with
  | [] => None
  | _ =>
      fst (fold_left (optimal_strategy_step agent_count conflict_estimate)
             learning_patterns (None, Fin 0))
  end.

(** *** Definitions used to state further properties *)

(** Starting in a store that satisfies [pre], the computation returns
    normally, and its result and final store satisfy [post]. *)
Definition hoare {A} (pre : World -> Prop) (m : M A)
  (post : A -> World -> Prop) : Prop :=
  forall w, pre w -> exists a w', m w = (Ok a, w') /\ post a w'.

(** Every thought object of the store satisfies [good]. *)
Definition all_thoughts (good : AgentThought -> Prop) (w : World) : Prop :=
  forall r, good (thoughts w r).

(** The thought object behind every reference [r] satisfies [good r]. *)
Definition each_thought (good : tref -> AgentThought -> Prop) (w : World)
  : Prop :=
  forall r, good r (thoughts w r).

(** The conflicts the detector decides from the contents of two
    positions: all but the methodological ones. *)
Definition content_conflicts (thought1 thought2 : AgentThought)
  : list (ConflictType * string) :=
  filter
    (fun cd =>
       if ConflictType_eq_dec (fst cd) METHODOLOGICAL_CONFLICT
       then false else true)
    (_analyze_conflict_between_agents thought1 thought2).

(** Every thought object has in [w'] the content, the role and the
    evidence it has in [w]. *)
Definition same_contents (w w' : World) : Prop :=
  forall r,
    content (thoughts w' r) = content (thoughts w r) /\
    agent_role (thoughts w' r) = agent_role (thoughts w r) /\
    evidence (thoughts w' r) = evidence (thoughts w r).

(** Two positions that disagree on priority and on strategy. *)
Definition divergent_world : World :=
  example_world
    (example_thought QUEEN_COORDINATOR
       "critical: a scalable design" (Fin 0.9) ["load study"])
    (example_thought CODE_ARCHITECT
       "optional: keep it maintainable" (Fin 0.7) ["load study"; "code metric"]).

(** The character [c] occurs in [s]. *)
Fixpoint mentions (c : ascii) (s : string) : bool :=
  match s with
  | EmptyString => false
  | String c' s' => Ascii.eqb c' c || mentions c s'
  end.

(** A computation that changes nothing of the store but the thought
    objects. *)
Definition only_thoughts {A} (m : M A) : Prop :=
  forall w, exists h n, snd (m w) = with_thoughts w h n.

(** The normalised [voting_weights] and the [weighted_positions] that
    [_weighted_voting_consensus] computes from the evidence scores and
    the positions. *)
Definition raw_voting_weights (scores : dict pyfloat)
  (ts : dict AgentThought) : dict pyfloat :=
  map (fun kv =>
         (fst kv,
          fadd (fadd (fmul (dict_get_default specialist_weights (fst kv)
                              (Fin 0.5)) (Fin 0.4))
                     (fmul (dict_get_default scores (fst kv) (Fin 0.5))
                           (Fin 0.3)))
               (fmul (confidence (snd kv)) (Fin 0.3))))
      ts.

Definition voting_weights_of (scores : dict pyfloat)
  (ts : dict AgentThought) : dict pyfloat :=
  let total_weight := fsum (values (raw_voting_weights scores ts)) in
  if fgt total_weight (Fin 0)
  then map (fun kv => (fst kv, fdiv (snd kv) total_weight))
           (raw_voting_weights scores ts)
  else raw_voting_weights scores ts.

Definition weighted_positions_of (scores : dict pyfloat)
  (ts : dict AgentThought) : list (string * pyfloat) :=
  flat_map
    (fun kv =>
       let weight :=
         dict_get_default (voting_weights_of scores ts) (fst kv) (Fin 0) in
       if fgt weight (Fin 0) then [(content (snd kv), weight)] else [])
    ts.

(** The store after [deliberation.phases.append(phase)]. *)
Definition phase_appended (w : World) (deliberation : dref)
  (phase : DeliberationPhase) : World :=
  with_deliberations w
    (fun d' => if Nat.eqb d' deliberation
               then set_phases (deliberations w deliberation)
                      (phases (deliberations w deliberation) ++ [phase])%list
               else deliberations w d')
    (next_deliberation w).

(** The [specialist_scores] of [_determine_lead_specialist]. *)
Definition specialist_scores (tk : AGITask)
  (agent_thoughts : dict AgentThought) : dict pyfloat :=
  flat_map
    (fun rk =>
       match dict_get agent_thoughts (fst rk) with
       | Some thought =>
           [(fst rk,
             fmul (of_nat (count_keywords (snd rk) (lower (description tk))))
                  (confidence thought))]
       | None => []
       end)
    specialist_keywords.

(** A participant qualifies for [_evidence_based_consensus]. *)
Definition evidence_qualified (d : ConsensusDeliberation)
  (kv : AgentRole * AgentThought) : bool :=
  fgt (dict_get_default (evaluate_evidence_quality (evidence_registry d))
         (fst kv) (Fin 0))
      (Fin 0.6).

(** The arguments of one call of [reach_consensus], and the store after a
    series of calls, each failure being caught by the caller. *)
Definition Call : Type :=
  AGITask * PosMap * option ConsensusStrategy * option VotingMethod.

Definition run_calls (calls : list Call) (w : World) : World :=
  fold_left
    (fun w (c : Call) =>
       let '(tk, m, s, v) := c in snd (reach_consensus tk m s v w))
    calls w.

(** The four conflict types the detector reports. *)
Definition detected_type (ty : ConflictType) : bool :=
  match ty with
  | FACTUAL_DISAGREEMENT | PRIORITY_DISAGREEMENT
  | METHODOLOGICAL_CONFLICT | STRATEGIC_DIVERGENCE => true
  | _ => false
  end.

(** The seven roles of the keyword table of [_determine_lead_specialist]. *)
Definition keyword_role (r : AgentRole) : bool :=
  dict_mem specialist_keywords r.

Definition sum_counts (counts : list (string * nat)) : nat :=
  fold_right (fun kn acc => (snd kn + acc)%nat) 0%nat counts.

(* ================================================================== *)
(** ** Verification *)
(* ================================================================== *)

(** *** Facts about floats *)

Lemma Qltb_lt x y : Qltb x y = true <-> x < y.
Proof.
  unfold Qltb. rewrite negb_true_iff. split; intro H.
  - apply Qnot_le_lt. intro Hle. apply Qle_bool_iff in Hle. congruence.
  - destruct (Qle_bool y x) eqn:E; [| reflexivity].
    apply Qle_bool_iff in E. exfalso. apply (Qlt_not_le _ _ H E).
Qed.

Lemma Qltb_ge x y : Qltb x y = false <-> y <= x.
Proof.
  unfold Qltb. rewrite negb_false_iff. apply Qle_bool_iff.
Qed.

(** [min(a, x)] on numbers is the smaller of the two. *)
Lemma fmin_Fin a x :
  exists q, fmin (Fin a) (Fin x) = Fin q /\ q == Qmin a x.
Proof.
  unfold fmin, flt. destruct (Qltb x a) eqn:E.
  - exists x. split; [reflexivity |].
    apply Qltb_lt in E. symmetry. apply Q.min_r. apply Qlt_le_weak, E.
  - exists a. split; [reflexivity |].
    apply Qltb_ge in E. symmetry. apply Q.min_l, E.
Qed.

Lemma flt_irrefl (a : pyfloat) : flt a a = false.
Proof.
  destruct a as [x |]; [| reflexivity]. cbn. apply Qltb_ge. lra.
Qed.

(** *** The evidence evaluator (C6) *)

Lemma single_evidence_value (e : string) :
  exists q, _evaluate_single_evidence e = Fin q /\
            q == if String.eqb e ""
                 then 0
                 else item_score_of (String.length e)
                        (count_keywords specificity_keywords (lower e)).
Proof.
  unfold _evaluate_single_evidence.
  destruct (String.eqb e "") eqn:E.
  - exists 0.0. split; [reflexivity | reflexivity].
  - unfold of_nat. cbn [fdiv fbin].
    destruct (fmin_Fin 1.0 (inject_Z (Z.of_nat (String.length e)) / 100))
      as [q1 [E1 H1]].
    rewrite E1. cbn [fmul fadd fbin].
    destruct (fmin_Fin 1.0
                (0.5 + q1 * 0.2 +
                 inject_Z (Z.of_nat
                   (count_keywords specificity_keywords (lower e))) * 0.1))
      as [q2 [E2 H2]].
    exists q2. split; [exact E2 |].
    rewrite H2. unfold item_score_of. rewrite H1.
    assert (H10 : 1.0 == 1) by reflexivity.
    rewrite H10. reflexivity.
Qed.

Lemma inject_nat_le (a b : nat) :
  (a <= b)%nat -> inject_Z (Z.of_nat a) <= inject_Z (Z.of_nat b).
Proof. intro H. rewrite <- Zle_Qle. lia. Qed.

Lemma item_score_mono (len1 len2 hits1 hits2 : nat) :
  (len1 <= len2)%nat -> (hits1 <= hits2)%nat ->
  item_score_of len1 hits1 <= item_score_of len2 hits2.
Proof.
  intros Hl Hh. unfold item_score_of.
  apply Q.min_le_compat_l.
  apply inject_nat_le in Hl. apply inject_nat_le in Hh.
  assert (Hm : Qmin 1 (inject_Z (Z.of_nat len1) / 100)
               <= Qmin 1 (inject_Z (Z.of_nat len2) / 100)).
  { apply Q.min_le_compat_l. apply Qmult_le_compat_r; [exact Hl |].
    compute. discriminate. }
  lra.
Qed.

Lemma item_score_nonneg (len hits : nat) : 0 <= item_score_of len hits.
Proof.
  unfold item_score_of. apply Q.min_glb; [lra |].
  assert (H0 : 0 <= inject_Z (Z.of_nat hits))
    by (apply (inject_nat_le (a := 0)); lia).
  assert (Hm : 0 <= Qmin 1 (inject_Z (Z.of_nat len) / 100)).
  { apply Q.min_glb; [lra |].
    apply Qle_shift_div_l; [reflexivity |].
    assert (H1 : 0 <= inject_Z (Z.of_nat len))
      by (apply (inject_nat_le (a := 0)); lia).
    lra. }
  nra.
Qed.

Lemma dict_get_map A B (f : A -> B) (d : dict A) (k : AgentRole) :
  dict_get (map (fun kv => (fst kv, f (snd kv))) d) k
  = option_map f (dict_get d k).
Proof.
  induction d as [| [k' v] d IH]; cbn; [reflexivity |].
  destruct (role_eqb k' k); [reflexivity | exact IH].
Qed.

(** C6 (counterexample to the claim as written): for the evidence list
    holding one empty string the code returns 0.0, where the claimed mean
    of min(1.0, 0.5 + ...) over the items is 0.5. *)
Lemma C6_empty_item_scores_zero :
  evidence_list_score [""] = Fin 0.0 /\
  feq (np_mean (map spec_item_score [""])) (Fin 0.5) /\
  ~ feq (evidence_list_score [""]) (np_mean (map spec_item_score [""])).
Proof.
  split; [| split].
  - vm_compute. reflexivity.
  - vm_compute. reflexivity.
  - vm_compute. discriminate.
Qed.

(** C6 (amended): the evidence evaluator scores each participant by
    [evidence_list_score]; that is exactly 0.0 on the empty list and the
    mean of the per-item scores otherwise; an item scores 0.0 when it is
    the empty string and min(1.0, 0.5 + min(1, length/100) x 0.2 + 0.1 x
    keyword hits) otherwise; the per-item score does not decrease when the
    number of keyword hits grows (the length not shrinking). *)
Theorem C6_evidence_score
  (registry : dict (list string)) (participant : AgentRole)
  (item : string) (others : list string) (e e' : string)
  (Hlen : (String.length e <= String.length e')%nat)
  (Hhits : (count_keywords specificity_keywords (lower e)
            <= count_keywords specificity_keywords (lower e'))%nat) :
  dict_get (evaluate_evidence_quality registry) participant
    = option_map evidence_list_score (dict_get registry participant) /\
  evidence_list_score [] = Fin 0.0 /\
  evidence_list_score (item :: others)
    = np_mean (map _evaluate_single_evidence (item :: others)) /\
  feq (_evaluate_single_evidence e)
      (if String.eqb e "" then Fin 0 else spec_item_score e) /\
  fle (_evaluate_single_evidence e) (_evaluate_single_evidence e') = true.
Proof.
  split; [| split; [| split; [| split]]].
  - apply dict_get_map.
  - reflexivity.
  - reflexivity.
  - destruct (single_evidence_value e) as [q [Eq Hq]]. rewrite Eq.
    destruct (String.eqb e ""); exact Hq.
  - destruct (single_evidence_value e) as [q [Eq Hq]].
    destruct (single_evidence_value e') as [q' [Eq' Hq']].
    rewrite Eq, Eq'. cbn [fle]. apply Qle_bool_iff. rewrite Hq, Hq'.
    destruct (String.eqb e "") eqn:E.
    + destruct (String.eqb e' ""); [lra | apply item_score_nonneg].
    + destruct (String.eqb e' "") eqn:E'.
      * apply String.eqb_eq in E'. subst e'. cbn in Hlen.
        destruct e; [discriminate E | cbn in Hlen; lia].
      * apply item_score_mono; assumption.
Qed.

Lemma C6_evidence_score_witness :
  (String.length "survey data" <= String.length "metric data")%nat /\
  (count_keywords specificity_keywords (lower "survey data")
   <= count_keywords specificity_keywords (lower "metric data"))%nat /\
  fle (_evaluate_single_evidence "survey data")
      (_evaluate_single_evidence "metric data") = true.
Proof.
  assert (Hlen : (String.length "survey data"
                  <= String.length "metric data")%nat)
    by (vm_compute; lia).
  assert (Hhits : (count_keywords specificity_keywords (lower "survey data")
                   <= count_keywords specificity_keywords
                        (lower "metric data"))%nat)
    by (vm_compute; lia).
  split; [exact Hlen | split; [exact Hhits |]].
  exact (proj2 (proj2 (proj2 (proj2
    (@C6_evidence_score [] QUEEN_COORDINATOR "" [] "survey data"
       "metric data" Hlen Hhits))))).
Defined.

(** *** Names the classes do not define; the voting table (C10) *)

Lemma voting_methods_undefined (v : VotingMethod) :
  mem (voting_method_name v) MultiAgentConsensusSystem_methods = false.
Proof. destruct v; reflexivity. Qed.

Lemma absent_helpers_undefined :
  forallb (fun name => negb (mem name MultiAgentConsensusSystem_methods))
          absent_helper_methods = true.
Proof. reflexivity. Qed.

Lemma participating_agents_not_a_field :
  mem "participating_agents" (map fst ConsensusDeliberation_fields) = false.
Proof. reflexivity. Qed.

(** C10 (the code departs from the claim): the claim asks that every
    [VotingMethod] be mapped to an existing function.  The class names
    eight methods in its voting table and defines none of them, so that
    building the table, and with it the constructor, raises
    [AttributeError] at the entry for simple majority. *)
Theorem C10_voting_table_names_undefined_methods :
  (forall v, mem (voting_method_name v) MultiAgentConsensusSystem_methods
             = false) /\
  (forall w, fst (_initialize_voting_methods w)
             = Raise (AttributeError cls "_simple_majority_voting")) /\
  (forall agents' w, fst (MultiAgentConsensusSystem__init__ agents' w)
                     = Raise (AttributeError cls "_simple_majority_voting")).
Proof.
  split; [exact voting_methods_undefined | split; intros; reflexivity].
Qed.


(** *** The factual resolver (C5) *)


(** When both roles hold one and the same object, the tie branch scales
    its confidence twice. *)
Lemma factual_pair_same_object (w : World) (m : PosMap)
  (role1 role2 : AgentRole) (description : string) (r : tref) :
  dict_get m role1 = Some r -> dict_get m role2 = Some r ->
  fgt (evidence_strength (thoughts w r)) (evidence_strength (thoughts w r))
    = false ->
  confidence
    (thoughts (snd (resolve_factual_pair m (role1, role2, description) w)) r)
  = fmul (fmul (confidence (thoughts w r)) (Fin 0.8)) (Fin 0.8).
Proof.
  intros H1 H2 G. unfold resolve_factual_pair. rewrite H1, H2.
  cbv beta iota zeta delta [bind read_thought]. rewrite G.
  cbv beta iota zeta
    delta [scale_confidence append_reasoning write_thought read_thought
           bind with_thoughts thoughts snd fst].
  rewrite ?Nat.eqb_refl. reflexivity.
Qed.




Lemma inject_nat_lt (a b : nat) :
  (a < b)%nat -> inject_Z (Z.of_nat a) < inject_Z (Z.of_nat b).
Proof. intro H. rewrite <- Zlt_Qlt. lia. Qed.





(** *** Landscape analysis (C4) *)

Lemma landscape_eval task m w :
  _analyze_consensus_landscape task m w =
  (if rule1 w m
   then Ok (let ts := items_in w m in
            mkConsensusAnalysis
              (_calculate_agreement_score (map (fun kv => content (snd kv)) ts))
              (np_var (confidences ts)) (np_mean (confidences ts))
              (length (detect_conflicts ts))
              (evaluate_evidence_quality
                 (map (fun kv => (fst kv, evidence (snd kv))) ts))
              WEIGHTED_VOTING WEIGHTED_CONSENSUS)
   else Raise (TypeError dict_float_msg), w).
Proof.
  unfold _analyze_consensus_landscape, rule1, bind, items, ret.
  destruct (fgt _ _ && _); reflexivity.
Qed.

(** C4 (the code departs from the claim): the selector either selects
    Weighted Voting by its first rule, and then no conflict was detected,
    or raises [TypeError] at the comparison of the dictionary of evidence
    scores with 0.7; rules 2 to 5 never select anything.  It raises
    whenever a conflict is detected, and it selects Weighted Voting for
    fewer than two positions.  The two unrelated positions, of agreement
    score 0 and without conflict, are an input on which it raises. *)
Theorem C4_selector_stops_after_first_rule :
  (forall task m w,
      fst (_analyze_consensus_landscape task m w)
      = Raise (TypeError dict_float_msg) \/
      exists analysis,
        fst (_analyze_consensus_landscape task m w) = Ok analysis /\
        recommended_strategy analysis = WEIGHTED_VOTING /\
        recommended_voting analysis = WEIGHTED_CONSENSUS /\
        conflicts_detected analysis = 0%nat) /\
  (forall task m w,
      detect_conflicts (items_in w m) <> [] ->
      fst (_analyze_consensus_landscape task m w)
      = Raise (TypeError dict_float_msg)) /\
  (forall task m w,
      (length m < 2)%nat ->
      exists analysis,
        fst (_analyze_consensus_landscape task m w) = Ok analysis /\
        recommended_strategy analysis = WEIGHTED_VOTING) /\
  feq (_calculate_agreement_score
         (map (fun kv => content (snd kv))
              (items_in unrelated_world scenario_map)))
      (Fin 0) /\
  detect_conflicts (items_in unrelated_world scenario_map) = [] /\
  fst (_analyze_consensus_landscape example_task scenario_map unrelated_world)
  = Raise (TypeError dict_float_msg).
Proof.
  split; [| split; [| split; [| split; [| split]]]].
  - intros. rewrite landscape_eval. destruct (rule1 w m) eqn:E.
    + right. eexists. split; [reflexivity |].
      cbn [recommended_strategy recommended_voting conflicts_detected].
      split; [reflexivity |]. split; [reflexivity |].
      unfold rule1 in E. apply andb_true_iff in E. destruct E as [_ E].
      apply Nat.eqb_eq in E. exact E.
    + left. reflexivity.
  - intros task m w Hc. rewrite landscape_eval.
    replace (rule1 w m) with false; [reflexivity |].
    symmetry. unfold rule1. apply andb_false_iff. right.
    apply Nat.eqb_neq. destruct (detect_conflicts (items_in w m));
      [congruence | discriminate].
  - intros task m w Hl. rewrite landscape_eval.
    replace (rule1 w m) with true; [eexists; split; reflexivity |].
    destruct m as [| kr1 [| kr2 m]]; [reflexivity | reflexivity |].
    cbn [length] in Hl. lia.
  - vm_compute. reflexivity.
  - vm_compute. reflexivity.
  - vm_compute. reflexivity.
Qed.

(** *** [reach_consensus] stops before its guarded block *)

Lemma reach_consensus_eval task m s v w :
  reach_consensus task m s v w =
  (Raise (TypeError (if rule1 w m then voting_record_msg else dict_float_msg)),
   w).
Proof.
  unfold reach_consensus, bind at 1 2. unfold now at 1.
  rewrite landscape_eval.
  destruct (rule1 w m); reflexivity.
Qed.


(** *** Frame lemmas: what leaves [consensus_history] alone *)

Lemma keeps_ret A (a : A) : keeps_history (ret a).
Proof. intro w. reflexivity. Qed.

Lemma keeps_raise A (e : exn) : keeps_history (raise e : M A).
Proof. intro w. reflexivity. Qed.

Lemma keeps_bind A B (m : M A) (k : A -> M B) :
  keeps_history m -> (forall a, keeps_history (k a)) ->
  keeps_history (bind m k).
Proof.
  intros Hm Hk w. unfold bind. specialize (Hm w).
  destruct (m w) as [[a | e] w1]; cbn in *; [rewrite Hk |]; exact Hm.
Qed.

Lemma keeps_read_thought r : keeps_history (read_thought r).
Proof. intro w. reflexivity. Qed.
Lemma keeps_write_thought r t : keeps_history (write_thought r t).
Proof. intro w. reflexivity. Qed.
Lemma keeps_new_thought t : keeps_history (new_thought t).
Proof. intro w. reflexivity. Qed.
Lemma keeps_read_deliberation d : keeps_history (read_deliberation d).
Proof. intro w. reflexivity. Qed.
Lemma keeps_write_deliberation d x : keeps_history (write_deliberation d x).
Proof. intro w. reflexivity. Qed.
Lemma keeps_now : keeps_history now.
Proof. intro w. reflexivity. Qed.
Lemma keeps_items m : keeps_history (items m).
Proof. intro w. reflexivity. Qed.
Lemma keeps_get_world : keeps_history get_world.
Proof. intro w. reflexivity. Qed.

Lemma keeps_for_each A (xs : list A) (body : A -> M unit) :
  (forall a, keeps_history (body a)) -> keeps_history (for_each xs body).
Proof.
  intro H. induction xs as [| x xs IH]; cbn.
  - apply keeps_ret.
  - apply keeps_bind; [apply H | intros _; exact IH].
Qed.

Lemma keeps_fold_m A S (xs : list A) (body : S -> A -> M S) :
  (forall s a, keeps_history (body s a)) ->
  forall s, keeps_history (fold_m xs s body).
Proof.
  intro H. induction xs as [| x xs IH]; intro s; cbn.
  - apply keeps_ret.
  - apply keeps_bind; [apply H | intro s'; apply IH].
Qed.

Create HintDb keeps.
#[local] Hint Resolve keeps_ret keeps_raise keeps_read_thought
  keeps_write_thought keeps_new_thought keeps_read_deliberation
  keeps_write_deliberation keeps_now keeps_items keeps_get_world : keeps.

(** Walks through a method body: binds, conditionals and matches. *)
Ltac keeps_step :=
  match goal with
  | |- keeps_history (bind _ _) => apply keeps_bind; [| intros]
  | |- keeps_history (for_each _ _) => apply keeps_for_each; intros
  | |- keeps_history (fold_m _ _ _) => apply keeps_fold_m; intros
  | |- keeps_history (if ?b then _ else _) => destruct b
  | |- keeps_history (match ?x with _ => _ end) => destruct x
  | |- keeps_history _ => solve [auto with keeps]
  end.
Ltac keeps := repeat keeps_step.

Lemma keeps_update_deliberation d f : keeps_history (update_deliberation d f).
Proof. unfold update_deliberation. keeps. Qed.
Lemma keeps_getattr_absent A c a : keeps_history (getattr_absent c a : M A).
Proof. apply keeps_raise. Qed.
Lemma keeps_dict_gt_float V (d : dict V) x : keeps_history (dict_gt_float d x).
Proof. apply keeps_raise. Qed.
Lemma keeps_scale_confidence r f : keeps_history (scale_confidence r f).
Proof. unfold scale_confidence. keeps. Qed.
Lemma keeps_append_reasoning r s : keeps_history (append_reasoning r s).
Proof. unfold append_reasoning. keeps. Qed.
Lemma keeps_assign_reasoning r s : keeps_history (assign_reasoning r s).
Proof. unfold assign_reasoning. keeps. Qed.
Lemma keeps_assign_content r s : keeps_history (assign_content r s).
Proof. unfold assign_content. keeps. Qed.

#[local] Hint Resolve keeps_update_deliberation keeps_getattr_absent
  keeps_dict_gt_float keeps_scale_confidence keeps_append_reasoning
  keeps_assign_reasoning keeps_assign_content : keeps.

Lemma keeps_resolve_conflicts m cs : keeps_history (resolve_conflicts m cs).
Proof.
  unfold resolve_conflicts, _resolve_factual_disagreement,
    _resolve_priority_disagreement, _resolve_methodological_conflict,
    _resolve_strategic_divergence, resolve_factual_pair,
    resolve_priority_pair, resolve_methodological_pair,
    resolve_strategic_pair.
  keeps.
Qed.

Lemma keeps_fallback m task : keeps_history (_fallback_consensus m task).
Proof. unfold _fallback_consensus. keeps. Qed.
#[local] Hint Resolve keeps_resolve_conflicts keeps_fallback : keeps.

Lemma keeps_weighted_voting d m : keeps_history (_weighted_voting_consensus d m).
Proof. unfold _weighted_voting_consensus. keeps. Qed.
#[local] Hint Resolve keeps_weighted_voting : keeps.

Lemma keeps_collaborative d m :
  keeps_history (_collaborative_synthesis_consensus d m).
Proof. unfold _collaborative_synthesis_consensus. keeps. Qed.
#[local] Hint Resolve keeps_collaborative : keeps.

Lemma keeps_evidence_based d m : keeps_history (_evidence_based_consensus d m).
Proof. unfold _evidence_based_consensus. keeps. Qed.

Lemma keeps_conflict_resolution d m :
  keeps_history (_conflict_resolution_consensus d m).
Proof. unfold _conflict_resolution_consensus. keeps. Qed.
#[local] Hint Resolve keeps_evidence_based keeps_conflict_resolution : keeps.

Lemma keeps_landscape task m : keeps_history (_analyze_consensus_landscape task m).
Proof. intro w. rewrite landscape_eval. reflexivity. Qed.
#[local] Hint Resolve keeps_landscape : keeps.

Lemma keeps_strategy s d m : keeps_history (consensus_strategies s d m).
Proof.
  destruct s; cbn [consensus_strategies]; auto with keeps.
  - unfold _specialist_authority_consensus. keeps.
  - unfold _hybrid_adaptive_consensus. keeps.
Qed.

(** *** Computations that always raise *)

Lemma raises_bind_l A B (m : M A) (k : A -> M B) :
  always_raises m -> always_raises (bind m k).
Proof.
  intros H w. destruct (H w) as [e He]. unfold bind.
  destruct (m w) as [[a | e'] w1]; cbn in *; [discriminate | eauto].
Qed.

Lemma raises_bind_r A B (m : M A) (k : A -> M B) :
  (forall a, always_raises (k a)) -> always_raises (bind m k).
Proof.
  intros H w. unfold bind.
  destruct (m w) as [[a | e'] w1]; cbn; [apply H | eauto].
Qed.

Lemma raises_raise A (e : exn) : always_raises (raise e : M A).
Proof. intro w. eexists. reflexivity. Qed.

Lemma validation_always_raises c d :
  always_raises (_validate_consensus_quality c d).
Proof.
  unfold _validate_consensus_quality.
  apply raises_bind_r; intro. apply raises_bind_l, raises_raise.
Qed.

Lemma pipeline_always_raises d s m : always_raises (consensus_pipeline d s m).
Proof.
  unfold consensus_pipeline.
  apply raises_bind_r; intro c.
  apply raises_bind_l, validation_always_raises.
Qed.

Lemma keeps_try_except A (body : M A) (handler : exn -> M A) :
  keeps_history body -> (forall e, keeps_history (handler e)) ->
  keeps_history (try_except body handler).
Proof.
  intros Hb Hh w. unfold try_except. specialize (Hb w).
  destruct (body w) as [[a | e] w1]; cbn in *; [| rewrite Hh]; exact Hb.
Qed.

Lemma keeps_try_finally A (body : M A) (cleanup : M unit) :
  keeps_history body -> keeps_history cleanup ->
  keeps_history (try_finally body cleanup).
Proof.
  intros Hb Hc w. unfold try_finally. specialize (Hb w).
  destruct (body w) as [r w1]; cbn in *. specialize (Hc w1).
  destruct (cleanup w1) as [[u | e] w2]; cbn in *; congruence.
Qed.

(** The [try] body never reaches its [append]: validation raises first. *)
Lemma keeps_pipeline d s m : keeps_history (consensus_pipeline d s m).
Proof.
  intro w. unfold consensus_pipeline. unfold bind at 1.
  pose proof (keeps_strategy s d m w) as Hs.
  destruct (consensus_strategies s d m w) as [[c | e] w1]; cbn in *;
    [| exact Hs].
  rewrite <- Hs. reflexivity.
Qed.

Lemma keeps_consensus_failed d m task e :
  keeps_history (consensus_failed d m task e).
Proof. unfold consensus_failed. keeps. Qed.

Lemma keeps_consensus_cleanup d : keeps_history (consensus_cleanup d).
Proof. intro w. reflexivity. Qed.

Lemma guarded_block_keeps_history d s m task :
  keeps_history (guarded_block d s m task).
Proof.
  unfold guarded_block.
  apply keeps_try_finally; [apply keeps_try_except |].
  - apply keeps_pipeline.
  - intro e. apply keeps_consensus_failed.
  - apply keeps_consensus_cleanup.
Qed.


(** *** Quality amplification (C8) *)

Lemma validations_nil ag d c t :
  specialist_validations ag d c t = [] ->
  existsb (fun role => dict_mem ag role && dict_mem (agent_positions d) role)
          (contributing_agents c) = false.
Proof.
  unfold specialist_validations.
  induction (contributing_agents c) as [| role roles IH];
    cbn [flat_map existsb]; [reflexivity |].
  assert (Hm : dict_mem ag role
               = match dict_get ag role with Some _ => true | None => false end)
    by reflexivity.
  rewrite Hm. clear Hm.
  destruct (dict_get ag role) as [agent |];
    [destruct (dict_mem (agent_positions d) role) |];
    cbn [app andb orb]; [intro H; discriminate H | exact IH | exact IH].
Qed.

Lemma validations_confidence ag d c t :
  Forall (fun f => f = Fin 0.8)
         (confidences (specialist_validations ag d c t)).
Proof.
  unfold specialist_validations, confidences.
  induction (contributing_agents c) as [| role roles IH]; cbn;
    [constructor |].
  destruct (dict_get ag role) as [agent |]; [| exact IH].
  destruct (dict_mem (agent_positions d) role); cbn;
    [constructor; [reflexivity | exact IH] | exact IH].
Qed.

Lemma fsum_const (a : Q) (l : list pyfloat) (s : Q) :
  Forall (fun f => f = Fin a) l ->
  exists q, fold_left fadd l (Fin s) = Fin q /\
            q == s + inject_Z (Z.of_nat (length l)) * a.
Proof.
  intro H. revert s. induction H as [| f l Hf Hl IH]; intro s.
  - exists s. split; [reflexivity |].
    change (inject_Z (Z.of_nat (length (@nil pyfloat)))) with 0. lra.
  - subst f. cbn [fold_left fadd fbin].
    destruct (IH (s + a)) as [q [Eq Hq]].
    exists q. split; [exact Eq |]. rewrite Hq.
    cbn [length]. rewrite Nat2Z.inj_succ. unfold Z.succ.
    rewrite inject_Z_plus. change (inject_Z 1) with 1. ring.
Qed.

Lemma np_mean_const (a : Q) (l : list pyfloat) :
  l <> [] -> Forall (fun f => f = Fin a) l ->
  exists q, np_mean l = Fin q /\ q == a.
Proof.
  intros Hne H. destruct l as [| f l']; [congruence |].
  unfold np_mean, fsum, of_nat.
  destruct (fsum_const 0 H) as [q [Eq Hq]].
  rewrite Eq. cbn [fdiv fbin]. eexists. split; [reflexivity |].
  rewrite Hq. field.
  cbn [length]. rewrite Nat2Z.inj_succ. unfold Z.succ.
  rewrite inject_Z_plus.
  assert (0 <= inject_Z (Z.of_nat (length l')))
    by (apply (inject_nat_le (a := 0)); lia).
  assert (inject_Z 1 == 1) by reflexivity.
  lra.
Qed.

Lemma amplify_value c d w x :
  confidence_score c = Fin x ->
  has_validation w d c = true ->
  exists c1 x1,
    _amplify_consensus_quality c d w = (Ok c1, w) /\
    contributing_agents c1 = contributing_agents c /\
    confidence_score c1 = Fin x1 /\
    x1 == boost x.
Proof.
  intros Hx Hv.
  unfold _amplify_consensus_quality, bind, read_deliberation, get_world, now,
    ret.
  cbn zeta.
  pose proof (validations_confidence (agents w) (deliberations w d) c
                (clock w)) as Hc.
  destruct (specialist_validations (agents w) (deliberations w d) c (clock w))
    as [| v vs] eqn:E.
  - apply validations_nil in E. unfold has_validation in Hv. congruence.
  - destruct (np_mean_const (a := 0.8) (l := confidences (v :: vs)))
      as [m [Em Hm]]; [discriminate | exact Hc |].
    rewrite Em, Hx. cbn [fmul fadd fbin].
    destruct (fmin_Fin 1.0 (x * (1 + m * 0.1))) as [x1 [E1 H1]].
    eexists. exists x1. split; [reflexivity |].
    cbn. split; [reflexivity |]. split; [exact E1 |].
    rewrite H1. unfold boost. rewrite Hm.
    assert (H10 : 1.0 == 1) by reflexivity. rewrite H10. reflexivity.
Qed.

Lemma boost_le x : 0 <= x -> x <= 1 -> x <= boost x.
Proof.
  intros H0 H1. unfold boost. apply Q.min_glb; [exact H1 | nra].
Qed.

Lemma boost_lt x : 0 < x -> x < 1 -> x < boost x.
Proof.
  intros H0 H1. unfold boost. apply Q.min_glb_lt; [exact H1 | nra].
Qed.

Lemma boost_cap x : 0 <= x -> boost x <= 1 /\ 0 <= boost x.
Proof.
  intro H. unfold boost. split; [apply Q.le_min_l |].
  apply Q.min_glb; [lra | nra].
Qed.

(** C8 (counterexample to the claim as written): the example insight has
    confidence 0.5; one amplification gives 0.54 and a second one, on the
    amplified insight and the same evidence, gives 0.5832. *)
Lemma C8_second_amplification_increases :
  exists c1 c2,
    fst (_amplify_consensus_quality example_insight 0%nat scenario_world)
      = Ok c1 /\
    fst (_amplify_consensus_quality c1 0%nat scenario_world) = Ok c2 /\
    feq (confidence_score c1) (Fin 0.54) /\
    feq (confidence_score c2) (Fin 0.5832) /\
    flt (confidence_score c1) (confidence_score c2) = true.
Proof.
  eexists. eexists.
  split; [vm_compute; reflexivity |].
  split; [vm_compute; reflexivity |].
  split; [vm_compute; reflexivity |].
  split; vm_compute; reflexivity.
Qed.

(** C8 (amended): the amplifier keeps no record of an earlier
    amplification.  Applied to an insight with a validating contributor it
    returns the confidence times 1.08, capped at 1.0, and applied again to
    its own result it does the same: the second application never lowers
    the confidence, raises it again when the amplified confidence is at
    least 0.001 and below 1, and leaves it as it is at the cap 1.0. *)
Theorem C8_amplifier_boosts_on_every_call
  (w : World) (d : dref) (c : CollectiveInsight) (x : Q)
  (Hconf : confidence_score c = Fin x)
  (Hunit : 0 <= x /\ x <= 1)
  (Hval : has_validation w d c = true) :
  exists c1 c2 x1 x2,
    _amplify_consensus_quality c d w = (Ok c1, w) /\
    _amplify_consensus_quality c1 d w = (Ok c2, w) /\
    confidence_score c1 = Fin x1 /\ x1 == boost x /\
    confidence_score c2 = Fin x2 /\ x2 == boost x1 /\
    x1 <= x2 /\
    (0.001 <= x1 -> x1 < 1 -> x1 < x2) /\
    (x1 == 1 -> x2 == 1).
Proof.
  destruct (amplify_value c d w Hconf Hval) as [c1 [x1 [E1 [Hc1 [Hx1 Hb1]]]]].
  assert (Hval1 : has_validation w d c1 = true).
  { unfold has_validation in *. rewrite Hc1. exact Hval. }
  destruct (amplify_value c1 d w Hx1 Hval1)
    as [c2 [x2 [E2 [Hc2 [Hx2 Hb2]]]]].
  exists c1, c2, x1, x2.
  destruct Hunit as [H0 H1].
  destruct (boost_cap H0) as [Hcap Hpos]. rewrite <- Hb1 in Hcap, Hpos.
  repeat split; try assumption.
  - rewrite Hb2. apply boost_le; assumption.
  - intros Hlo Hhi. rewrite Hb2. apply boost_lt; [lra | assumption].
  - intro Hone. rewrite Hb2. unfold boost. rewrite Hone.
    apply Q.min_l. lra.
Qed.

Lemma C8_amplifier_boosts_on_every_call_witness :
  confidence_score example_insight = Fin 0.5 /\
  (0 <= 0.5 /\ 0.5 <= 1) /\
  has_validation scenario_world 0%nat example_insight = true /\
  exists c1 c2 x1 x2,
    _amplify_consensus_quality example_insight 0%nat scenario_world
      = (Ok c1, scenario_world) /\
    _amplify_consensus_quality c1 0%nat scenario_world
      = (Ok c2, scenario_world) /\
    confidence_score c1 = Fin x1 /\ x1 == boost 0.5 /\
    confidence_score c2 = Fin x2 /\ x2 == boost x1 /\
    x1 <= x2 /\
    (0.001 <= x1 -> x1 < 1 -> x1 < x2) /\
    (x1 == 1 -> x2 == 1).
Proof.
  assert (Hconf : confidence_score example_insight = Fin 0.5)
    by reflexivity.
  assert (Hunit : 0 <= 0.5 /\ 0.5 <= 1) by (split; lra).
  assert (Hval : has_validation scenario_world 0%nat example_insight = true)
    by reflexivity.
  split; [exact Hconf | split; [exact Hunit | split; [exact Hval |]]].
  exact (@C8_amplifier_boosts_on_every_call scenario_world 0%nat
           example_insight 0.5 Hconf Hunit Hval).
Defined.

(** *** Confidence bounds and contributors of the strategies (C2, C3) *)

Lemma keys_items_in w (m : PosMap) : keys (items_in w m) = keys m.
Proof.
  unfold keys, items_in. rewrite map_map. reflexivity.
Qed.

Lemma items_confidences w (m : PosMap) :
  confidences_in_unit w m -> Forall in_unit (confidences (items_in w m)).
Proof.
  unfold confidences_in_unit, confidences, items_in. intro H.
  rewrite map_map. apply Forall_map. exact H.
Qed.

Lemma items_roles w (m : PosMap) :
  keyed_by_role w m ->
  Forall (fun kv => agent_role (snd kv) = fst kv) (items_in w m).
Proof.
  unfold keyed_by_role, items_in. intro H. apply Forall_map. exact H.
Qed.

Lemma fsum_in_unit (l : list pyfloat) (s : Q) :
  Forall in_unit l ->
  exists q, fold_left fadd l (Fin s) = Fin q /\
            s <= q /\ q <= s + inject_Z (Z.of_nat (length l)).
Proof.
  intro H. revert s. induction H as [| f l Hf Hl IH]; intro s.
  - exists s. split; [reflexivity |].
    change (inject_Z (Z.of_nat (length (@nil pyfloat)))) with 0. lra.
  - destruct f as [x |]; [| contradiction]. destruct Hf as [H0 H1].
    cbn [fold_left fadd fbin].
    destruct (IH (s + x)) as [q [Eq [Hlo Hhi]]].
    exists q. split; [exact Eq |].
    cbn [length]. rewrite Nat2Z.inj_succ. unfold Z.succ.
    rewrite inject_Z_plus. change (inject_Z 1) with 1. lra.
Qed.

Lemma np_mean_in_unit (l : list pyfloat) :
  l <> [] -> Forall in_unit l -> in_unit (np_mean l).
Proof.
  intros Hne H. destruct l as [| f l']; [congruence |].
  unfold np_mean, fsum, of_nat.
  destruct (fsum_in_unit 0 H) as [q [Eq [Hlo Hhi]]].
  rewrite Eq. cbn [fdiv fbin in_unit].
  assert (Hn : 0 < inject_Z (Z.of_nat (length (f :: l')))).
  { cbn [length]. rewrite Nat2Z.inj_succ. unfold Z.succ.
    rewrite inject_Z_plus. change (inject_Z 1) with 1.
    assert (0 <= inject_Z (Z.of_nat (length l')))
      by (apply (inject_nat_le (a := 0)); lia).
    lra. }
  split.
  - apply Qle_shift_div_l; [exact Hn | lra].
  - apply Qle_shift_div_r; [exact Hn | lra].
Qed.

Lemma fmin_one_in_unit (q : Q) : 0 <= q -> in_unit (fmin (Fin 1.0) (Fin q)).
Proof.
  intro H. destruct (fmin_Fin 1.0 q) as [q' [E Hq]]. rewrite E.
  cbn [in_unit]. rewrite Hq. split.
  - apply Q.min_glb; [compute; discriminate | exact H].
  - apply Qle_trans with 1.0; [apply Q.le_min_l | compute; discriminate].
Qed.

Lemma scaled_in_unit (f : pyfloat) (k : Q) :
  0 <= k -> k <= 1 -> in_unit f -> in_unit (fmul f (Fin k)).
Proof.
  intros Hk0 Hk1 Hf. destruct f as [x |]; [| contradiction].
  destruct Hf as [H0 H1]. cbn [fmul fbin in_unit]. split; nra.
Qed.

Lemma dict_get_In V (d : dict V) (k : AgentRole) (v : V) :
  dict_get d k = Some v -> In (k, v) d.
Proof.
  induction d as [| [k' v'] d IH]; cbn; [discriminate |].
  unfold role_eqb. destruct (AgentRole_eq_dec k' k) as [-> | Hne].
  - intro H. injection H as ->. left. reflexivity.
  - intro H. right. apply IH, H.
Qed.

Lemma keys_filter_incl V (p : AgentRole * V -> bool) (d : dict V) :
  incl (keys (filter p d)) (keys d).
Proof.
  unfold keys. intros k Hk. apply in_map_iff in Hk.
  destruct Hk as [kv [Ek Hin]]. apply filter_In in Hin.
  apply in_map_iff. exists kv. split; [exact Ek | apply Hin].
Qed.

Lemma confidences_filter (p : AgentRole * AgentThought -> bool)
  (ts : dict AgentThought) :
  Forall in_unit (confidences ts) -> Forall in_unit (confidences (filter p ts)).
Proof.
  unfold confidences. rewrite !Forall_map, !Forall_forall.
  intros H kv Hkv. apply H. apply filter_In in Hkv. apply Hkv.
Qed.

Lemma confidences_In (ts : dict AgentThought) (k : AgentRole)
  (t : AgentThought) :
  Forall in_unit (confidences ts) -> In (k, t) ts -> in_unit (confidence t).
Proof.
  unfold confidences. rewrite Forall_map, Forall_forall.
  intros H Hin. apply (H (k, t) Hin).
Qed.

Lemma confidences_nonempty (ts : dict AgentThought) :
  ts <> [] -> confidences ts <> [].
Proof. destruct ts; [congruence | discriminate]. Qed.

Lemma fallback_props m task w :
  exists c,
    _fallback_consensus m task w = (Ok c, w) /\
    (confidences_in_unit w m -> in_unit (confidence_score c)) /\
    (keyed_by_role w m -> incl (contributing_agents c) (keys m)).
Proof.
  unfold _fallback_consensus.
  cbv beta iota zeta delta [bind items now ret].
  rewrite <- (keys_items_in w m).
  destruct (filter (fun kv => fgt (confidence (snd kv)) (Fin 0.5))
                   (items_in w m)) as [| h high] eqn:E.
  - destruct (items_in w m) as [| [k t] ts] eqn:Et.
    + eexists. split; [reflexivity |]. split; intros _.
      * cbn. split; lra.
      * cbn. intros x [].
    + eexists. split; [reflexivity |]. split; intro H.
      * cbn [confidence_score]. apply scaled_in_unit; [lra | lra |].
        apply items_confidences in H. rewrite Et in H.
        inversion H; assumption.
      * cbn [contributing_agents]. apply items_roles in H. rewrite Et in H.
        inversion H as [| ? ? Hr _]; subst. cbn in Hr. rewrite Hr.
        intros x [<- | []]. left. reflexivity.
  - eexists. split; [reflexivity |]. split; intro H.
    + cbn [confidence_score]. apply np_mean_in_unit; [discriminate |].
      rewrite <- E. apply confidences_filter, items_confidences, H.
    + cbn [contributing_agents]. rewrite <- E. apply keys_filter_incl.
Qed.

Lemma weighted_voting_props d m w :
  exists c w',
    _weighted_voting_consensus d m w = (Ok c, w') /\
    (confidences_in_unit w m -> in_unit (confidence_score c)) /\
    (keyed_by_role w m -> incl (contributing_agents c) (keys m)).
Proof.
  unfold _weighted_voting_consensus.
  cbv beta iota zeta
    delta [bind update_deliberation read_deliberation write_deliberation
           items now ret].
  match goal with
  | |- context [match ?l with [] => _ | _ :: _ => _ end] =>
      destruct l as [| p ps] eqn:E
  end.
  - match goal with
    | |- context [_fallback_consensus m ?t ?w1] =>
        destruct (fallback_props m t w1) as [c [Ec [Hu Hk]]]
    end.
    exists c. eexists. split; [exact Ec |]. split; assumption.
  - eexists. eexists. split; [reflexivity |]. split; intro H.
    + cbn [confidence_score].
      assert (Hne : items_in w m <> []).
      { intro Hnil.
        change (items_in (with_deliberations w
                  (fun d' => if Nat.eqb d' d
                             then set_phases (deliberations w d)
                                    (phases (deliberations w d) ++
                                     [EVIDENCE_PRESENTATION])%list
                             else deliberations w d')
                  (next_deliberation w)) m)
          with (items_in w m) in E.
        rewrite Hnil in E. cbn [flat_map] in E. discriminate E. }
      pose proof (np_mean_in_unit (confidences_nonempty Hne)
                    (items_confidences H)) as Hm.
      change (items_in (with_deliberations w
                (fun d' => if Nat.eqb d' d
                           then set_phases (deliberations w d)
                                  (phases (deliberations w d) ++
                                   [EVIDENCE_PRESENTATION])%list
                           else deliberations w d')
                (next_deliberation w)) m)
        with (items_in w m).
      destruct (np_mean (confidences (items_in w m))) as [x |];
        [| contradiction].
      destruct Hm as [H0 H1]. cbn [fmul fbin].
      apply fmin_one_in_unit. nra.
    + cbn [contributing_agents]. apply incl_refl.
Qed.

Lemma specialist_props d m w :
  exists c w',
    _specialist_authority_consensus d m w = (Ok c, w') /\
    (confidences_in_unit w m -> in_unit (confidence_score c)) /\
    (keyed_by_role w m -> incl (contributing_agents c) (keys m)).
Proof.
  unfold _specialist_authority_consensus.
  cbv beta iota zeta delta [bind read_deliberation items now ret].
  destruct (dict_get (items_in w m)
              (_determine_lead_specialist (task (deliberations w d))
                 (items_in w m))) as [t |] eqn:E.
  - eexists. eexists. split; [reflexivity |]. split; intro H.
    + cbn [confidence_score]. apply scaled_in_unit; [lra | lra |].
      apply dict_get_In in E.
      exact (@confidences_In _ _ _ (items_confidences H) E).
    + cbn [contributing_agents]. rewrite <- (keys_items_in w m).
      intros k [<- | Hk].
      * apply dict_get_In in E. unfold keys. apply in_map_iff.
        eexists. split; [| exact E]. reflexivity.
      * exact (@keys_filter_incl _ _ _ k Hk).
  - apply weighted_voting_props.
Qed.

Lemma evidence_based_cases d m w :
  (exists e w', _evidence_based_consensus d m w = (Raise e, w')) \/
  _evidence_based_consensus d m w = _weighted_voting_consensus d m w.
Proof.
  unfold _evidence_based_consensus.
  cbv beta iota zeta delta [bind read_deliberation items].
  match goal with
  | |- context [match ?l with [] => _ | _ :: _ => _ end] => destruct l
  end.
  - right. reflexivity.
  - left. eexists. eexists. reflexivity.
Qed.

Lemma collaborative_raises d m :
  always_raises (_collaborative_synthesis_consensus d m).
Proof.
  unfold _collaborative_synthesis_consensus.
  apply raises_bind_l, raises_raise.
Qed.

Lemma iterative_raises d m :
  always_raises (_iterative_refinement_consensus d m).
Proof.
  unfold _iterative_refinement_consensus.
  apply raises_bind_l. cbn [seq refinement_rounds].
  apply raises_bind_l, raises_raise.
Qed.

Lemma conflict_resolution_raises d m :
  always_raises (_conflict_resolution_consensus d m).
Proof.
  unfold _conflict_resolution_consensus.
  apply raises_bind_r; intro ts. apply raises_bind_r; intros _.
  destruct (detect_conflicts ts); [apply collaborative_raises |].
  apply raises_bind_r; intros [| kr resolved];
    [apply collaborative_raises | apply raises_raise].
Qed.

Lemma emergent_raises d m :
  always_raises (_emergent_agreement_consensus d m).
Proof.
  unfold _emergent_agreement_consensus.
  apply raises_bind_l, raises_raise.
Qed.

Lemma hybrid_raises d m : always_raises (_hybrid_adaptive_consensus d m).
Proof.
  unfold _hybrid_adaptive_consensus.
  apply raises_bind_r; intro d0. apply raises_bind_r; intro analysis.
  apply raises_bind_r; intro aft. apply raises_bind_l, raises_raise.
Qed.

(** What any strategy returns, when it returns. *)
Lemma strategy_props s d m w c :
  fst (consensus_strategies s d m w) = Ok c ->
  (confidences_in_unit w m -> in_unit (confidence_score c)) /\
  (keyed_by_role w m -> incl (contributing_agents c) (keys m)).
Proof.
  assert (Hraise : forall (r : M CollectiveInsight),
             always_raises r -> fst (r w) = Ok c -> False).
  { intros r Hr Hok. destruct (Hr w) as [e He]. congruence. }
  destruct s; cbn [consensus_strategies]; intro Hok.
  - destruct (weighted_voting_props d m w) as [c' [w' [E [Hu Hk]]]].
    rewrite E in Hok. cbn in Hok. injection Hok as <-. split; assumption.
  - destruct (specialist_props d m w) as [c' [w' [E [Hu Hk]]]].
    rewrite E in Hok. cbn in Hok. injection Hok as <-. split; assumption.
  - destruct (evidence_based_cases d m w) as [[e [w' E]] | E];
      rewrite E in Hok; [discriminate Hok |].
    destruct (weighted_voting_props d m w) as [c' [w' [E' [Hu Hk]]]].
    rewrite E' in Hok. cbn in Hok. injection Hok as <-. split; assumption.
  - exfalso. exact (Hraise _ (collaborative_raises d m) Hok).
  - exfalso. exact (Hraise _ (iterative_raises d m) Hok).
  - exfalso. exact (Hraise _ (conflict_resolution_raises d m) Hok).
  - exfalso. exact (Hraise _ (emergent_raises d m) Hok).
  - exfalso. exact (Hraise _ (hybrid_raises d m) Hok).
Qed.

Lemma amplify_props c d w :
  in_unit (confidence_score c) ->
  exists c', _amplify_consensus_quality c d w = (Ok c', w) /\
             contributing_agents c' = contributing_agents c /\
             in_unit (confidence_score c').
Proof.
  intro Hu.
  destruct (confidence_score c) as [x |] eqn:Hx; [| contradiction].
  destruct (has_validation w d c) eqn:Hv.
  - destruct (amplify_value c d w Hx Hv) as [c1 [x1 [E1 [Hc1 [Hx1 Hb1]]]]].
    exists c1. split; [exact E1 |]. split; [exact Hc1 |].
    rewrite Hx1. cbn [in_unit]. destruct Hu as [H0 H1].
    destruct (boost_cap H0) as [Hcap Hpos]. rewrite Hb1. split; assumption.
  - exists c. unfold _amplify_consensus_quality.
    cbv beta iota zeta delta [bind read_deliberation get_world now ret].
    destruct (specialist_validations (agents w) (deliberations w d) c
                (clock w)) as [| v vs] eqn:E.
    + split; [reflexivity |]. split; [reflexivity |].
      rewrite Hx. exact Hu.
    + exfalso.
      assert (Hsome : existsb
                (fun role => dict_mem (agents w) role &&
                             dict_mem (agent_positions (deliberations w d)) role)
                (contributing_agents c) = true).
      { clear Hv Hx Hu. revert v vs E. unfold specialist_validations.
        induction (contributing_agents c) as [| role roles IH];
          cbn [flat_map existsb]; intros v vs E; [discriminate E |].
        assert (Hm : dict_mem (agents w) role
                     = match dict_get (agents w) role with
                       | Some _ => true | None => false end)
          by reflexivity.
        rewrite Hm. clear Hm.
        destruct (dict_get (agents w) role) as [agent |];
          [destruct (dict_mem (agent_positions (deliberations w d)) role) |];
          cbn [app andb orb] in *;
          [reflexivity | exact (IH _ _ E) | exact (IH _ _ E)]. }
      unfold has_validation in Hv. congruence.
Qed.

(** C2: when every confidence of the position map lies in [0,1], so does
    the confidence score of the insight returned by any of the eight
    strategies, by the fallback consensus, and by quality amplification
    of an insight with confidence in [0,1].  Weighted voting, specialist
    authority and the fallback always return an insight; the strategies
    that stop at a method the class does not define return none. *)
Theorem C2_confidence_score_in_unit (w : World) (d : dref) (m : PosMap)
  (Hunit : confidences_in_unit w m) :
  (forall s c, fst (consensus_strategies s d m w) = Ok c ->
               in_unit (confidence_score c)) /\
  (exists c, fst (_weighted_voting_consensus d m w) = Ok c /\
             in_unit (confidence_score c)) /\
  (exists c, fst (_specialist_authority_consensus d m w) = Ok c /\
             in_unit (confidence_score c)) /\
  (forall task, exists c, fst (_fallback_consensus m task w) = Ok c /\
                          in_unit (confidence_score c)) /\
  (forall c d' w', in_unit (confidence_score c) ->
     exists c', fst (_amplify_consensus_quality c d' w') = Ok c' /\
                in_unit (confidence_score c')).
Proof.
  split; [| split; [| split; [| split]]].
  - intros s c Hok. exact (proj1 (strategy_props s d m w Hok) Hunit).
  - destruct (weighted_voting_props d m w) as [c [w' [E [Hu _]]]].
    exists c. rewrite E. split; [reflexivity | exact (Hu Hunit)].
  - destruct (specialist_props d m w) as [c [w' [E [Hu _]]]].
    exists c. rewrite E. split; [reflexivity | exact (Hu Hunit)].
  - intro task. destruct (fallback_props m task w) as [c [E [Hu _]]].
    exists c. rewrite E. split; [reflexivity | exact (Hu Hunit)].
  - intros c d' w' Hc. destruct (amplify_props c d' w' Hc) as [c' [E [_ Hu]]].
    exists c'. rewrite E. split; [reflexivity | exact Hu].
Qed.

Lemma C2_confidence_score_in_unit_witness :
  confidences_in_unit scenario_world scenario_map /\
  (forall s c,
      fst (consensus_strategies s 0%nat scenario_map scenario_world) = Ok c ->
      in_unit (confidence_score c)) /\
  (exists c,
      fst (_weighted_voting_consensus 0%nat scenario_map scenario_world)
        = Ok c /\
      in_unit (confidence_score c)).
Proof.
  assert (Hunit : confidences_in_unit scenario_world scenario_map)
    by (unfold confidences_in_unit; repeat constructor; cbn; lra).
  split; [exact Hunit |].
  split.
  - exact (proj1 (@C2_confidence_score_in_unit scenario_world 0%nat
                    scenario_map Hunit)).
  - exact (proj1 (proj2 (@C2_confidence_score_in_unit scenario_world 0%nat
                           scenario_map Hunit))).
Defined.

(** C3 (counterexample to the claim as written): a position held under
    the key of the security specialist whose own role is the queen
    coordinator, with confidence 0.3.  The fallback consensus returns the
    queen coordinator as the contributor, which is not a key of the map. *)
Lemma C3_fallback_contributor_outside_keys :
  exists c,
    fst (_fallback_consensus misfiled_map example_task misfiled_world) = Ok c /\
    contributing_agents c = [QUEEN_COORDINATOR] /\
    keys misfiled_map = [SECURITY_SPECIALIST] /\
    ~ incl (contributing_agents c) (keys misfiled_map).
Proof.
  eexists. split; [vm_compute; reflexivity |].
  split; [reflexivity |]. split; [reflexivity |].
  intro H. specialize (H QUEEN_COORDINATOR (or_introl eq_refl)).
  destruct H as [H | []]. discriminate H.
Qed.

(** C3 (amended): for every position map in which each position is held
    under its own role, the contributing agents of the insight returned
    by any of the eight strategies and by the fallback consensus are keys
    of the map. *)
Theorem C3_contributors_among_keys (w : World) (d : dref) (m : PosMap)
  (Hkeyed : keyed_by_role w m) :
  (forall s c, fst (consensus_strategies s d m w) = Ok c ->
               incl (contributing_agents c) (keys m)) /\
  (forall task, exists c, fst (_fallback_consensus m task w) = Ok c /\
                          incl (contributing_agents c) (keys m)).
Proof.
  split.
  - intros s c Hok. exact (proj2 (strategy_props s d m w Hok) Hkeyed).
  - intro task. destruct (fallback_props m task w) as [c [E [_ Hk]]].
    exists c. rewrite E. split; [reflexivity | exact (Hk Hkeyed)].
Qed.

Lemma C3_contributors_among_keys_witness :
  keyed_by_role scenario_world scenario_map /\
  (forall s c,
      fst (consensus_strategies s 0%nat scenario_map scenario_world) = Ok c ->
      incl (contributing_agents c) (keys scenario_map)) /\
  (forall task,
      exists c,
        fst (_fallback_consensus scenario_map task scenario_world) = Ok c /\
        incl (contributing_agents c) (keys scenario_map)).
Proof.
  assert (Hkeyed : keyed_by_role scenario_world scenario_map)
    by (unfold keyed_by_role; repeat constructor).
  split; [exact Hkeyed |].
  exact (@C3_contributors_among_keys scenario_world 0%nat scenario_map
           Hkeyed).
Defined.

(** *** [reach_consensus] and its guarded block (C1, C7, C9) *)

Lemma fallback_world m task w : snd (_fallback_consensus m task w) = w.
Proof.
  destruct (fallback_props m task w) as [c [E _]]. rewrite E. reflexivity.
Qed.

(** The guarded block contains every failure of the strategy, of the
    validation and of the amplification: it returns what the fallback
    consensus returns in the store left by the failure. *)
Lemma guarded_block_returns_fallback d s m tk w :
  exists c w1,
    fst (guarded_block d s m tk w) = Ok c /\
    fst (_fallback_consensus m tk w1) = Ok c.
Proof.
  unfold guarded_block, try_finally, try_except.
  destruct (pipeline_always_raises d s m w) as [e He].
  destruct (consensus_pipeline d s m w) as [[c | e'] w1];
    cbn [fst] in He; [discriminate He |].
  unfold consensus_failed.
  cbv beta iota zeta
    delta [bind now update_deliberation read_deliberation write_deliberation].
  match goal with
  | |- context [_fallback_consensus m tk ?w2] =>
      destruct (fallback_props m tk w2) as [c [E _]];
      exists c, w2; rewrite E
  end.
  split; reflexivity.
Qed.

(** C1 (the code departs from the claim): the claim asks that no exception
    leave [reach_consensus].  The guarded block does contain every failure
    of the strategy, the validation and the amplification, as the claim
    says.  But the landscape analysis and the construction of the
    deliberation record run before it: the first raises [TypeError] unless
    rule 1 matches, the second always does, for want of the
    [voting_record] argument.  So the call raises on every input and
    returns no insight. *)
Theorem C1_reach_consensus_always_raises :
  (forall task m s v w,
      exists msg, fst (reach_consensus task m s v w) = Raise (TypeError msg)) /\
  (forall d s m task w,
      exists c, fst (guarded_block d s m task w) = Ok c) /\
  fst (reach_consensus example_task scenario_map None None unrelated_world)
  = Raise (TypeError dict_float_msg) /\
  fst (reach_consensus example_task scenario_map (Some WEIGHTED_VOTING) None
         scenario_world)
  = Raise (TypeError dict_float_msg).
Proof.
  split; [| split; [| split]].
  - intros. rewrite reach_consensus_eval. eexists. reflexivity.
  - intros d s m tk w.
    destruct (guarded_block_returns_fallback d s m tk w) as [c [w1 [E _]]].
    exists c. exact E.
  - vm_compute. reflexivity.
  - vm_compute. reflexivity.
Qed.

(** C7 (the code departs from the claim): the claim asks that every call
    append its deliberation record to the history with the end timestamp
    set.  No call does: [reach_consensus] raises before the record exists,
    and the guarded block itself, on any record, never completes the branch
    that appends; its failure handler sets the end timestamp and leaves
    the history as it was. *)
Theorem C7_history_never_appended :
  (forall task m s v w,
      consensus_history (snd (reach_consensus task m s v w))
      = consensus_history w) /\
  (forall d s m task w,
      consensus_history (snd (guarded_block d s m task w))
      = consensus_history w) /\
  (forall d m task e w,
      let w' := snd (consensus_failed d m task e w) in
      deliberation_end (deliberations w' d) = Some (clock w) /\
      consensus_history w' = consensus_history w) /\
  consensus_history
    (snd (reach_consensus example_task [] None None scenario_world)) = [].
Proof.
  split; [| split; [| split]].
  - intros. rewrite reach_consensus_eval. reflexivity.
  - intros. apply guarded_block_keeps_history.
  - intros d m task e w. cbv zeta. split.
    + unfold consensus_failed, bind at 1 2. unfold now at 1.
      unfold update_deliberation, bind, read_deliberation, write_deliberation.
      rewrite fallback_world. cbn. rewrite Nat.eqb_refl. reflexivity.
    + apply keeps_consensus_failed.
  - vm_compute. reflexivity.
Qed.

(** C9 (the code departs from the claim): the fallback consensus behaves
    as the claim says, and so does the guarded block on an empty position
    map (the first three parts).  But [reach_consensus] on an empty
    position map reaches neither: rule 1 of the selector matches, and the
    construction of the deliberation record raises [TypeError]. *)
Theorem C9_empty_map_raises_before_fallback :
  (forall task w,
      fst (_fallback_consensus [] task w) =
      Ok (mkCollectiveInsight ("emergency_" ++ str_of_Z (clock w)) []
            "Unable to reach consensus - system emergency fallback"
            SPECIALIST_OVERRIDE (Fin 0.1) [] "emergency_fallback")) /\
  (forall m task w,
      exists c, fst (_fallback_consensus m task w) = Ok c /\
      let ts := items_in w m in
      let high := filter (fun kv => fgt (confidence (snd kv)) (Fin 0.5)) ts in
      contributing_agents c =
        match high, ts with
        | _ :: _, _ => keys high
        | [], (_, any_thought) :: _ => [agent_role any_thought]
        | [], [] => []
        end /\
      confidence_score c =
        match high, ts with
        | _ :: _, _ => np_mean (confidences high)
        | [], (_, any_thought) :: _ => fmul (confidence any_thought) (Fin 0.5)
        | [], [] => Fin 0.1
        end) /\
  (forall d s task w,
      exists c, fst (guarded_block d s [] task w) = Ok c /\
                contributing_agents c = [] /\
                confidence_score c = Fin 0.1) /\
  (forall task s v w,
      fst (reach_consensus task [] s v w)
      = Raise (TypeError voting_record_msg)) /\
  fst (reach_consensus example_task [] None None scenario_world)
  = Raise (TypeError voting_record_msg).
Proof.
  split; [| split; [| split; [| split]]].
  - intros. reflexivity.
  - intros. unfold _fallback_consensus, bind, items, now, ret.
    cbn zeta.
    destruct (filter _ (items_in w m)) as [| h high].
    + destruct (items_in w m) as [| [k t] ts]; eexists; split;
        try reflexivity; split; reflexivity.
    + eexists; split; [reflexivity | split; reflexivity].
  - intros d s tk w.
    destruct (guarded_block_returns_fallback d s [] tk w) as [c [w1 [E Ef]]].
    exists c. split; [exact E |].
    cbn in Ef. injection Ef as <-. split; reflexivity.
  - intros. rewrite reach_consensus_eval. reflexivity.
  - vm_compute. reflexivity.
Qed.

(* ================================================================== *)
(** ** Further properties of the detector, the evaluator and the
       similarity measure *)
(* ================================================================== *)

Lemma existsb_pointwise A (f g : A -> bool) (l : list A) :
  (forall a, f a = g a) -> existsb f l = existsb g l.
Proof.
  intro H. induction l as [| a l IH]; cbn; [reflexivity |].
  rewrite H, IH. reflexivity.
Qed.

Lemma opposite_positions_sym c1 c2 :
  _are_opposite_positions c1 c2 = _are_opposite_positions c2 c1.
Proof.
  unfold _are_opposite_positions. apply existsb_pointwise. intro p.
  destruct (contains (fst p) (lower c1)), (contains (snd p) (lower c2)),
    (contains (snd p) (lower c1)), (contains (fst p) (lower c2));
    reflexivity.
Qed.

Lemma first_matches_differ_sym vocabulary t1 t2 :
  first_matches_differ vocabulary t1 t2 = first_matches_differ vocabulary t2 t1.
Proof.
  unfold first_matches_differ.
  destruct (matched vocabulary t1) as [| w1 l1],
    (matched vocabulary t2) as [| w2 l2]; try reflexivity.
  rewrite String.eqb_sym. reflexivity.
Qed.

Lemma first_matches_differ_same vocabulary t1 t2 :
  lower t1 = lower t2 -> first_matches_differ vocabulary t1 t2 = false.
Proof.
  intro H. unfold first_matches_differ, matched. rewrite H.
  destruct (filter _ vocabulary) as [| w l]; [reflexivity |].
  rewrite String.eqb_refl. reflexivity.
Qed.

(** X1: the conflicts reported between two positions do not depend on
    the order in which the two positions are given. *)
Theorem X1_conflict_analysis_symmetric (thought1 thought2 : AgentThought) :
  _analyze_conflict_between_agents thought1 thought2
  = _analyze_conflict_between_agents thought2 thought1.
Proof.
  unfold _analyze_conflict_between_agents, _have_different_priorities,
    _have_different_approaches, _have_strategic_divergence.
  rewrite (opposite_positions_sym (content thought1) (content thought2)).
  rewrite (first_matches_differ_sym priority_indicators
             (content thought1) (content thought2)).
  rewrite (first_matches_differ_sym approach_keywords
             (reasoning thought1) (reasoning thought2)).
  rewrite (first_matches_differ_sym strategic_keywords
             (content thought1) (content thought2)).
  reflexivity.
Qed.

Lemma analyze_conflict_types t1 t2 :
  Forall (fun cd => detected_type (fst cd) = true)
         (_analyze_conflict_between_agents t1 t2) /\
  (length (_analyze_conflict_between_agents t1 t2) <= 4)%nat.
Proof.
  unfold _analyze_conflict_between_agents.
  destruct (_are_opposite_positions _ _), (_have_different_priorities _ _),
    (_have_different_approaches _ _), (_have_strategic_divergence _ _);
    cbn; split; try lia; repeat constructor.
Qed.

Lemma detect_conflicts_members (ts : dict AgentThought) ty r1 r2 d :
  In (ty, r1, r2, d) (detect_conflicts ts) ->
  detected_type ty = true /\
  exists before between rest,
    keys ts = (before ++ r1 :: between ++ r2 :: rest)%list.
Proof.
  induction ts as [| [role1 thought1] ts IH]; cbn [detect_conflicts];
    [intros [] |].
  intro Hin. apply in_app_or in Hin. destruct Hin as [Hin | Hin].
  - apply in_flat_map in Hin. destruct Hin as [[role2 thought2] [Hkv Hin]].
    apply in_map_iff in Hin. destruct Hin as [[ty' d'] [Heq Hcd]].
    cbn in Heq. injection Heq as -> -> -> ->.
    split.
    + destruct (analyze_conflict_types thought1 thought2) as [Hty _].
      rewrite Forall_forall in Hty. exact (Hty _ Hcd).
    + apply in_split in Hkv. destruct Hkv as [l1 [l2 Hts]].
      exists [], (keys l1), (keys l2). subst ts. unfold keys.
      cbn. rewrite map_app. reflexivity.
  - destruct (IH Hin) as [Hty [before [between [rest Hk]]]].
    split; [exact Hty |].
    exists (role1 :: before), between, rest. unfold keys in *. cbn.
    rewrite Hk. reflexivity.
Qed.

Lemma detect_conflicts_count (ts : dict AgentThought) :
  (length (detect_conflicts ts) <= 2 * length ts * (length ts - 1))%nat.
Proof.
  induction ts as [| [role1 thought1] ts IH]; cbn [detect_conflicts length];
    [lia |].
  rewrite length_app.
  assert (H : (length (flat_map
                 (fun kv2 : AgentRole * AgentThought =>
                    map (fun cd => (fst cd, role1, fst kv2, snd cd))
                        (_analyze_conflict_between_agents thought1 (snd kv2)))
                 ts) <= 4 * length ts)%nat).
  { clear IH. induction ts as [| kv ts IH]; cbn [flat_map length]; [lia |].
    rewrite length_app, length_map.
    pose proof (proj2 (analyze_conflict_types thought1 (snd kv))). lia. }
  eapply Nat.le_trans;
    [apply Nat.add_le_mono; [exact H | exact IH] |].
  destruct (length ts) as [| n]; [lia |].
  replace (S n - 1)%nat with n by lia.
  replace (S (S n) - 1)%nat with (S n) by lia. nia.
Qed.

(** X2: with the keys of the position map distinct, every detected
    conflict has one of the four detected types and names two different
    keys of the map, the first of which comes earlier in the map; at most
    four conflicts are reported per pair of positions. *)
Theorem X2_detected_conflicts_name_pairs_of_keys (ts : dict AgentThought)
  (Hkeys : NoDup (keys ts)) :
  (forall ty r1 r2 d,
      In (ty, r1, r2, d) (detect_conflicts ts) ->
      detected_type ty = true /\ r1 <> r2 /\
      exists before between rest,
        keys ts = (before ++ r1 :: between ++ r2 :: rest)%list) /\
  (length (detect_conflicts ts) <= 2 * length ts * (length ts - 1))%nat.
Proof.
  split; [| apply detect_conflicts_count].
  intros ty r1 r2 d Hin.
  destruct (detect_conflicts_members _ _ _ _ _ Hin)
    as [Hty [before [between [rest Hk]]]].
  split; [exact Hty |]. split; [| eauto].
  intro Heq. subst r2. rewrite Hk in Hkeys.
  apply NoDup_remove_2 in Hkeys. apply Hkeys.
  apply in_or_app. right. apply in_or_app. right. left. reflexivity.
Qed.

Lemma X2_detected_conflicts_name_pairs_of_keys_witness :
  NoDup (keys (items_in scenario_world scenario_map)) /\
  (forall ty r1 r2 d,
      In (ty, r1, r2, d)
         (detect_conflicts (items_in scenario_world scenario_map)) ->
      detected_type ty = true /\ r1 <> r2 /\
      exists before between rest,
        keys (items_in scenario_world scenario_map)
        = (before ++ r1 :: between ++ r2 :: rest)%list).
Proof.
  assert (Hkeys : NoDup (keys (items_in scenario_world scenario_map))).
  { cbn. constructor.
    - intros [H | []]. discriminate H.
    - constructor; [intros [] | constructor]. }
  split; [exact Hkeys |].
  exact (proj1 (@X2_detected_conflicts_name_pairs_of_keys
                  (items_in scenario_world scenario_map) Hkeys)).
Defined.

Lemma item_score_le_one (len hits : nat) : item_score_of len hits <= 1.
Proof. unfold item_score_of. apply Q.le_min_l. Qed.

Lemma single_evidence_in_unit (e : string) :
  in_unit (_evaluate_single_evidence e).
Proof.
  destruct (single_evidence_value e) as [q [Eq Hq]]. rewrite Eq.
  cbn [in_unit]. rewrite Hq.
  destruct (String.eqb e ""); [split; lra |].
  split; [apply item_score_nonneg | apply item_score_le_one].
Qed.

Lemma evidence_list_score_in_unit (l : list string) :
  in_unit (evidence_list_score l).
Proof.
  destruct l as [| e l]; [cbn; split; lra |].
  unfold evidence_list_score. apply np_mean_in_unit; [discriminate |].
  apply Forall_map. apply Forall_forall. intros x _.
  apply single_evidence_in_unit.
Qed.

(** X3: the evidence evaluator scores exactly the participants of the
    registry, in the same order, and every score lies in [0,1], whatever
    the evidence texts are. *)
Theorem X3_evidence_scores_in_unit (registry : dict (list string)) :
  keys (evaluate_evidence_quality registry) = keys registry /\
  Forall (fun kv => in_unit (snd kv)) (evaluate_evidence_quality registry).
Proof.
  unfold evaluate_evidence_quality, keys. split.
  - rewrite map_map. reflexivity.
  - apply Forall_map. apply Forall_forall. intros kv _.
    apply evidence_list_score_in_unit.
Qed.

(** *** Word sets and the similarity of two texts *)

Lemma mem_In (x : string) (l : list string) : mem x l = true <-> In x l.
Proof.
  unfold mem. rewrite existsb_exists. split.
  - intros [y [Hy E]]. apply String.eqb_eq in E. subst y. exact Hy.
  - intro H. exists x. split; [exact H | apply String.eqb_refl].
Qed.

Lemma intersection_In (a b : list string) (x : string) :
  In x (Py.intersection a b) <-> In x a /\ In x b.
Proof.
  unfold Py.intersection. rewrite filter_In, mem_In. reflexivity.
Qed.

Lemma union_In (a b : list string) (x : string) :
  In x (Py.union a b) <-> In x a \/ In x b.
Proof.
  unfold Py.union, set_of. rewrite nodup_In. apply in_app_iff.
Qed.

Lemma same_elements_length (a b : list string) :
  NoDup a -> NoDup b -> (forall x, In x a <-> In x b) -> length a = length b.
Proof.
  intros Ha Hb H. apply Nat.le_antisymm; apply NoDup_incl_length;
    try assumption; intros x Hx; apply H; exact Hx.
Qed.

Lemma intersection_length_sym (a b : list string) :
  NoDup a -> NoDup b ->
  length (Py.intersection a b) = length (Py.intersection b a).
Proof.
  intros Ha Hb. apply same_elements_length.
  - unfold Py.intersection. apply NoDup_filter, Ha.
  - unfold Py.intersection. apply NoDup_filter, Hb.
  - intro x. rewrite !intersection_In. tauto.
Qed.

Lemma union_length_sym (a b : list string) :
  length (Py.union a b) = length (Py.union b a).
Proof.
  apply same_elements_length; try apply NoDup_nodup.
  intro x. rewrite !union_In. tauto.
Qed.

Lemma intersection_le_union (a b : list string) :
  NoDup a -> (length (Py.intersection a b) <= length (Py.union a b))%nat.
Proof.
  intro Ha. apply NoDup_incl_length.
  - unfold Py.intersection. apply NoDup_filter, Ha.
  - intros x Hx. apply intersection_In in Hx. apply union_In. tauto.
Qed.

Lemma ratio_in_unit (i u : nat) :
  (i <= u)%nat -> (0 < u)%nat -> in_unit (fdiv (of_nat i) (of_nat u)).
Proof.
  intros Hiu Hu. unfold of_nat. cbn [fdiv fbin in_unit].
  assert (H0 : 0 < inject_Z (Z.of_nat u)).
  { rewrite <- (Zlt_Qlt 0). lia. }
  pose proof (inject_nat_le Hiu) as Hle.
  assert (Hi : 0 <= inject_Z (Z.of_nat i))
    by (apply (inject_nat_le (a := 0)); lia).
  split.
  - apply Qle_shift_div_l; [exact H0 | lra].
  - apply Qle_shift_div_r; [exact H0 | lra].
Qed.

Lemma text_similarity_in_unit (text1 text2 : string) :
  in_unit (_text_similarity text1 text2).
Proof.
  unfold _text_similarity. cbv zeta.
  destruct (0 <? _)%nat eqn:E; [| cbn; split; lra].
  apply Nat.ltb_lt in E.
  apply ratio_in_unit; [| exact E].
  apply intersection_le_union. apply NoDup_nodup.
Qed.

(** X4: the similarity of two texts lies in [0,1] and does not depend on
    the order of the two texts. *)
Theorem X4_text_similarity_symmetric_in_unit (text1 text2 : string) :
  _text_similarity text1 text2 = _text_similarity text2 text1 /\
  in_unit (_text_similarity text1 text2).
Proof.
  split; [| apply text_similarity_in_unit].
  unfold _text_similarity. cbv zeta. unfold set_of.
  rewrite (intersection_length_sym (NoDup_nodup string_dec
                                      (split (lower text1)))
                                   (NoDup_nodup string_dec
                                      (split (lower text2)))).
  rewrite (union_length_sym (nodup string_dec (split (lower text1)))
                            (nodup string_dec (split (lower text2)))).
  reflexivity.
Qed.

(** X5: a text compared with itself, or with the same text in another
    letter case, has similarity 1 when it holds at least one word and 0.0
    when it holds none. *)
Theorem X5_text_similarity_of_equal_texts (text1 text2 : string)
  (Hsame : lower text1 = lower text2) :
  feq (_text_similarity text1 text2)
      (match split (lower text1) with
       | [] => Fin 0
       | _ :: _ => Fin 1
       end).
Proof.
  unfold _text_similarity. cbv zeta. rewrite <- Hsame.
  set (ws := set_of (split (lower text1))).
  assert (Hnd : NoDup ws) by apply NoDup_nodup.
  assert (Hi : length (Py.intersection ws ws) = length ws).
  { apply same_elements_length; try assumption.
    - unfold Py.intersection. apply NoDup_filter, Hnd.
    - intro x. rewrite intersection_In. tauto. }
  assert (Hu : length (Py.union ws ws) = length ws).
  { apply same_elements_length; try assumption.
    - apply NoDup_nodup.
    - intro x. rewrite union_In. tauto. }
  rewrite Hi, Hu.
  destruct (split (lower text1)) as [| word rest] eqn:Es.
  - subst ws. cbn. reflexivity.
  - assert (Hpos : (0 < length ws)%nat).
    { subst ws. unfold set_of.
      destruct (nodup string_dec (word :: rest)) as [| x l] eqn:En;
        [| cbn; lia].
      assert (Hin : In word (nodup string_dec (word :: rest)))
        by (apply nodup_In; left; reflexivity).
      rewrite En in Hin. destruct Hin. }
    apply Nat.ltb_lt in Hpos. rewrite Hpos.
    unfold of_nat. cbn [fdiv fbin feq].
    apply Nat.ltb_lt in Hpos.
    field. intro H0.
    assert (H1 : 0 < inject_Z (Z.of_nat (length ws)))
      by (rewrite <- (Zlt_Qlt 0); lia).
    lra.
Qed.

Lemma X5_text_similarity_of_equal_texts_witness :
  lower "Add a Cache" = lower "add a cache" /\
  feq (_text_similarity "Add a Cache" "add a cache")
      (match split (lower "Add a Cache") with
       | [] => Fin 0
       | _ :: _ => Fin 1
       end).
Proof.
  assert (Hsame : lower "Add a Cache" = lower "add a cache") by reflexivity.
  split; [exact Hsame |].
  exact (@X5_text_similarity_of_equal_texts "Add a Cache" "add a cache"
           Hsame).
Defined.

Lemma pair_similarities_in_unit (positions : list string) :
  Forall in_unit (pair_similarities positions).
Proof.
  induction positions as [| p rest IH]; cbn [pair_similarities];
    [constructor |].
  apply Forall_app. split; [| exact IH].
  apply Forall_map. apply Forall_forall. intros x _.
  apply text_similarity_in_unit.
Qed.

(** X6: the agreement score of any list of position texts lies in [0,1];
    it is 1.0 when there are fewer than two positions. *)
Theorem X6_agreement_score_in_unit (positions : list string)
  (position : string) :
  in_unit (_calculate_agreement_score positions) /\
  _calculate_agreement_score [] = Fin 1.0 /\
  _calculate_agreement_score [position] = Fin 1.0.
Proof.
  split; [| split; reflexivity].
  unfold _calculate_agreement_score.
  destruct (length positions <? 2)%nat; [cbn; split; lra |].
  destruct (0 <? length (pair_similarities positions))%nat eqn:E;
    [| cbn; split; lra].
  apply Nat.ltb_lt in E.
  pose proof (pair_similarities_in_unit positions) as H.
  destruct (pair_similarities positions) as [| s sims] eqn:Es;
    [cbn in E; lia |].
  exact (np_mean_in_unit (l := s :: sims) ltac:(discriminate) H).
Qed.

(* ================================================================== *)
(** ** Further properties of the conflict resolver *)
(* ================================================================== *)

(** *** Rules for computations that return *)

Lemma hoare_ret A (pre : World -> Prop) (a : A) (post : A -> World -> Prop) :
  (forall w, pre w -> post a w) -> hoare pre (ret a) post.
Proof. intros H w Hw. exists a, w. split; [reflexivity | apply H, Hw]. Qed.

Lemma hoare_bind A B (pre : World -> Prop) (m : M A) (k : A -> M B)
  (mid : A -> World -> Prop) (post : B -> World -> Prop) :
  hoare pre m mid -> (forall a, hoare (mid a) (k a) post) ->
  hoare pre (bind m k) post.
Proof.
  intros Hm Hk w Hw. destruct (Hm w Hw) as [a [w1 [E1 H1]]].
  destruct (Hk a w1 H1) as [b [w2 [E2 H2]]].
  exists b, w2. unfold bind. rewrite E1. split; assumption.
Qed.

Lemma hoare_conseq A (pre pre' : World -> Prop) (m : M A)
  (post post' : A -> World -> Prop) :
  hoare pre' m post' -> (forall w, pre w -> pre' w) ->
  (forall a w, post' a w -> post a w) -> hoare pre m post.
Proof.
  intros H Hpre Hpost w Hw. destruct (H w (Hpre w Hw)) as [a [w' [E Hp]]].
  exists a, w'. split; [exact E | apply Hpost, Hp].
Qed.

(** A bind whose first part establishes a fact [Q] about its result. *)
Lemma hoare_bind_fact A B (pre : World -> Prop) (m : M A) (k : A -> M B)
  (Q : A -> Prop) (post : B -> World -> Prop) :
  hoare pre m (fun a w => pre w /\ Q a) ->
  (forall a, Q a -> hoare pre (k a) post) ->
  hoare pre (bind m k) post.
Proof.
  intros Hm Hk. apply hoare_bind with (mid := fun a w => pre w /\ Q a);
    [exact Hm |].
  intros a w [Hw Hq]. exact (Hk a Hq w Hw).
Qed.

Lemma hoare_for_each A (inv : World -> Prop) (xs : list A)
  (body : A -> M unit) :
  (forall x, hoare inv (body x) (fun _ => inv)) ->
  hoare inv (for_each xs body) (fun _ => inv).
Proof.
  intro H. induction xs as [| x xs IH]; cbn [for_each].
  - apply hoare_ret. auto.
  - apply hoare_bind with (mid := fun _ => inv); [apply H | intros _; exact IH].
Qed.

Lemma hoare_fold_m A S (inv : World -> Prop) (J : S -> Prop) (xs : list A)
  (body : S -> A -> M S) :
  (forall s x, J s -> hoare inv (body s x) (fun s' w => inv w /\ J s')) ->
  forall s, J s ->
  hoare inv (fold_m xs s body) (fun s' w => inv w /\ J s').
Proof.
  intro H. induction xs as [| x xs IH]; intros s Hs; cbn [fold_m].
  - apply hoare_ret. auto.
  - apply hoare_bind_fact with (Q := J).
    + exact (H s x Hs).
    + intros s' Hs'. exact (IH s' Hs').
Qed.

(** *** Keys of a position map under assignment *)

Lemma dict_get_keys V (d : dict V) (k : AgentRole) (v : V) :
  dict_get d k = Some v -> In k (keys d).
Proof.
  intro H. apply dict_get_In in H. unfold keys. apply in_map_iff.
  exists (k, v). split; [reflexivity | exact H].
Qed.

Lemma keys_dict_set V (d : dict V) (k : AgentRole) (v : V) :
  In k (keys d) -> keys (dict_set d k v) = keys d.
Proof.
  unfold keys. induction d as [| [k' v'] d IH]; cbn; [intros [] |].
  unfold role_eqb. destruct (AgentRole_eq_dec k' k) as [-> | Hne]; cbn.
  - reflexivity.
  - intros [H | H]; [congruence |]. rewrite (IH H). reflexivity.
Qed.

(** *** An invariant of the thought objects through resolution *)

Section ResolverInvariant.

(** [good r t]: the object [t] is acceptable as the thought behind the
    reference [r]. *)
Variable good : tref -> AgentThought -> Prop.
Hypothesis good_reasoning :
  forall r t s, good r t -> good r (set_reasoning t s).
Hypothesis good_content :
  forall r t s, good r t -> good r (set_content t s).
Hypothesis good_scaled :
  forall r t k, 0 <= k -> k <= 1 -> good r t ->
                good r (set_confidence t (fmul (confidence t) (Fin k))).
Hypothesis good_hybrid :
  forall r r1 r2 t1 t2 i ro ti c re ts de ev al,
    good r1 t1 -> good r2 t2 ->
    good r (mkAgentThought i ro ti c re
              (fmul (fdiv (fadd (confidence t1) (confidence t2)) (Fin 2))
                    (Fin 0.9))
              ts de ev al).

Local Abbreviation inv := (each_thought good).

Lemma inv_read r :
  hoare inv (read_thought r) (fun t w => inv w /\ good r t).
Proof.
  intros w Hw. exists (thoughts w r), w.
  split; [reflexivity | split; [exact Hw | apply Hw]].
Qed.

Lemma inv_write r t :
  good r t -> hoare inv (write_thought r t) (fun _ => inv).
Proof.
  intros Ht w Hw. eexists. eexists. split; [reflexivity |].
  intro r'. cbn. destruct (Nat.eqb_spec r' r) as [-> |]; [exact Ht | apply Hw].
Qed.

Lemma inv_new t :
  (forall r, good r t) -> hoare inv (new_thought t) (fun _ => inv).
Proof.
  intros Ht w Hw. eexists. eexists. split; [reflexivity |].
  intro r'. cbn. destruct (Nat.eqb r' (next_thought w)); [apply Ht | apply Hw].
Qed.

Lemma inv_now : hoare inv now (fun _ => inv).
Proof. intros w Hw. exists (clock w), w. split; [reflexivity | exact Hw]. Qed.

Lemma inv_read_then A r (k : AgentThought -> M A)
  (post : A -> World -> Prop) :
  (forall t, good r t -> hoare inv (k t) post) ->
  hoare inv (t <- read_thought r ;; k t) post.
Proof.
  intro H. apply hoare_bind_fact with (Q := good r); [apply inv_read | exact H].
Qed.

Lemma inv_update r (f : AgentThought -> AgentThought) :
  (forall t, good r t -> good r (f t)) ->
  hoare inv (t <- read_thought r ;; write_thought r (f t)) (fun _ => inv).
Proof.
  intro Hf. apply inv_read_then. intros t Ht. apply inv_write, Hf, Ht.
Qed.

Lemma inv_scale r k :
  0 <= k -> k <= 1 -> hoare inv (scale_confidence r (Fin k)) (fun _ => inv).
Proof.
  intros H0 H1. unfold scale_confidence.
  apply (@inv_update r (fun t => set_confidence t (fmul (confidence t) (Fin k)))).
  intros t Ht. apply good_scaled; assumption.
Qed.

Lemma inv_append_reasoning r s :
  hoare inv (append_reasoning r s) (fun _ => inv).
Proof.
  unfold append_reasoning.
  apply (@inv_update r (fun t => set_reasoning t (reasoning t ++ s))).
  intros t Ht. apply good_reasoning, Ht.
Qed.

Lemma inv_assign_reasoning r s :
  hoare inv (assign_reasoning r s) (fun _ => inv).
Proof.
  unfold assign_reasoning. apply (@inv_update r (fun t => set_reasoning t s)).
  intros t Ht. apply good_reasoning, Ht.
Qed.

Lemma inv_assign_content r s :
  hoare inv (assign_content r s) (fun _ => inv).
Proof.
  unfold assign_content. apply (@inv_update r (fun t => set_content t s)).
  intros t Ht. apply good_content, Ht.
Qed.

(** Sequencing steps that keep the invariant. *)
Lemma inv_seq A (m : M unit) (k : M A) (post : A -> World -> Prop) :
  hoare inv m (fun _ => inv) -> hoare inv k post ->
  hoare inv (m ;;; k) post.
Proof.
  intros Hm Hk. apply hoare_bind with (mid := fun _ => inv);
    [exact Hm | intros _; exact Hk].
Qed.

Lemma inv_ret_tt : hoare inv (ret tt) (fun _ => inv).
Proof. apply hoare_ret. auto. Qed.

Ltac inv_steps :=
  repeat lazymatch goal with
  | |- hoare _ (ret tt) _ => apply inv_ret_tt
  | |- hoare _ (append_reasoning _ _) _ => apply inv_append_reasoning
  | |- hoare _ (assign_reasoning _ _) _ => apply inv_assign_reasoning
  | |- hoare _ (assign_content _ _) _ => apply inv_assign_content
  | |- hoare _ (scale_confidence _ _) _ => apply inv_scale; lra
  | |- hoare _ (bind (read_thought _) _) _ => apply inv_read_then; intros
  | |- hoare _ (bind _ _) _ => apply inv_seq
  end.

Lemma inv_factual_pair m c :
  hoare inv (resolve_factual_pair m c) (fun _ => inv).
Proof.
  destruct c as [[role1 role2] d]. unfold resolve_factual_pair.
  destruct (dict_get m role1) as [r1 |]; [| apply inv_ret_tt].
  destruct (dict_get m role2) as [r2 |]; [| apply inv_ret_tt].
  apply inv_read_then; intros t1 H1. apply inv_read_then; intros t2 H2.
  cbv zeta.
  destruct (fgt (evidence_strength t1) (evidence_strength t2));
    [| destruct (fgt (evidence_strength t2) (evidence_strength t1))];
    inv_steps.
Qed.

Lemma inv_priority_pair m c :
  hoare inv (resolve_priority_pair m c) (fun _ => inv).
Proof.
  destruct c as [[role1 role2] d]. unfold resolve_priority_pair.
  destruct (dict_get m role1) as [r1 |]; [| apply inv_ret_tt].
  destruct (dict_get m role2) as [r2 |]; [| apply inv_ret_tt].
  inv_steps.
Qed.

Lemma inv_strategic_pair m c :
  hoare inv (resolve_strategic_pair m c) (fun _ => inv).
Proof.
  destruct c as [[role1 role2] d]. unfold resolve_strategic_pair.
  destruct (dict_get m role1) as [r1 |]; [| apply inv_ret_tt].
  destruct (dict_get m role2) as [r2 |]; [| apply inv_ret_tt].
  inv_steps.
Qed.

Lemma inv_methodological_pair (m0 m : PosMap) c :
  keys m = keys m0 ->
  hoare inv (resolve_methodological_pair m c)
        (fun m' w => inv w /\ keys m' = keys m0).
Proof.
  intro Hk. destruct c as [[role1 role2] d].
  unfold resolve_methodological_pair.
  destruct (dict_get m role1) as [r1 |] eqn:E1;
    [| apply hoare_ret; auto].
  destruct (dict_get m role2) as [r2 |] eqn:E2;
    [| apply hoare_ret; auto].
  apply inv_read_then; intros t1 H1. apply inv_read_then; intros t2 H2.
  cbv zeta.
  apply hoare_bind with (mid := fun _ => inv); [apply inv_now |].
  intro time.
  apply hoare_bind with (mid := fun _ => inv).
  - apply inv_new. intro r. apply good_hybrid with (r1 := r1) (r2 := r2);
      assumption.
  - intro h. apply hoare_ret. intros w Hw. split; [exact Hw |].
    rewrite keys_dict_set.
    + rewrite keys_dict_set; [exact Hk | exact (dict_get_keys _ _ E1)].
    + rewrite keys_dict_set; [| exact (dict_get_keys _ _ E1)].
      exact (dict_get_keys _ _ E2).
Qed.

(** The three resolution methods that loop over the pairs and return the
    map they were given. *)
Lemma inv_loop_unit (m : PosMap) (cs : list PairConflict)
  (step : PosMap -> PairConflict -> M unit) :
  (forall c, hoare inv (step m c) (fun _ => inv)) ->
  hoare inv (for_each cs (step m) ;;; ret m)
        (fun m' w => inv w /\ m' = m).
Proof.
  intros H. apply inv_seq; [apply hoare_for_each, H |].
  apply hoare_ret. auto.
Qed.

Lemma inv_factual_disagreement m cs :
  hoare inv (_resolve_factual_disagreement m cs)
        (fun m' w => inv w /\ m' = m).
Proof. apply inv_loop_unit, inv_factual_pair. Qed.

Lemma inv_priority_disagreement m cs :
  hoare inv (_resolve_priority_disagreement m cs)
        (fun m' w => inv w /\ m' = m).
Proof. apply inv_loop_unit, inv_priority_pair. Qed.

Lemma inv_strategic_divergence m cs :
  hoare inv (_resolve_strategic_divergence m cs)
        (fun m' w => inv w /\ m' = m).
Proof. apply inv_loop_unit, inv_strategic_pair. Qed.

Lemma resolve_conflicts_invariant (m : PosMap) (cs : list Conflict) :
  hoare inv (resolve_conflicts m cs)
        (fun m' w => inv w /\ keys m' = keys m).
Proof.
  unfold resolve_conflicts.
  destruct cs as [| c cs]; [apply hoare_ret; auto |].
  apply hoare_fold_m with (J := fun m' : PosMap => keys m' = keys m);
    [| reflexivity].
  intros m1 [ty group] Hk.
  assert (Hsame : forall (m' : PosMap) (w : World),
             inv w /\ m' = m1 -> inv w /\ keys m' = keys m).
  { intros m' w [Hw ->]. auto. }
  destruct ty; try (apply hoare_ret; auto).
  - eapply hoare_conseq;
      [apply inv_factual_disagreement | auto | exact Hsame].
  - unfold _resolve_methodological_conflict.
    apply hoare_fold_m with (J := fun m' : PosMap => keys m' = keys m);
      [| exact Hk].
    intros m2 pc Hk2. apply inv_methodological_pair, Hk2.
  - eapply hoare_conseq;
      [apply inv_priority_disagreement | auto | exact Hsame].
  - eapply hoare_conseq;
      [apply inv_strategic_divergence | auto | exact Hsame].
Qed.

End ResolverInvariant.

(** X7: the resolver never raises, whatever the conflicts it is given,
    and the map it returns has the keys of the map it received, in the
    same order; with no conflict it returns the map and leaves the store
    as they were. *)
Theorem X7_resolver_returns_map_with_same_keys (m : PosMap)
  (conflicts : list Conflict) (w : World) :
  (exists m' w', resolve_conflicts m conflicts w = (Ok m', w') /\
                 keys m' = keys m) /\
  resolve_conflicts m [] w = (Ok m, w).
Proof.
  split; [| reflexivity].
  destruct (@resolve_conflicts_invariant (fun _ _ => True)
              ltac:(auto) ltac:(auto) ltac:(auto) ltac:(auto)
              m conflicts w ltac:(intro; exact I))
    as [m' [w' [E [_ Hk]]]].
  exists m', w'. split; assumption.
Qed.

Lemma scaled_confidence_in_unit (c : pyfloat) (k : Q) :
  0 <= k -> k <= 1 -> in_unit c -> in_unit (fmul c (Fin k)).
Proof. intros. apply scaled_in_unit; assumption. Qed.

Lemma hybrid_confidence_in_unit (c1 c2 : pyfloat) :
  in_unit c1 -> in_unit c2 ->
  in_unit (fmul (fdiv (fadd c1 c2) (Fin 2)) (Fin 0.9)).
Proof.
  destruct c1 as [x |], c2 as [y |]; try contradiction.
  intros [Hx0 Hx1] [Hy0 Hy1]. cbn [fadd fdiv fmul fbin in_unit].
  assert (E : (x + y) / 2 * 0.9 == (x + y) * 0.45) by (field).
  rewrite E. split; lra.
Qed.

(** X8: when every thought object of the store has its confidence in
    [0,1], this is still so after the resolver has run, whatever the
    conflicts are: the objects it rewrites and the hybrid objects it
    creates have confidence in [0,1]. *)
Theorem X8_resolver_keeps_confidences_in_unit (m : PosMap)
  (conflicts : list Conflict) (w : World)
  (Hunit : all_thoughts (fun t => in_unit (confidence t)) w) :
  exists m' w',
    resolve_conflicts m conflicts w = (Ok m', w') /\
    all_thoughts (fun t => in_unit (confidence t)) w'.
Proof.
  destruct (@resolve_conflicts_invariant
              (fun _ t => in_unit (confidence t))
              ltac:(intros r t s H; exact H)
              ltac:(intros r t s H; exact H)
              ltac:(intros r t k H0 H1 H; cbn;
                    apply scaled_confidence_in_unit; assumption)
              ltac:(intros; cbn; apply hybrid_confidence_in_unit; assumption)
              m conflicts w Hunit)
    as [m' [w' [E [Hw _]]]].
  exists m', w'. split; assumption.
Qed.

Lemma X8_resolver_keeps_confidences_in_unit_witness :
  all_thoughts (fun t => in_unit (confidence t)) scenario_world /\
  exists m' w',
    resolve_conflicts scenario_map
      (detect_conflicts (items_in scenario_world scenario_map))
      scenario_world = (Ok m', w') /\
    all_thoughts (fun t => in_unit (confidence t)) w'.
Proof.
  assert (Hunit : all_thoughts (fun t => in_unit (confidence t))
                    scenario_world).
  { intros [| r]; cbn; split; lra. }
  split; [exact Hunit |].
  exact (@X8_resolver_keeps_confidences_in_unit scenario_map
           (detect_conflicts (items_in scenario_world scenario_map))
           scenario_world Hunit).
Defined.

(** *** What resolution leaves of a conflict *)

Lemma content_conflicts_by_content (a b a' b' : AgentThought) :
  content a' = content a -> content b' = content b ->
  content_conflicts a' b' = content_conflicts a b.
Proof.
  intros Ha Hb. unfold content_conflicts, _analyze_conflict_between_agents.
  rewrite Ha, Hb. rewrite !filter_app. f_equal. f_equal. f_equal.
  destruct (_have_different_approaches (reasoning a') (reasoning b'));
    destruct (_have_different_approaches (reasoning a) (reasoning b));
    reflexivity.
Qed.

(** X9: resolving factual or priority disagreements returns the map it
    was given and changes no thought's content, role or evidence; as the
    detector decides factual, priority and strategic conflicts from the
    contents alone, it reports after the resolution the very conflicts
    of these types it reported before. *)
Theorem X9_factual_and_priority_resolution_keep_contents (m : PosMap)
  (conflicts : list PairConflict) (w : World) :
  (exists w',
      _resolve_factual_disagreement m conflicts w = (Ok m, w') /\
      same_contents w w' /\
      forall r1 r2,
        content_conflicts (thoughts w' r1) (thoughts w' r2) =
        content_conflicts (thoughts w r1) (thoughts w r2)) /\
  (exists w',
      _resolve_priority_disagreement m conflicts w = (Ok m, w') /\
      same_contents w w' /\
      forall r1 r2,
        content_conflicts (thoughts w' r1) (thoughts w' r2) =
        content_conflicts (thoughts w r1) (thoughts w r2)).
Proof.
  pose (good := fun (r : tref) (t : AgentThought) =>
                  content t = content (thoughts w r) /\
                  agent_role t = agent_role (thoughts w r) /\
                  evidence t = evidence (thoughts w r)).
  assert (H0 : each_thought good w) by (intro r; repeat split).
  assert (Hfinish : forall (m' : PosMap) (w' : World),
             each_thought good w' /\ m' = m ->
             m' = m /\ same_contents w w' /\
             forall r1 r2,
               content_conflicts (thoughts w' r1) (thoughts w' r2) =
               content_conflicts (thoughts w r1) (thoughts w r2)).
  { intros m' w' [Hw ->]. split; [reflexivity |]. split; [exact Hw |].
    intros r1 r2. apply content_conflicts_by_content; apply Hw. }
  split.
  - destruct (@inv_factual_disagreement good
                ltac:(intros r t s H; exact H)
                ltac:(intros r t k Hk0 Hk1 H; exact H)
                m conflicts w H0) as [m' [w' [E Hpost]]].
    destruct (Hfinish m' w' Hpost) as [-> Hrest].
    exists w'. split; [exact E | exact Hrest].
  - destruct (@inv_priority_disagreement good
                ltac:(intros r t s H; exact H)
                ltac:(intros r t k Hk0 Hk1 H; exact H)
                m conflicts w H0) as [m' [w' [E Hpost]]].
    destruct (Hfinish m' w' Hpost) as [-> Hrest].
    exists w'. split; [exact E | exact Hrest].
Qed.

(** The store after a sequence of writes, read at one reference. *)
Ltac read_store :=
  cbn [thoughts with_thoughts next_thought set_reasoning set_content
       set_confidence reasoning content confidence agent_role evidence];
  repeat (rewrite Nat.eqb_refl ||
          match goal with
          | |- context [Nat.eqb ?a ?b] =>
              destruct (Nat.eqb_spec a b); try congruence
          end;
          cbn [thoughts with_thoughts next_thought set_reasoning set_content
               set_confidence reasoning content confidence agent_role
               evidence]).

(** X10: resolving a priority disagreement between two recorded
    positions gives both the same compromise reasoning, so that the
    detector finds no methodological conflict between them afterwards;
    each of two distinct positions keeps nine tenths of its confidence,
    and no other thought object is touched. *)
Theorem X10_priority_resolution_of_a_pair (w : World) (m : PosMap)
  (role1 role2 : AgentRole) (note : string) (thought1 thought2 : tref)
  (Hfirst : dict_get m role1 = Some thought1)
  (Hsecond : dict_get m role2 = Some thought2) :
  exists w',
    resolve_priority_pair m (role1, role2, note) w = (Ok tt, w') /\
    reasoning (thoughts w' thought1) =
      "Priority consideration: " ++ reasoning (thoughts w thought1) ++
      " | Alternative perspective: " ++ reasoning (thoughts w thought2) /\
    reasoning (thoughts w' thought2) = reasoning (thoughts w' thought1) /\
    _have_different_approaches (reasoning (thoughts w' thought1))
                               (reasoning (thoughts w' thought2)) = false /\
    (thought1 <> thought2 ->
     confidence (thoughts w' thought1) =
       fmul (confidence (thoughts w thought1)) (Fin 0.9) /\
     confidence (thoughts w' thought2) =
       fmul (confidence (thoughts w thought2)) (Fin 0.9)) /\
    (forall r, r <> thought1 -> r <> thought2 ->
               thoughts w' r = thoughts w r).
Proof.
  unfold resolve_priority_pair. rewrite Hfirst, Hsecond.
  eexists. split; [reflexivity |].
  assert (E1 : forall x y, reasoning (thoughts x thought2) = y ->
                           reasoning (thoughts x thought1) = y ->
                           reasoning (thoughts x thought2) =
                           reasoning (thoughts x thought1))
    by (intros; congruence).
  split; [read_store; reflexivity |].
  split; [read_store; reflexivity |].
  split.
  - unfold _have_different_approaches. apply first_matches_differ_same.
    f_equal. read_store; reflexivity.
  - split.
    + intro Hne. split; read_store; reflexivity.
    + intros r Hr1 Hr2. read_store; reflexivity.
Qed.

Lemma X10_priority_resolution_of_a_pair_witness :
  exists w',
    resolve_priority_pair scenario_map
      (QUEEN_COORDINATOR, CODE_ARCHITECT, "Different priority levels")
      divergent_world = (Ok tt, w') /\
    reasoning (thoughts w' 0%nat) =
      "Priority consideration: Holistic reasoning" ++
      " | Alternative perspective: Holistic reasoning" /\
    reasoning (thoughts w' 1%nat) = reasoning (thoughts w' 0%nat) /\
    _have_different_approaches (reasoning (thoughts w' 0%nat))
                               (reasoning (thoughts w' 1%nat)) = false /\
    (0%nat <> 1%nat ->
     confidence (thoughts w' 0%nat) = fmul (Fin 0.9) (Fin 0.9) /\
     confidence (thoughts w' 1%nat) = fmul (Fin 0.7) (Fin 0.9)) /\
    (forall r, r <> 0%nat -> r <> 1%nat ->
               thoughts w' r = thoughts divergent_world r).
Proof.
  exact (@X10_priority_resolution_of_a_pair divergent_world scenario_map
           QUEEN_COORDINATOR CODE_ARCHITECT "Different priority levels"
           0%nat 1%nat eq_refl eq_refl).
Defined.

Lemma lower_app (a b : string) : lower (a ++ b) = lower a ++ lower b.
Proof. induction a as [| c a IH]; cbn; [reflexivity | rewrite IH; reflexivity]. Qed.

Lemma prefix_app (k a b : string) :
  prefix k a = true -> prefix k (a ++ b) = true.
Proof.
  revert a. induction k as [| c k IH]; intros a H;
    [destruct (a ++ b); reflexivity |].
  destruct a as [| c' a]; cbn in *; [discriminate |].
  destruct (ascii_dec c c'); [apply IH, H | discriminate].
Qed.

Lemma contains_app_l (k a b : string) :
  contains k a = true -> contains k (a ++ b) = true.
Proof.
  induction a as [| c a IH]; intro H.
  - cbn in H. rewrite orb_false_r in H.
    destruct k; [| discriminate]. destruct b; reflexivity.
  - change (contains k (String c a))
      with (prefix k (String c a) || contains k a) in H.
    change (contains k (String c a ++ b))
      with (prefix k (String c a ++ b) || contains k (a ++ b)).
    apply orb_true_iff in H. apply orb_true_iff. destruct H as [H | H].
    + left. apply prefix_app, H.
    + right. apply IH, H.
Qed.

Lemma contains_app_r (k a b : string) :
  contains k b = true -> contains k (a ++ b) = true.
Proof.
  intro H. induction a as [| c a IH]; [exact H |].
  change (contains k (String c a ++ b))
    with (prefix k (String c a ++ b) || contains k (a ++ b)).
  rewrite IH. apply orb_true_r.
Qed.

(** A text that embeds both contents opposes itself when they oppose
    each other. *)
Lemma opposite_in_synthesis (c1 c2 p i s : string) :
  _are_opposite_positions c1 c2 = true ->
  _are_opposite_positions (p ++ c1 ++ i ++ c2 ++ s)
                          (p ++ c1 ++ i ++ c2 ++ s) = true.
Proof.
  unfold _are_opposite_positions. cbv zeta. intro H.
  apply existsb_exists in H. destruct H as [[a b] [Hin H]].
  apply existsb_exists. exists (a, b). split; [exact Hin |].
  cbn [fst snd] in *.
  assert (H1 : forall k, contains k (lower c1) = true ->
               contains k (lower (p ++ c1 ++ i ++ c2 ++ s)) = true).
  { intros k Hk. rewrite !lower_app. apply contains_app_r, contains_app_l, Hk. }
  assert (H2 : forall k, contains k (lower c2) = true ->
               contains k (lower (p ++ c1 ++ i ++ c2 ++ s)) = true).
  { intros k Hk. rewrite !lower_app.
    apply contains_app_r, contains_app_r, contains_app_r, contains_app_l, Hk. }
  apply orb_true_iff in H. destruct H as [H | H];
    apply andb_true_iff in H; destruct H as [Ha Hb].
  - rewrite (H1 a Ha), (H2 b Hb). reflexivity.
  - rewrite (H2 a Hb), (H1 b Ha). reflexivity.
Qed.

(** X11: resolving a strategic divergence between two recorded positions
    gives both the same synthesised content and the same reasoning;
    afterwards the detector can find nothing but a factual disagreement
    between them, and it does find one whenever their contents were
    opposite before; each of two distinct positions keeps 0.85 of its
    confidence, and no other thought object is touched. *)
Theorem X11_strategic_resolution_of_a_pair (w : World) (m : PosMap)
  (role1 role2 : AgentRole) (note : string) (thought1 thought2 : tref)
  (Hfirst : dict_get m role1 = Some thought1)
  (Hsecond : dict_get m role2 = Some thought2) :
  exists w',
    resolve_strategic_pair m (role1, role2, note) w = (Ok tt, w') /\
    content (thoughts w' thought1) =
      "Strategic synthesis: " ++ content (thoughts w thought1) ++
      " integrated with " ++ content (thoughts w thought2) ++ ". " ++
      "Provides balanced approach considering multiple strategic factors." /\
    content (thoughts w' thought2) = content (thoughts w' thought1) /\
    reasoning (thoughts w' thought2) = reasoning (thoughts w' thought1) /\
    (forall ty d,
        In (ty, d) (_analyze_conflict_between_agents
                      (thoughts w' thought1) (thoughts w' thought2)) ->
        ty = FACTUAL_DISAGREEMENT) /\
    (_are_opposite_positions (content (thoughts w thought1))
                             (content (thoughts w thought2)) = true ->
     In (FACTUAL_DISAGREEMENT, "Opposite conclusions")
        (_analyze_conflict_between_agents
           (thoughts w' thought1) (thoughts w' thought2))) /\
    (thought1 <> thought2 ->
     confidence (thoughts w' thought1) =
       fmul (confidence (thoughts w thought1)) (Fin 0.85) /\
     confidence (thoughts w' thought2) =
       fmul (confidence (thoughts w thought2)) (Fin 0.85)) /\
    (forall r, r <> thought1 -> r <> thought2 ->
               thoughts w' r = thoughts w r).
Proof.
  unfold resolve_strategic_pair. rewrite Hfirst, Hsecond.
  eexists. split; [reflexivity |].
  match goal with
  | |- content (thoughts ?x _) = _ /\ _ => set (w' := x)
  end.
  assert (Hc1 : content (thoughts w' thought1) =
      "Strategic synthesis: " ++ content (thoughts w thought1) ++
      " integrated with " ++ content (thoughts w thought2) ++ ". " ++
      "Provides balanced approach considering multiple strategic factors.")
    by (subst w'; read_store; reflexivity).
  assert (Hc2 : content (thoughts w' thought2) = content (thoughts w' thought1))
    by (rewrite Hc1; subst w'; read_store; reflexivity).
  assert (Hr : reasoning (thoughts w' thought2) =
               reasoning (thoughts w' thought1))
    by (subst w'; read_store; reflexivity).
  split; [exact Hc1 |]. split; [exact Hc2 |]. split; [exact Hr |].
  split; [| split; [| split]].
  - intros ty d. unfold _analyze_conflict_between_agents.
    unfold _have_different_priorities, _have_different_approaches,
      _have_strategic_divergence.
    rewrite !first_matches_differ_same by (f_equal; congruence).
    rewrite !app_nil_r.
    destruct (_are_opposite_positions _ _); cbn;
      [intros [H | []]; congruence | intros []].
  - intro Hopp. unfold _analyze_conflict_between_agents.
    rewrite Hc2, Hc1.
    rewrite (@opposite_in_synthesis _ _ "Strategic synthesis: "
               " integrated with "
               (". " ++
                "Provides balanced approach considering multiple strategic factors.")
               Hopp).
    left. reflexivity.
  - intro Hne. subst w'. split; read_store; reflexivity.
  - intros r Hr1 Hr2. subst w'. read_store; reflexivity.
Qed.

Lemma X11_strategic_resolution_of_a_pair_witness :
  dict_get scenario_map QUEEN_COORDINATOR = Some 0%nat /\
  dict_get scenario_map CODE_ARCHITECT = Some 1%nat /\
  exists w',
    resolve_strategic_pair scenario_map
      (QUEEN_COORDINATOR, CODE_ARCHITECT, "Different strategic directions")
      divergent_world = (Ok tt, w') /\
    content (thoughts w' 1%nat) = content (thoughts w' 0%nat) /\
    reasoning (thoughts w' 1%nat) = reasoning (thoughts w' 0%nat).
Proof.
  split; [reflexivity |]. split; [reflexivity |].
  destruct (@X11_strategic_resolution_of_a_pair divergent_world scenario_map
              QUEEN_COORDINATOR CODE_ARCHITECT
              "Different strategic directions" 0%nat 1%nat eq_refl eq_refl)
    as [w' [E [_ [Hc [Hr _]]]]].
  exists w'. split; [exact E |]. split; [exact Hc | exact Hr].
Defined.

Lemma dict_get_set_same V (d : dict V) (k : AgentRole) (v : V) :
  dict_get (dict_set d k v) k = Some v.
Proof.
  induction d as [| [k' v'] d IH]; cbn.
  - unfold role_eqb. destruct (AgentRole_eq_dec k k); congruence.
  - unfold role_eqb. destruct (AgentRole_eq_dec k' k) as [-> | Hne]; cbn;
      unfold role_eqb.
    + destruct (AgentRole_eq_dec k k); congruence.
    + destruct (AgentRole_eq_dec k' k); [congruence | exact IH].
Qed.

Lemma dict_get_set_other V (d : dict V) (k k' : AgentRole) (v : V) :
  k' <> k -> dict_get (dict_set d k v) k' = dict_get d k'.
Proof.
  intro Hne. induction d as [| [k0 v0] d IH]; cbn.
  - unfold role_eqb. destruct (AgentRole_eq_dec k k'); congruence.
  - unfold role_eqb. destruct (AgentRole_eq_dec k0 k) as [-> | Hk]; cbn;
      unfold role_eqb.
    + destruct (AgentRole_eq_dec k k'); congruence.
    + destruct (AgentRole_eq_dec k0 k'); [reflexivity | exact IH].
Qed.

(** X12: resolving a methodological conflict between two recorded
    positions files one newly created thought under both roles, the keys
    of the map being kept; the new thought has the role of the queen
    coordinator, nine tenths of the mean of the two confidences and the
    evidence of both without repetition; the two original objects and
    every other one stay as they were, and the map is no longer keyed by
    role when the first role is not the queen coordinator. *)
Theorem X12_methodological_merge_of_a_pair (w : World) (m : PosMap)
  (role1 role2 : AgentRole) (note : string) (thought1 thought2 : tref)
  (Hfirst : dict_get m role1 = Some thought1)
  (Hsecond : dict_get m role2 = Some thought2) :
  exists m' w',
    resolve_methodological_pair m (role1, role2, note) w = (Ok m', w') /\
    keys m' = keys m /\
    dict_get m' role1 = Some (next_thought w) /\
    dict_get m' role2 = Some (next_thought w) /\
    (forall k, k <> role1 -> k <> role2 -> dict_get m' k = dict_get m k) /\
    agent_role (thoughts w' (next_thought w)) = QUEEN_COORDINATOR /\
    confidence (thoughts w' (next_thought w)) =
      fmul (fdiv (fadd (confidence (thoughts w thought1))
                       (confidence (thoughts w thought2))) (Fin 2))
           (Fin 0.9) /\
    NoDup (evidence (thoughts w' (next_thought w))) /\
    (forall e, In e (evidence (thoughts w' (next_thought w))) <->
               In e (evidence (thoughts w thought1)) \/
               In e (evidence (thoughts w thought2))) /\
    (forall r, r <> next_thought w -> thoughts w' r = thoughts w r) /\
    (role1 <> QUEEN_COORDINATOR -> ~ keyed_by_role w' m').
Proof.
  unfold resolve_methodological_pair. rewrite Hfirst, Hsecond.
  eexists. eexists. split; [reflexivity |].
  assert (Hg1 : dict_get (dict_set (dict_set m role1 (next_thought w)) role2
                            (next_thought w)) role1 = Some (next_thought w)).
  { destruct (AgentRole_eq_dec role1 role2) as [-> | Hne].
    - apply dict_get_set_same.
    - rewrite dict_get_set_other by exact Hne. apply dict_get_set_same. }
  split.
  { rewrite keys_dict_set.
    - apply keys_dict_set. exact (dict_get_keys _ _ Hfirst).
    - rewrite keys_dict_set by exact (dict_get_keys _ _ Hfirst).
      exact (dict_get_keys _ _ Hsecond). }
  split; [exact Hg1 |].
  split; [apply dict_get_set_same |].
  split.
  { intros k Hk1 Hk2. rewrite !dict_get_set_other by assumption. reflexivity. }
  split; [read_store; reflexivity |].
  split; [read_store; reflexivity |].
  split; [read_store; unfold set_of; apply NoDup_nodup |].
  split.
  { intro e. read_store. unfold set_of. rewrite nodup_In. apply in_app_iff. }
  split.
  { intros r Hr. read_store; reflexivity. }
  intros Hq Hkeyed. unfold keyed_by_role in Hkeyed.
  rewrite Forall_forall in Hkeyed.
  specialize (Hkeyed (role1, next_thought w) (dict_get_In _ _ Hg1)).
  revert Hkeyed. cbn [fst snd]. read_store; congruence.
Qed.

Lemma X12_methodological_merge_of_a_pair_witness :
  exists m' w',
    resolve_methodological_pair scenario_map
      (CODE_ARCHITECT, QUEEN_COORDINATOR, "Different methodological approaches")
      divergent_world = (Ok m', w') /\
    keys m' = [QUEEN_COORDINATOR; CODE_ARCHITECT] /\
    dict_get m' CODE_ARCHITECT = Some 2%nat /\
    dict_get m' QUEEN_COORDINATOR = Some 2%nat /\
    length (evidence (thoughts w' 2%nat)) = 2%nat /\
    ~ keyed_by_role w' m'.
Proof.
  destruct (@X12_methodological_merge_of_a_pair divergent_world scenario_map
              CODE_ARCHITECT QUEEN_COORDINATOR
              "Different methodological approaches" 1%nat 0%nat
              eq_refl eq_refl)
    as [m' [w' [E [Hk [H1 [H2 [_ [_ [_ [_ [_ [_ Hn]]]]]]]]]]]].
  exists m', w'. split; [exact E |]. split; [exact Hk |].
  split; [exact H1 |]. split; [exact H2 |].
  split; [inversion E; reflexivity | apply Hn; discriminate].
Defined.

(* ================================================================== *)
(** ** Further properties of learning, analytics and optimisation *)
(* ================================================================== *)

Lemma first_token_without_separator (sep : ascii) (s : string) :
  mentions sep (hd EmptyString (split_on sep s)) = false.
Proof.
  induction s as [| c s IH]; cbn [split_on]; [reflexivity |].
  destruct (Ascii.eqb c sep) eqn:E; [reflexivity |].
  destruct (split_on sep s) as [| tok rest]; cbn [hd mentions] in *;
    rewrite E; [reflexivity | exact IH].
Qed.

Lemma strategy_value_has_underscore (s : ConsensusStrategy) :
  mentions "_" (strategy_value s) = true.
Proof. destruct s; reflexivity. Qed.

Lemma strategy_of_first_token (pattern_key : string) :
  ConsensusStrategy_of_value (hd EmptyString (split_on "_" pattern_key))
  = None.
Proof.
  destruct (ConsensusStrategy_of_value _) as [s |] eqn:E; [| reflexivity].
  unfold ConsensusStrategy_of_value in E. apply find_some in E.
  destruct E as [_ E]. apply String.eqb_eq in E.
  pose proof (first_token_without_separator "_" pattern_key) as H.
  rewrite <- E, strategy_value_has_underscore in H. discriminate.
Qed.

Lemma optimal_strategy_step_none (agent_count conflict_estimate : Z)
  (best : option ConsensusStrategy * pyfloat)
  (entry : string * list LearningPattern) :
  fst best = None ->
  fst (optimal_strategy_step agent_count conflict_estimate best entry) = None.
Proof.
  intro H. unfold optimal_strategy_step. cbv zeta.
  destruct (filter _ _) as [| p ps]; [exact H |].
  destruct (fgt _ _); [| exact H].
  rewrite strategy_of_first_token. exact H.
Qed.

(** X13: the learned-strategy lookup never recommends a strategy,
    whatever patterns have been recorded and whatever the context: the
    name it looks up is the part of the pattern key before the first
    underscore, and the value of every strategy contains an underscore,
    so the lookup fails each time and the result stays [None]. *)
Theorem X13_learned_strategy_lookup_returns_none
  (patterns : list (string * list LearningPattern))
  (agent_count conflict_estimate : Z) :
  get_optimal_strategy_for_context patterns agent_count conflict_estimate
  = None.
Proof.
  unfold get_optimal_strategy_for_context.
  destruct patterns as [| e rest]; [reflexivity |].
  generalize (e :: rest). intro l.
  assert (H : forall best, fst best = None ->
            fst (fold_left
                   (optimal_strategy_step agent_count conflict_estimate)
                   l best) = None).
  { induction l as [| x l IH]; intros best Hb; [exact Hb |].
    cbn [fold_left]. apply IH, optimal_strategy_step_none, Hb. }
  apply H. reflexivity.
Qed.

(** X14: learning from a deliberation records nothing: for a
    deliberation without final consensus it returns at once, and for one
    with a final consensus it raises [AttributeError] on
    [participating_agents] before any pattern is stored; the store,
    learned patterns and performance history included, is left as it
    was. *)
Theorem X14_learning_never_records (deliberation : dref) (w : World) :
  snd (learn_from_deliberation deliberation w) = w /\
  fst (learn_from_deliberation deliberation w) =
    match final_consensus (deliberations w deliberation) with
    | None => Ok tt
    | Some _ =>
        Raise (AttributeError "ConsensusDeliberation" "participating_agents")
    end.
Proof.
  unfold learn_from_deliberation, bind, read_deliberation.
  destruct (final_consensus (deliberations w deliberation));
    split; reflexivity.
Qed.

(** *** Analytics *)

Lemma last_n_length A (n : nat) (l : list A) :
  length (last_n n l) = Nat.min n (length l).
Proof. unfold last_n. rewrite length_skipn. lia. Qed.

Lemma sum_counts_incr (counts : list (string * nat)) (key : string) :
  sum_counts (count_incr counts key) = S (sum_counts counts).
Proof.
  induction counts as [| [k n] rest IH]; cbn; [reflexivity |].
  destruct (String.eqb k key); cbn; [reflexivity |].
  unfold sum_counts in IH. rewrite IH. lia.
Qed.

Lemma tally_counts (ds : list ConsensusDeliberation) (t : AnalyticsTally) :
  let t' := fold_left analytics_step ds t in
  sum_counts (tally_strategies t') =
    (sum_counts (tally_strategies t) + length ds)%nat /\
  sum_counts (tally_levels t') =
    (sum_counts (tally_levels t) +
     length (filter (fun d => match final_consensus d with
                              | Some _ => true | None => false end) ds))%nat /\
  length (tally_confidences t') =
    (length (tally_confidences t) +
     length (filter (fun d => match final_consensus d with
                              | Some _ => true | None => false end) ds))%nat.
Proof.
  revert t. induction ds as [| d ds IH]; intro t; cbn [fold_left].
  - cbn. repeat split; lia.
  - specialize (IH (analytics_step t d)). cbv zeta in IH.
    destruct IH as [H1 [H2 H3]]. cbv zeta.
    rewrite H1, H2, H3. unfold analytics_step. cbn [tally_strategies
      tally_levels tally_confidences filter].
    rewrite sum_counts_incr.
    destruct (final_consensus d); cbn [fst snd length];
      rewrite ?sum_counts_incr, ?length_app; cbn [length];
      repeat split; lia.
Qed.

(** X15: the analytics report a status exactly when the history is
    empty; otherwise the total is the length of the history, at most the
    last twenty sessions are analysed, the strategy distribution counts
    each analysed session once, the level distribution counts the
    analysed sessions that have a final consensus, and the number of
    active deliberations is reported. *)
Theorem X15_analytics_counts (w : World) :
  match get_consensus_analytics w with
  | AnalyticsStatus _ => consensus_history w = []
  | Analytics a =>
      consensus_history w <> [] /\
      total_deliberations a = length (consensus_history w) /\
      recent_deliberations a = Nat.min 20 (length (consensus_history w)) /\
      sum_counts (strategy_distribution a) = recent_deliberations a /\
      sum_counts (consensus_level_distribution a) =
        length (filter (fun d => match final_consensus d with
                                 | Some _ => true | None => false end)
                  (last_n 20 (map (deliberations w) (consensus_history w)))) /\
      (sum_counts (consensus_level_distribution a)
       <= recent_deliberations a)%nat /\
      active_count a = length (active_deliberations w)
  end.
Proof.
  unfold get_consensus_analytics.
  destruct (consensus_history w) as [| d0 ds] eqn:E; [reflexivity |].
  cbv zeta.
  cbn [total_deliberations recent_deliberations strategy_distribution
       consensus_level_distribution active_count].
  assert (Hlen : length (last_n 20 (map (deliberations w) (d0 :: ds))) =
                 Nat.min 20 (length (d0 :: ds)))
    by (rewrite last_n_length, length_map; reflexivity).
  set (recent := last_n 20 (map (deliberations w) (d0 :: ds))) in *.
  pose proof (tally_counts recent (mkAnalyticsTally [] [] [] [])) as H.
  cbv zeta in H. destruct H as [H1 [H2 _]].
  cbn [tally_strategies tally_levels sum_counts fold_right Nat.add] in H1, H2.
  split; [discriminate |].
  split; [apply length_map |].
  split; [exact Hlen |].
  split; [exact H1 |].
  split; [exact H2 |].
  split; [rewrite H2; apply filter_length_le | reflexivity].
Qed.

(** *** Optimisation *)

Lemma performance_add_keys (groups : list (ConsensusStrategy * list pyfloat))
  (s : ConsensusStrategy) (p : pyfloat) :
  NoDup (map fst groups) /\ Forall (fun g => snd g <> []) groups ->
  NoDup (map fst (performance_add groups s p)) /\
  Forall (fun g => snd g <> []) (performance_add groups s p) /\
  (forall k, In k (map fst (performance_add groups s p)) ->
             k = s \/ In k (map fst groups)).
Proof.
  induction groups as [| [s' ps] rest IH]; intros [Hnd Hne].
  - cbn. split; [constructor; [intros [] | constructor] |].
    split; [constructor; [discriminate | constructor] |].
    intros k [H | []]. left. symmetry. exact H.
  - cbn [performance_add].
    destruct (ConsensusStrategy_eq_dec s' s) as [-> | Hs].
    + split; [exact Hnd |]. split.
      * inversion Hne; subst. constructor; [| assumption].
        cbn. destruct ps; discriminate.
      * intros k Hk. right. exact Hk.
    + inversion Hnd as [| ? ? Hnotin Hnd']; subst.
      inversion Hne as [| ? ? Hps Hne']; subst.
      destruct (IH (conj Hnd' Hne')) as [IH1 [IH2 IH3]].
      cbn [map fst]. split; [| split].
      * constructor; [| exact IH1].
        intro Hin. destruct (IH3 _ Hin) as [E | Hin']; [congruence |].
        exact (Hnotin Hin').
      * constructor; assumption.
      * intros k [E | Hin]; [right; left; exact E |].
        destruct (IH3 _ Hin) as [E | Hin']; [left; exact E |].
        right. right. exact Hin'.
Qed.

Lemma strategy_performance_groups (recent : list ConsensusDeliberation) :
  NoDup (map fst (strategy_performance recent)) /\
  Forall (fun g => snd g <> []) (strategy_performance recent).
Proof.
  unfold strategy_performance.
  assert (H : forall groups,
             NoDup (map fst groups) /\ Forall (fun g => snd g <> []) groups ->
             let groups' :=
               fold_left
                 (fun groups d =>
                    match final_consensus d with
                    | Some final =>
                        performance_add groups (strategy d)
                          (confidence_score final)
                    | None => groups
                    end) recent groups in
             NoDup (map fst groups') /\ Forall (fun g => snd g <> []) groups').
  { induction recent as [| d ds IH]; intros groups Hg; [exact Hg |].
    cbn [fold_left]. apply IH.
    destruct (final_consensus d) as [final |]; [| exact Hg].
    destruct (performance_add_keys (strategy d) (confidence_score final) Hg)
      as [H1 [H2 _]].
    split; assumption. }
  apply H. split; constructor.
Qed.

Lemma success_rate_in_unit (performances : list pyfloat) :
  performances <> [] -> in_unit (success_rate (strategy_metrics performances)).
Proof.
  intro Hne. unfold strategy_metrics. cbn [success_rate].
  apply ratio_in_unit; [apply filter_length_le |].
  destruct performances; [congruence | cbn; lia].
Qed.

Lemma fgt_not_above (x best challenger : pyfloat) :
  fgt x best = false -> fgt challenger best = true ->
  fgt x challenger = false.
Proof.
  unfold fgt. destruct x as [a |], best as [b |], challenger as [c |];
    cbn; try discriminate; try reflexivity.
  intros H1 H2. apply Qltb_ge in H1. apply Qltb_lt in H2.
  apply Qltb_ge. lra.
Qed.

Lemma best_fold A (f : A -> pyfloat) (others seen : list A) (first : A) :
  In first seen ->
  Forall (fun x => fgt (f x) (f first) = false) seen ->
  let b := fold_left
             (fun best kv => if fgt (f kv) (f best) then kv else best)
             others first in
  In b (seen ++ others) /\
  Forall (fun x => fgt (f x) (f b) = false) (seen ++ others).
Proof.
  revert seen first. induction others as [| kv others IH];
    intros seen first Hin Hall; cbn [fold_left].
  - cbv zeta. rewrite app_nil_r. split; assumption.
  - cbv zeta.
    replace (seen ++ kv :: others)%list with ((seen ++ [kv]) ++ others)%list
      by (rewrite <- app_assoc; reflexivity).
    destruct (fgt (f kv) (f first)) eqn:E; apply IH.
    + apply in_or_app. right. left. reflexivity.
    + apply Forall_app. split.
      * rewrite Forall_forall in *. intros x Hx.
        apply fgt_not_above with (best := f first); [apply Hall, Hx | exact E].
      * constructor; [apply flt_irrefl | constructor].
    + apply in_or_app. left. exact Hin.
    + apply Forall_app. split; [exact Hall |].
      constructor; [exact E | constructor].
Qed.

(** X16: the optimiser reports a status exactly for fewer than five
    deliberations; otherwise it analyses at most the last ten, lists
    every strategy once, each with a success rate in [0,1], and, when it
    lists any strategy at all, prefers one of the listed strategies whose
    average confidence no listed strategy exceeds; the alternatives are
    listed strategies with an average confidence above 0.7, and the
    preferred strategy is not among them. *)
Theorem X16_optimizer_recommendations
  (history : list ConsensusDeliberation) :
  match optimize_consensus_parameters history with
  | OptimizationStatus _ => (length history < 5)%nat
  | Optimized o =>
      (5 <= length history)%nat /\
      data_points o = Nat.min 10 (length history) /\
      NoDup (map fst (optimal_strategies o)) /\
      Forall (fun sm => in_unit (success_rate (snd sm)))
             (optimal_strategies o) /\
      match recommendations o with
      | None => optimal_strategies o = []
      | Some r =>
          (exists metrics,
              In (preferred_strategy r, metrics) (optimal_strategies o) /\
              Forall (fun sm => fgt (avg_performance (snd sm))
                                    (avg_performance metrics) = false)
                     (optimal_strategies o)) /\
          ~ In (preferred_strategy r) (alternative_strategies r) /\
          Forall (fun s => exists metrics,
                      In (s, metrics) (optimal_strategies o) /\
                      fgt (avg_performance metrics) (Fin 0.7) = true)
                 (alternative_strategies r)
      end
  end.
Proof.
  unfold optimize_consensus_parameters.
  destruct (length history <? 5)%nat eqn:E;
    [apply Nat.ltb_lt in E; exact E | apply Nat.ltb_ge in E].
  cbv zeta. cbn [data_points optimal_strategies recommendations].
  destruct (strategy_performance_groups (last_n 10 history)) as [Hnd Hne].
  set (groups := strategy_performance (last_n 10 history)) in *.
  assert (Hmap :
            flat_map
              (fun sp : ConsensusStrategy * list pyfloat =>
                 match snd sp with
                 | _ :: _ => [(fst sp, strategy_metrics (snd sp))]
                 | [] => []
                 end) groups =
            map (fun sp => (fst sp, strategy_metrics (snd sp))) groups).
  { clear Hnd. induction groups as [| [s ps] rest IH]; [reflexivity |].
    inversion Hne as [| ? ? Hps Hrest]; subst. cbn [flat_map map fst snd].
    rewrite (IH Hrest). destruct ps; [cbn in Hps; congruence | reflexivity]. }
  rewrite Hmap.
  set (optimal := map (fun sp => (fst sp, strategy_metrics (snd sp))) groups).
  split; [exact E |].
  split; [apply last_n_length |].
  split.
  { subst optimal. rewrite map_map. cbn [fst]. exact Hnd. }
  split.
  { subst optimal. apply Forall_map. rewrite Forall_forall in *.
    intros g Hg. cbn [snd]. apply success_rate_in_unit, Hne, Hg. }
  destruct optimal as [| first others] eqn:Eo; [reflexivity |].
  cbn [preferred_strategy alternative_strategies].
  unfold best_of.
  pose proof (@best_fold _ (fun kv : ConsensusStrategy * StrategyMetrics =>
                              avg_performance (snd kv))
                others [first] first (or_introl eq_refl)
                (Forall_cons _ (flt_irrefl _) (Forall_nil _))) as Hb.
  cbv zeta in Hb. cbn [List.app] in Hb.
  set (best := fold_left _ others first) in *.
  destruct Hb as [Hin Hall].
  split; [| split].
  - exists (snd best). split; [| exact Hall].
    destruct best as [bs bm]. exact Hin.
  - intro Hin'. apply in_map_iff in Hin'.
    destruct Hin' as [sm [Es Hf]]. apply filter_In in Hf.
    destruct Hf as [_ Hf]. apply andb_true_iff in Hf. destruct Hf as [_ Hf].
    destruct (ConsensusStrategy_eq_dec (fst sm) (fst best));
      [discriminate | congruence].
  - apply Forall_forall. intros s Hs. apply in_map_iff in Hs.
    destruct Hs as [[s' metrics] [Es Hf]]. apply filter_In in Hf.
    destruct Hf as [Hin' Hf]. apply andb_true_iff in Hf.
    destruct Hf as [Hf _]. cbn [fst snd] in *. subst s'.
    exists metrics. split; assumption.
Qed.

(* ================================================================== *)
(** ** Further properties of the consensus strategies *)
(* ================================================================== *)

Lemma only_ret A (a : A) : only_thoughts (ret a).
Proof.
  intro w. exists (thoughts w), (next_thought w). destruct w. reflexivity.
Qed.

Lemma only_bind A B (m : M A) (k : A -> M B) :
  only_thoughts m -> (forall a, only_thoughts (k a)) ->
  only_thoughts (bind m k).
Proof.
  intros Hm Hk w. unfold bind. destruct (Hm w) as [h [n E]].
  destruct (m w) as [[a | e] w1]; cbn [snd] in *.
  - destruct (Hk a w1) as [h' [n' E']]. exists h', n'.
    rewrite E', E. reflexivity.
  - exists h, n. exact E.
Qed.

Lemma only_read_thought r : only_thoughts (read_thought r).
Proof. intro w. apply (only_ret tt w). Qed.

Lemma only_now : only_thoughts now.
Proof. intro w. apply (only_ret tt w). Qed.

Lemma only_write_thought r t : only_thoughts (write_thought r t).
Proof. intro w. eexists. eexists. reflexivity. Qed.

Lemma only_new_thought t : only_thoughts (new_thought t).
Proof. intro w. eexists. eexists. reflexivity. Qed.

Lemma only_for_each A (xs : list A) (body : A -> M unit) :
  (forall a, only_thoughts (body a)) -> only_thoughts (for_each xs body).
Proof.
  intro H. induction xs as [| x xs IH]; cbn.
  - apply only_ret.
  - apply only_bind; [apply H | intros _; exact IH].
Qed.

Lemma only_fold_m A S (xs : list A) (body : S -> A -> M S) :
  (forall s a, only_thoughts (body s a)) ->
  forall s, only_thoughts (fold_m xs s body).
Proof.
  intro H. induction xs as [| x xs IH]; intro s; cbn.
  - apply only_ret.
  - apply only_bind; [apply H | intro s'; apply IH].
Qed.

Ltac only_step :=
  match goal with
  | |- only_thoughts (bind _ _) => apply only_bind; [| intros]
  | |- only_thoughts (for_each _ _) => apply only_for_each; intros
  | |- only_thoughts (fold_m _ _ _) => apply only_fold_m; intros
  | |- only_thoughts (if ?b then _ else _) => destruct b
  | |- only_thoughts (match ?x with _ => _ end) => destruct x
  | |- only_thoughts (ret _) => apply only_ret
  | |- only_thoughts (read_thought _) => apply only_read_thought
  | |- only_thoughts (write_thought _ _) => apply only_write_thought
  | |- only_thoughts (new_thought _) => apply only_new_thought
  | |- only_thoughts now => apply only_now
  end.

Lemma only_resolve_conflicts m cs : only_thoughts (resolve_conflicts m cs).
Proof.
  unfold resolve_conflicts, _resolve_factual_disagreement,
    _resolve_priority_disagreement, _resolve_methodological_conflict,
    _resolve_strategic_divergence, resolve_factual_pair,
    resolve_priority_pair, resolve_methodological_pair,
    resolve_strategic_pair, scale_confidence, append_reasoning,
    assign_reasoning, assign_content.
  repeat only_step.
Qed.

Lemma resolve_conflicts_returns (m : PosMap) (cs : list Conflict) (w : World) :
  exists m' h n,
    resolve_conflicts m cs w = (Ok m', with_thoughts w h n) /\
    keys m' = keys m.
Proof.
  destruct (@resolve_conflicts_invariant (fun _ _ => True)
              ltac:(auto) ltac:(auto) ltac:(auto) ltac:(auto)
              m cs w ltac:(intro; exact I))
    as [m' [w' [E [_ Hk]]]].
  destruct (only_resolve_conflicts m cs w) as [h [n Ew]].
  rewrite E in Ew. cbn [snd] in Ew. subst w'.
  exists m', h, n. split; assumption.
Qed.

Lemma detect_conflicts_nil_map (w : World) (m : PosMap) :
  detect_conflicts (items_in w m) <> [] -> m <> [].
Proof. intros H E. subst m. apply H. reflexivity. Qed.

(** X17: five of the eight strategies raise on every input.
    Collaborative synthesis, iterative refinement and emergent agreement
    stop at the first helper method the class does not define and leave
    the store as it was; the hybrid strategy stops at the comparison of
    the evidence dictionary with a number, in the landscape analysis or
    right after it, and leaves the store as it was; conflict resolution
    records the detected conflicts in the deliberation, lets the
    resolver rewrite the thoughts when there are conflicts, and then
    stops at an undefined helper as well. *)
Theorem X17_five_strategies_always_raise (deliberation : dref) (m : PosMap)
  (w : World) :
  _collaborative_synthesis_consensus deliberation m w =
    (Raise (AttributeError cls "_identify_common_themes"), w) /\
  _iterative_refinement_consensus deliberation m w =
    (Raise (AttributeError cls "_create_refinement_proposals"), w) /\
  _emergent_agreement_consensus deliberation m w =
    (Raise (AttributeError cls "_build_agreement_network"), w) /\
  _hybrid_adaptive_consensus deliberation m w =
    (Raise (TypeError dict_float_msg), w) /\
  exists w',
    _conflict_resolution_consensus deliberation m w =
      (Raise (AttributeError cls
                (match detect_conflicts (items_in w m) with
                 | [] => "_identify_common_themes"
                 | _ :: _ => "_build_consensus_from_resolved_conflicts"
                 end)), w') /\
    conflict_log (deliberations w' deliberation) =
      detect_conflicts (items_in w m) /\
    consensus_history w' = consensus_history w.
Proof.
  split; [reflexivity |]. split; [reflexivity |]. split; [reflexivity |].
  split.
  - unfold _hybrid_adaptive_consensus.
    cbv beta iota zeta delta [bind read_deliberation].
    rewrite landscape_eval. destruct (rule1 w m) eqn:E; [| reflexivity].
    unfold rule1 in E. apply andb_true_iff in E. destruct E as [_ E].
    apply Nat.eqb_eq in E. cbv zeta. cbn [conflicts_detected].
    rewrite E. reflexivity.
  - unfold _conflict_resolution_consensus.
    cbv beta iota zeta
      delta [bind items update_deliberation read_deliberation
             write_deliberation].
    set (w1 := with_deliberations w _ _).
    destruct (detect_conflicts (items_in w m)) as [| c cs] eqn:Ec.
    + exists w1. split; [reflexivity |]. subst w1. cbn.
      rewrite Nat.eqb_refl. split; reflexivity.
    + destruct (resolve_conflicts_returns m (c :: cs) w1)
        as [m' [h [n [E Hk]]]].
      rewrite E. destruct m' as [| kr m'].
      * exfalso. destruct m; [discriminate Ec | discriminate Hk].
      * eexists. split; [reflexivity |]. subst w1. cbn.
        rewrite Nat.eqb_refl. split; reflexivity.
Qed.

(** *** Weighted voting *)

Lemma weighted_voting_eval (d : dref) (m : PosMap) (w : World) :
  _weighted_voting_consensus d m w =
  (let w1 := phase_appended w d EVIDENCE_PRESENTATION in
   let ts := items_in w m in
   let scores :=
     evaluate_evidence_quality (evidence_registry (deliberations w d)) in
   match weighted_positions_of scores ts with
   | _ :: _ =>
       (Ok (mkCollectiveInsight
              ("weighted_voting_" ++ str_of_Z (clock w))
              (keys m)
              (_synthesize_weighted_positions (weighted_positions_of scores ts))
              (_determine_consensus_level_from_weights
                 (voting_weights_of scores ts) (length m))
              (fmin (Fin 1.0) (fmul (np_mean (confidences ts)) (Fin 1.1)))
              []
              "weighted_voting"), w1)
   | [] => _fallback_consensus m (task (deliberations w d)) w1
   end).
Proof.
  unfold _weighted_voting_consensus.
  cbv beta iota zeta
    delta [bind update_deliberation read_deliberation write_deliberation
           items now ret].
  cbn [deliberations with_deliberations]. rewrite Nat.eqb_refl.
  cbn [evidence_registry task set_phases].
  assert (H : forall (l : list (string * pyfloat))
                (f : M CollectiveInsight)
                (g : World -> result CollectiveInsight * World) w1,
             (match l with [] => f | _ :: _ => g end) w1 =
             match l with _ :: _ => g w1 | [] => f w1 end)
    by (intros [| x l] f g w1; reflexivity).
  rewrite H. reflexivity.
Qed.

Lemma specialist_weight_value (k : AgentRole) :
  exists x, dict_get_default specialist_weights k (Fin 0.5) = Fin x /\
            0.7 <= x /\ x <= 1.
Proof. destruct k; eexists; (split; [reflexivity | split; lra]). Qed.

Lemma dict_get_default_in_unit (scores : dict pyfloat) (k : AgentRole)
  (dflt : pyfloat) :
  Forall (fun kv => in_unit (snd kv)) scores -> in_unit dflt ->
  in_unit (dict_get_default scores k dflt).
Proof.
  intros H Hd. unfold dict_get_default.
  destruct (dict_get scores k) as [v |] eqn:E; [| exact Hd].
  apply dict_get_In in E. rewrite Forall_forall in H. exact (H _ E).
Qed.

Lemma evidence_scores_in_unit (registry : dict (list string)) :
  Forall (fun kv => in_unit (snd kv)) (evaluate_evidence_quality registry).
Proof.
  unfold evaluate_evidence_quality. apply Forall_map. apply Forall_forall.
  intros kv _. cbn [snd]. apply evidence_list_score_in_unit.
Qed.

(** Every raw voting weight is a number of at least 0.28. *)
Lemma raw_voting_weights_positive (scores : dict pyfloat)
  (ts : dict AgentThought) :
  Forall (fun kv => in_unit (snd kv)) scores ->
  Forall in_unit (confidences ts) ->
  Forall (fun kv => exists q, snd kv = Fin q /\ 0.28 <= q)
         (raw_voting_weights scores ts).
Proof.
  intros Hs Hc. unfold raw_voting_weights. apply Forall_map.
  unfold confidences in Hc. rewrite Forall_map in Hc.
  rewrite Forall_forall in *. intros [k t] Hin. cbn [fst snd].
  specialize (Hc _ Hin). cbn [snd] in Hc.
  destruct (specialist_weight_value k) as [x [-> [Hx0 Hx1]]].
  pose proof (@dict_get_default_in_unit scores k (Fin 0.5)
                ltac:(apply Forall_forall; exact Hs)
                ltac:(cbn; split; lra)) as He.
  destruct (dict_get_default scores k (Fin 0.5)) as [e |]; [| contradiction].
  destruct (confidence t) as [c |]; [| contradiction].
  cbn [in_unit] in *. eexists. split; [reflexivity |]. nra.
Qed.

Lemma fsum_positive (l : list pyfloat) (s : Q) :
  Forall (fun f => exists q, f = Fin q /\ 0.28 <= q) l ->
  exists q, fold_left fadd l (Fin s) = Fin q /\ s <= q /\
            (l <> [] -> s < q).
Proof.
  intro H. revert s. induction H as [| f l [x [-> Hx]] Hl IH]; intro s.
  - exists s. split; [reflexivity |]. split; [lra | congruence].
  - cbn [fold_left fadd fbin]. destruct (IH (s + x)) as [q [Eq [Hlo _]]].
    exists q. split; [exact Eq |]. split; [lra | intros _; lra].
Qed.

Lemma weighted_positions_nonempty (scores : dict pyfloat)
  (ts : dict AgentThought) :
  Forall (fun kv => in_unit (snd kv)) scores ->
  Forall in_unit (confidences ts) -> ts <> [] ->
  weighted_positions_of scores ts <> [].
Proof.
  intros Hs Hc Hne.
  pose proof (@raw_voting_weights_positive scores ts Hs Hc) as Hraw.
  unfold weighted_positions_of, voting_weights_of. cbv zeta.
  destruct (@fsum_positive (values (raw_voting_weights scores ts)) 0
              ltac:(unfold values; apply Forall_map; exact Hraw))
    as [total [Et [_ Hpos]]].
  unfold fsum. rewrite Et.
  destruct ts as [| [k t] rest]; [congruence |].
  assert (Htotal : 0 < total) by (apply Hpos; discriminate).
  replace (fgt (Fin total) (Fin 0)) with true
    by (symmetry; apply Qltb_lt; exact Htotal).
  inversion Hraw as [| ? ? [q [Eq Hq]] _]; subst.
  cbn [raw_voting_weights map flat_map fst snd] in *.
  unfold dict_get_default at 1. cbn [dict_get fst snd].
  unfold role_eqb at 1. destruct (AgentRole_eq_dec k k); [| congruence].
  rewrite Eq. cbn [fdiv fbin].
  replace (fgt (Fin (q / total)) (Fin 0)) with true; [discriminate |].
  symmetry. apply Qltb_lt. apply Qlt_shift_div_l; [exact Htotal | lra].
Qed.

Lemma level_from_own_weights (weights : dict pyfloat) :
  In (_determine_consensus_level_from_weights weights (length weights))
     (match weights with
      | [] => [PLURALITY]
      | _ :: _ => [SPECIALIST_OVERRIDE; MAJORITY_SUPER; MAJORITY_STRONG]
      end).
Proof.
  destruct weights as [| kv rest]; [left; reflexivity |].
  unfold _determine_consensus_level_from_weights.
  cbn [values map]. cbv zeta.
  destruct (fgt _ (Fin 0.7)); [left; reflexivity |].
  destruct (fgt _ (Fin 0.5)); [right; left; reflexivity |].
  replace (fge (of_nat (length (kv :: rest)))
               (fmul (of_nat (length (kv :: rest))) (Fin 0.7))) with true;
    [right; right; left; reflexivity |].
  symmetry. unfold fge, fle, of_nat, fmul, fbin.
  apply Qle_bool_iff.
  assert (0 <= inject_Z (Z.of_nat (length (kv :: rest))))
    by (apply (inject_nat_le (a := 0)); lia).
  lra.
Qed.

(** X18: the level read off a weight distribution is never UNANIMOUS;
    when the number of agents is the number of weights, as in the call
    from weighted voting, it is SPECIALIST_OVERRIDE, MAJORITY_SUPER or
    MAJORITY_STRONG unless there is no weight at all, so that the levels
    MAJORITY_SIMPLE and PLURALITY are out of reach for a non-empty
    distribution. *)
Theorem X18_level_from_weights (weights : dict pyfloat) (total_agents : nat) :
  _determine_consensus_level_from_weights weights total_agents <> UNANIMOUS /\
  In (_determine_consensus_level_from_weights weights (length weights))
     (match weights with
      | [] => [PLURALITY]
      | _ :: _ => [SPECIALIST_OVERRIDE; MAJORITY_SUPER; MAJORITY_STRONG]
      end).
Proof.
  split; [| apply level_from_own_weights].
  unfold _determine_consensus_level_from_weights.
  destruct (values weights); [discriminate |]. cbv zeta.
  repeat match goal with
         | |- (if ?b then _ else _) <> _ => destruct b
         end; discriminate.
Qed.

(** X19: on a non-empty map whose confidences lie in [0,1], weighted
    voting never falls back: every participant gets a positive weight,
    the insight names all keys of the map as contributors, its
    confidence is the mean confidence times 1.1 capped at 1.0, its level
    is SPECIALIST_OVERRIDE, MAJORITY_SUPER or MAJORITY_STRONG, and the
    only change to the store is the phase appended to the
    deliberation. *)
Theorem X19_weighted_voting_on_sound_positions (deliberation : dref)
  (m : PosMap) (w : World)
  (Hnonempty : m <> [])
  (Hunit : confidences_in_unit w m) :
  exists c,
    _weighted_voting_consensus deliberation m w =
      (Ok c, phase_appended w deliberation EVIDENCE_PRESENTATION) /\
    contributing_agents c = keys m /\
    conflicting_views c = [] /\
    synthesis_method c = "weighted_voting" /\
    confidence_score c =
      fmin (Fin 1.0)
           (fmul (np_mean (confidences (items_in w m))) (Fin 1.1)) /\
    In (consensus_level c)
       [SPECIALIST_OVERRIDE; MAJORITY_SUPER; MAJORITY_STRONG].
Proof.
  rewrite weighted_voting_eval. cbv zeta.
  set (scores := evaluate_evidence_quality _).
  assert (Hts : items_in w m <> []).
  { destruct m; [congruence | discriminate]. }
  pose proof (@weighted_positions_nonempty scores (items_in w m)
                (evidence_scores_in_unit _) (items_confidences Hunit) Hts)
    as Hpos.
  destruct (weighted_positions_of scores (items_in w m)) as [| p ps] eqn:E;
    [congruence |].
  eexists. split; [reflexivity |].
  cbn [contributing_agents conflicting_views synthesis_method
       confidence_score consensus_level].
  repeat (split; [reflexivity |]).
  assert (Hlen : length m =
                 length (voting_weights_of scores (items_in w m))).
  { unfold voting_weights_of, raw_voting_weights, items_in. cbv zeta.
    destruct (fgt _ _); rewrite ?length_map; reflexivity. }
  rewrite Hlen.
  pose proof (level_from_own_weights
                (voting_weights_of scores (items_in w m))) as Hl.
  destruct (voting_weights_of scores (items_in w m)) as [| v vs] eqn:Ev;
    [| exact Hl].
  exfalso. cbn [length] in Hlen. destruct m; [congruence | discriminate].
Qed.

Lemma X19_weighted_voting_on_sound_positions_witness :
  scenario_map <> [] /\ confidences_in_unit scenario_world scenario_map /\
  exists c,
    _weighted_voting_consensus 0%nat scenario_map scenario_world =
      (Ok c, phase_appended scenario_world 0%nat EVIDENCE_PRESENTATION) /\
    contributing_agents c = [QUEEN_COORDINATOR; CODE_ARCHITECT] /\
    feq (confidence_score c) (Fin 0.825).
Proof.
  assert (Hne : scenario_map <> []) by discriminate.
  assert (Hu : confidences_in_unit scenario_world scenario_map).
  { repeat constructor; cbn; lra. }
  split; [exact Hne |]. split; [exact Hu |].
  destruct (@X19_weighted_voting_on_sound_positions 0%nat scenario_map
              scenario_world Hne Hu) as [c [E [Hc [_ [_ [Hs _]]]]]].
  exists c. split; [exact E |]. split; [exact Hc |].
  rewrite Hs. vm_compute. reflexivity.
Defined.

(** *** Specialist authority *)

Lemma lead_specialist_eval (tk : AGITask) (ts : dict AgentThought) :
  _determine_lead_specialist tk ts =
  match specialist_scores tk ts with
  | first :: others => argmax first others
  | [] => QUEEN_COORDINATOR
  end.
Proof. reflexivity. Qed.

Lemma specialist_scores_members (tk : AGITask) (ts : dict AgentThought)
  (r : AgentRole) (score : pyfloat) :
  In (r, score) (specialist_scores tk ts) ->
  keyword_role r = true /\ dict_mem ts r = true.
Proof.
  unfold specialist_scores. intro H. apply in_flat_map in H.
  destruct H as [[k kws] [Hk H]]. cbn [fst snd] in H.
  unfold dict_mem.
  destruct (dict_get ts k) as [t |] eqn:E; [| contradiction].
  destruct H as [H | []]. injection H as <- _. rewrite E.
  split; [| reflexivity].
  cbn in Hk. repeat (destruct Hk as [Hk | Hk];
                     [injection Hk as <- _; reflexivity |]).
  contradiction.
Qed.

Lemma specialist_scores_nil (tk : AGITask) (ts : dict AgentThought)
  (r : AgentRole) :
  specialist_scores tk ts = [] -> keyword_role r = true ->
  dict_get ts r = None.
Proof.
  unfold specialist_scores. intros H Hr.
  assert (Hin : exists kws, In (r, kws) specialist_keywords).
  { destruct r; try discriminate Hr; eexists; cbn; tauto. }
  destruct Hin as [kws Hin].
  destruct (dict_get ts r) as [t |] eqn:E; [| reflexivity].
  exfalso.
  assert (Hf : In (r, fmul (of_nat (count_keywords kws
                                      (lower (description tk))))
                           (confidence t))
                  (flat_map
                     (fun rk : AgentRole * list string =>
                        match dict_get ts (fst rk) with
                        | Some thought =>
                            [(fst rk,
                              fmul (of_nat (count_keywords (snd rk)
                                              (lower (description tk))))
                                   (confidence thought))]
                        | None => []
                        end) specialist_keywords)).
  { apply in_flat_map. exists (r, kws). split; [exact Hin |].
    cbn [fst snd]. rewrite E. left. reflexivity. }
  rewrite H in Hf. exact Hf.
Qed.

(** X20: the lead specialist is the queen coordinator exactly when none
    of the seven roles of the keyword table has a position in the map;
    otherwise it is one of those roles, it has a position, and no scored
    role has a score above its own, even when every score is zero. *)
Theorem X20_lead_specialist (tk : AGITask) (ts : dict AgentThought) :
  match specialist_scores tk ts with
  | [] =>
      _determine_lead_specialist tk ts = QUEEN_COORDINATOR /\
      forall r, keyword_role r = true -> dict_get ts r = None
  | _ :: _ =>
      keyword_role (_determine_lead_specialist tk ts) = true /\
      dict_mem ts (_determine_lead_specialist tk ts) = true /\
      exists score,
        In (_determine_lead_specialist tk ts, score)
           (specialist_scores tk ts) /\
        Forall (fun rs => fgt (snd rs) score = false)
               (specialist_scores tk ts)
  end.
Proof.
  rewrite lead_specialist_eval.
  destruct (specialist_scores tk ts) as [| first others] eqn:E.
  - split; [reflexivity |]. intros r Hr.
    exact (specialist_scores_nil tk ts r E Hr).
  - unfold argmax.
    pose proof (@best_fold _ (fun kv : AgentRole * pyfloat => snd kv)
                  others [first] first (or_introl eq_refl)
                  (Forall_cons _ (flt_irrefl _) (Forall_nil _))) as Hb.
    cbv zeta in Hb. cbn [List.app] in Hb.
    set (best := fold_left _ others first) in *.
    destruct Hb as [Hin Hall]. destruct best as [lead score].
    cbn [fst snd] in *.
    assert (Hin' : In (lead, score) (specialist_scores tk ts))
      by (rewrite E; exact Hin).
    destruct (specialist_scores_members tk ts lead score Hin') as [H1 H2].
    split; [exact H1 |]. split; [exact H2 |].
    exists score. split; assumption.
Qed.

Lemma keys_filter_NoDup V (p : AgentRole * V -> bool) (d : dict V) :
  NoDup (keys d) -> NoDup (keys (filter p d)).
Proof.
  unfold keys. induction d as [| kv d IH]; intro H; [constructor |].
  inversion H as [| ? ? Hnotin Hd]; subst. cbn [filter].
  destruct (p kv); [| exact (IH Hd)].
  cbn [map]. constructor; [| exact (IH Hd)].
  intro Hin. apply Hnotin. apply in_map_iff in Hin.
  destruct Hin as [x [Ex Hx]]. apply filter_In in Hx.
  apply in_map_iff. exists x. split; [exact Ex | apply Hx].
Qed.

Lemma unique_key_value V (d : dict V) (k : AgentRole) (a b : V) :
  NoDup (keys d) -> In (k, a) d -> In (k, b) d -> a = b.
Proof.
  unfold keys. induction d as [| [k' v] d IH]; intros H Ha Hb; [contradiction |].
  inversion H as [| ? ? Hnotin Hd]; subst. cbn [map fst] in Hnotin.
  destruct Ha as [Ha | Ha], Hb as [Hb | Hb].
  - congruence.
  - injection Ha as -> ->. exfalso. apply Hnotin. apply in_map_iff.
    exists (k, b). split; [reflexivity | exact Hb].
  - injection Hb as -> ->. exfalso. apply Hnotin. apply in_map_iff.
    exists (k, a). split; [reflexivity | exact Ha].
  - exact (IH Hd Ha Hb).
Qed.

Lemma not_above_and_below (c : pyfloat) :
  fgt c (Fin 0.6) = true -> flt c (Fin 0.4) = true -> False.
Proof.
  destruct c as [x |]; cbn; [| discriminate].
  intros H1 H2. apply Qltb_lt in H1. apply Qltb_lt in H2. lra.
Qed.

(** X21: with distinct keys, specialist authority returns without
    touching the store whenever the lead specialist has a position: the
    level is SPECIALIST_OVERRIDE, the confidence is nine tenths of the
    lead's, the lead comes first among the contributors, no contributor
    is listed twice, all contributors are keys of the map, and no agent
    with a conflicting view is a contributor.  It hands over to weighted
    voting only when neither the queen coordinator nor any role of the
    keyword table has a position. *)
Theorem X21_specialist_authority (deliberation : dref) (m : PosMap)
  (w : World) (Hkeys : NoDup (keys m)) :
  match dict_get (items_in w m)
          (_determine_lead_specialist (task (deliberations w deliberation))
             (items_in w m)) with
  | Some specialist_thought =>
      exists c,
        _specialist_authority_consensus deliberation m w = (Ok c, w) /\
        consensus_level c = SPECIALIST_OVERRIDE /\
        confidence_score c = fmul (confidence specialist_thought) (Fin 0.9) /\
        hd_error (contributing_agents c) =
          Some (_determine_lead_specialist
                  (task (deliberations w deliberation)) (items_in w m)) /\
        NoDup (contributing_agents c) /\
        incl (contributing_agents c) (keys m) /\
        Forall (fun view => ~ In (fst view) (contributing_agents c))
               (conflicting_views c)
  | None =>
      _specialist_authority_consensus deliberation m w =
        _weighted_voting_consensus deliberation m w /\
      dict_get m QUEEN_COORDINATOR = None /\
      forall r, keyword_role r = true -> dict_get m r = None
  end.
Proof.
  assert (Hts : NoDup (keys (items_in w m)))
    by (rewrite keys_items_in; exact Hkeys).
  assert (Hget : forall r, dict_get (items_in w m) r = None ->
                           dict_get m r = None).
  { intros r. unfold items_in.
    rewrite (dict_get_map (fun x => thoughts w x)).
    destruct (dict_get m r); [discriminate | reflexivity]. }
  unfold _specialist_authority_consensus.
  cbv beta iota zeta delta [bind read_deliberation items now ret].
  set (tk := task (deliberations w deliberation)).
  set (ts := items_in w m) in *.
  set (lead := _determine_lead_specialist tk ts).
  destruct (dict_get ts lead) as [t |] eqn:E.
  - eexists. split; [reflexivity |].
    cbn [consensus_level confidence_score contributing_agents
         conflicting_views hd_error].
    split; [reflexivity |]. split; [reflexivity |]. split; [reflexivity |].
    split; [| split].
    + constructor; [| apply keys_filter_NoDup, Hts].
      intro Hin. unfold keys in Hin. apply in_map_iff in Hin.
      destruct Hin as [[k t'] [Ek Hf]]. apply filter_In in Hf.
      destruct Hf as [_ Hf]. cbn [fst snd] in *. subst k.
      unfold role_eqb in Hf.
      destruct (AgentRole_eq_dec lead lead); [discriminate | congruence].
    + rewrite <- (keys_items_in w m). fold ts.
      intros k [<- | Hk].
      * apply (dict_get_keys _ _ E).
      * exact (@keys_filter_incl _ _ _ k Hk).
    + apply Forall_map. apply Forall_forall. intros [k t'] Hf.
      apply filter_In in Hf. destruct Hf as [Hin Hf].
      cbn [fst snd] in *. apply andb_true_iff in Hf.
      destruct Hf as [Hnl Hlow]. intros [Hl | Hs].
      * subst k. unfold role_eqb in Hnl.
        destruct (AgentRole_eq_dec lead lead); [discriminate | congruence].
      * unfold keys in Hs. apply in_map_iff in Hs.
        destruct Hs as [[k' t''] [Ek Hf']]. apply filter_In in Hf'.
        destruct Hf' as [Hin' Hf']. cbn [fst snd] in *. subst k'.
        apply andb_true_iff in Hf'. destruct Hf' as [_ Hhigh].
        rewrite (unique_key_value _ _ _ _ Hts Hin' Hin) in Hhigh.
        exact (not_above_and_below _ Hhigh Hlow).
  - split; [reflexivity |].
    assert (Hnil : specialist_scores tk ts = []).
    { destruct (specialist_scores tk ts) as [| first others] eqn:Es;
        [reflexivity |].
      exfalso. subst lead. rewrite lead_specialist_eval, Es in E.
      unfold argmax in E.
      pose proof (@best_fold _ (fun kv : AgentRole * pyfloat => snd kv)
                    others [first] first (or_introl eq_refl)
                    (Forall_cons _ (flt_irrefl _) (Forall_nil _))) as Hb.
      cbv zeta in Hb. cbn [List.app] in Hb.
      destruct Hb as [Hin _]. rewrite <- Es in Hin.
      destruct (fold_left _ others first) as [r score]. cbn [fst] in E.
      destruct (specialist_scores_members tk ts r score Hin) as [_ Hm].
      unfold dict_mem in Hm. rewrite E in Hm. discriminate. }
    assert (Hlead : lead = QUEEN_COORDINATOR).
    { subst lead. rewrite lead_specialist_eval, Hnil. reflexivity. }
    split.
    + apply Hget. rewrite <- Hlead. exact E.
    + intros r Hr. apply Hget. exact (specialist_scores_nil tk ts r Hnil Hr).
Qed.

Lemma X21_specialist_authority_witness :
  NoDup (keys scenario_map) /\
  exists c,
    _specialist_authority_consensus 0%nat scenario_map scenario_world =
      (Ok c, scenario_world) /\
    contributing_agents c = [CODE_ARCHITECT; QUEEN_COORDINATOR] /\
    confidence_score c = fmul (Fin 0.6) (Fin 0.9).
Proof.
  assert (Hk : NoDup (keys scenario_map)).
  { repeat constructor; cbn; intuition discriminate. }
  split; [exact Hk |].
  pose proof (@X21_specialist_authority 0%nat scenario_map scenario_world Hk)
    as H.
  cbn in H. destruct H as [c [E [_ [Hc _]]]].
  exists c. split; [exact E |].
  injection E as <-. split; reflexivity.
Defined.

(** *** Evidence-based consensus and amplification *)

Lemma evidence_qualified_score (d : ConsensusDeliberation)
  (kv : AgentRole * AgentThought) :
  evidence_qualified d kv =
  fgt (evidence_list_score (dict_get_default (evidence_registry d) (fst kv) []))
      (Fin 0.6).
Proof.
  unfold evidence_qualified, dict_get_default, evaluate_evidence_quality.
  rewrite (dict_get_map evidence_list_score).
  destruct (dict_get (evidence_registry d) (fst kv)); reflexivity.
Qed.

Lemma fsum_at_least (a : Q) (l : list pyfloat) (s : Q) :
  Forall (fun f => exists q, f = Fin q /\ a <= q) l ->
  exists q, fold_left fadd l (Fin s) = Fin q /\
            s + inject_Z (Z.of_nat (length l)) * a <= q.
Proof.
  intro H. revert s. induction H as [| f l [x [-> Hx]] _ IH]; intro s.
  - exists s. split; [reflexivity |].
    change (inject_Z (Z.of_nat (length (@nil pyfloat)))) with 0. lra.
  - cbn [fold_left fadd fbin length].
    destruct (IH (s + x)) as [q [Eq Hq]]. exists q. split; [exact Eq |].
    rewrite Nat2Z.inj_succ. unfold Z.succ. rewrite inject_Z_plus.
    change (inject_Z 1) with 1.
    assert (E : s + (inject_Z (Z.of_nat (length l)) + 1) * a ==
                s + a + inject_Z (Z.of_nat (length l)) * a) by ring.
    rewrite E. lra.
Qed.

Lemma well_evidenced_score (l : list string) :
  well_evidenced l -> fgt (evidence_list_score l) (Fin 0.6) = true.
Proof.
  intros [Hne Hall]. destruct l as [| e0 l0]; [congruence |].
  unfold evidence_list_score, np_mean, fsum.
  assert (Hitems : Forall (fun f => exists q, f = Fin q /\ 0.7 <= q)
                          (map _evaluate_single_evidence (e0 :: l0))).
  { apply Forall_map. eapply Forall_impl; [| exact Hall].
    intros e He. cbv beta in He.
    destruct (single_evidence_value e) as [q [Eq Hq]].
    exists q. split; [exact Eq |]. rewrite Hq.
    destruct (String.eqb e "") eqn:Ee.
    - apply String.eqb_eq in Ee. subst e. cbn in He. lia.
    - eapply Qle_trans;
        [| apply (@item_score_mono 0 (String.length e) 2
                    (count_keywords specificity_keywords (lower e)));
           [lia | exact He]].
      vm_compute. discriminate. }
  destruct (fsum_at_least 0 Hitems) as [q [Eq Hq]]. rewrite Eq.
  unfold of_nat. cbn [fdiv fbin fgt flt]. apply Qltb_lt.
  set (n := inject_Z (Z.of_nat (length (map _evaluate_single_evidence
                                           (e0 :: l0))))) in *.
  assert (Hn : 0 < n).
  { subst n. apply (inject_nat_lt (a := 0)). cbn. lia. }
  apply Qlt_shift_div_l; [exact Hn | nra].
Qed.

(** X22: evidence-based consensus either gives the result of weighted
    voting or stops at the undefined synthesis helper and leaves the
    store as it was.  It is weighted voting when the deliberation's
    evidence registry has no evidence for any participant, and it stops
    at the helper when the registry has, for some participant, a
    non-empty list of which every item mentions at least two specificity
    keywords, whatever evidence the thoughts themselves carry. *)
Theorem X22_evidence_based_consensus (deliberation : dref) (m : PosMap)
  (w : World) :
  (_evidence_based_consensus deliberation m w =
     _weighted_voting_consensus deliberation m w \/
   _evidence_based_consensus deliberation m w =
     (Raise (AttributeError cls "_synthesize_evidence_based_positions"), w)) /\
  (Forall (fun kr =>
             dict_get_default
               (evidence_registry (deliberations w deliberation)) (fst kr) []
             = []) m ->
   _evidence_based_consensus deliberation m w =
     _weighted_voting_consensus deliberation m w) /\
  (Exists (fun kr =>
             well_evidenced
               (dict_get_default
                  (evidence_registry (deliberations w deliberation))
                  (fst kr) [])) m ->
   _evidence_based_consensus deliberation m w =
     (Raise (AttributeError cls "_synthesize_evidence_based_positions"), w)).
Proof.
  assert (Heval :
            _evidence_based_consensus deliberation m w =
            match filter (evidence_qualified (deliberations w deliberation))
                         (items_in w m) with
            | [] => _weighted_voting_consensus deliberation m w
            | _ :: _ =>
                (Raise (AttributeError cls
                          "_synthesize_evidence_based_positions"), w)
            end).
  { unfold _evidence_based_consensus.
    cbv beta iota zeta delta [bind read_deliberation items].
    fold (evidence_qualified (deliberations w deliberation)).
    destruct (filter _ _); reflexivity. }
  rewrite Heval. split; [| split].
  - destruct (filter _ _); [left | right]; reflexivity.
  - intro Hnone.
    replace (filter (evidence_qualified (deliberations w deliberation))
                    (items_in w m)) with (@nil (AgentRole * AgentThought));
      [reflexivity |].
    symmetry. clear Heval. unfold items_in.
    induction Hnone as [| kr m0 Hkr _ IH]; [reflexivity |].
    cbn [map filter]. rewrite evidence_qualified_score. cbn [fst].
    rewrite Hkr. cbn. exact IH.
  - intro Hsome.
    destruct (filter (evidence_qualified (deliberations w deliberation))
                     (items_in w m)) as [| q qs] eqn:E; [| reflexivity].
    exfalso. apply Exists_exists in Hsome.
    destruct Hsome as [kr [Hin Hwell]].
    assert (Hq : In (fst kr, thoughts w (snd kr))
                    (filter (evidence_qualified (deliberations w deliberation))
                            (items_in w m))).
    { apply filter_In. split.
      - unfold items_in. apply in_map_iff. exists kr.
        split; [reflexivity | exact Hin].
      - rewrite evidence_qualified_score. cbn [fst].
        apply well_evidenced_score, Hwell. }
    rewrite E in Hq. exact Hq.
Qed.

Lemma validations_of_none ag d c t :
  existsb (fun role => dict_mem ag role && dict_mem (agent_positions d) role)
          (contributing_agents c) = false ->
  specialist_validations ag d c t = [].
Proof.
  unfold specialist_validations.
  induction (contributing_agents c) as [| role roles IH];
    cbn [flat_map existsb]; [reflexivity |].
  unfold dict_mem at 1.
  destruct (dict_get ag role) as [agent |]; cbn [andb orb].
  - destruct (dict_mem (agent_positions d) role); cbn [orb];
      [intro H; discriminate H | exact IH].
  - exact IH.
Qed.

(** X23: amplification never raises and never changes the store.
    Without a validating contributor it returns the insight it was
    given; with one it returns a new insight with the same contributors,
    content and level, whose identifier and method are tagged as
    amplified and whose list of conflicting views is empty, whatever
    views the original insight listed. *)
Theorem X23_amplification_outcome (consensus : CollectiveInsight)
  (deliberation : dref) (w : World) :
  exists amplified,
    _amplify_consensus_quality consensus deliberation w = (Ok amplified, w) /\
    if has_validation w deliberation consensus
    then insight_id amplified = "amplified_" ++ insight_id consensus /\
         synthesis_method amplified =
           synthesis_method consensus ++ "_amplified" /\
         contributing_agents amplified = contributing_agents consensus /\
         synthesized_content amplified = synthesized_content consensus /\
         consensus_level amplified = consensus_level consensus /\
         conflicting_views amplified = []
    else amplified = consensus.
Proof.
  unfold _amplify_consensus_quality.
  cbv beta iota zeta delta [bind read_deliberation get_world now ret].
  destruct (has_validation w deliberation consensus) eqn:Hv.
  - destruct (specialist_validations (agents w) (deliberations w deliberation)
                consensus (clock w)) as [| v vs] eqn:E.
    + apply validations_nil in E. unfold has_validation in Hv. congruence.
    + eexists. split; [reflexivity |]. cbn. repeat split.
  - rewrite (validations_of_none _ _ _ _ Hv).
    exists consensus. split; reflexivity.
Qed.

(** *** Recording patterns and series of calls *)

Lemma skipn_snoc A (n : nat) (l : list A) (x : A) :
  (n <= length l)%nat -> skipn n (l ++ [x]) = (skipn n l ++ [x])%list.
Proof.
  intro H. rewrite skipn_app.
  replace (n - length l)%nat with 0%nat by lia. reflexivity.
Qed.

(** X24: recording a pattern under a key puts it last in the list of
    that key, which then has at most a hundred entries however long it
    was before, and leaves the lists of all other keys as they were. *)
Theorem X24_recorded_patterns_are_bounded
  (patterns : list (string * list LearningPattern)) (key : string)
  (p : LearningPattern) :
  (exists older,
      In (key, (older ++ [p])%list) (record_pattern patterns key p) /\
      (length (older ++ [p]) <= 100)%nat) /\
  forall k ps, k <> key ->
    (In (k, ps) (record_pattern patterns key p) <-> In (k, ps) patterns).
Proof.
  induction patterns as [| [k0 ps0] rest [[older [Hin Hlen]] IH]];
    cbn [record_pattern].
  - split.
    + exists []. split; [left; reflexivity | cbn; lia].
    + intros k ps Hk. split; [| intros []].
      intros [H | []]. congruence.
  - destruct (String.eqb k0 key) eqn:E.
    + apply String.eqb_eq in E. subst k0. split.
      * cbv zeta. destruct (100 <? length (ps0 ++ [p]))%nat eqn:El.
        -- apply Nat.ltb_lt in El. rewrite length_app in El. cbn in El.
           exists (skipn (length (ps0 ++ [p]) - 100) ps0). split.
           ++ left. rewrite skipn_snoc; [reflexivity |].
              rewrite length_app. cbn. lia.
           ++ rewrite length_app, length_skipn, length_app.
              cbn [length]. lia.
        -- apply Nat.ltb_ge in El. exists ps0.
           split; [left; reflexivity | exact El].
      * intros k ps Hk. cbn [In]. split; intros [H | H];
          try (right; exact H); congruence.
    + split.
      * exists older. split; [right; exact Hin | exact Hlen].
      * intros k ps Hk. cbn [In]. rewrite (IH k ps Hk). reflexivity.
Qed.

(** X25: a series of calls of [reach_consensus], with any tasks, maps,
    strategies and voting methods, leaves the whole store as it was: no
    thought is rewritten, no deliberation is created or left active,
    nothing is added to the history or to the learned patterns, and the
    analytics report what they reported before the calls. *)
Theorem X25_calls_leave_the_store_unchanged (calls : list Call) (w : World) :
  run_calls calls w = w /\
  get_consensus_analytics (run_calls calls w) = get_consensus_analytics w.
Proof.
  assert (H : run_calls calls w = w).
  { unfold run_calls. induction calls as [| [[[tk m] s] v] calls IH];
      [reflexivity |].
    cbn [fold_left]. rewrite reach_consensus_eval. cbn [snd]. exact IH. }
  rewrite H. split; reflexivity.
Qed.
